(** * Schedule / realtime reconciliation engine of the MTA GTFS server

    A shallow embedding of the TypeScript sources
    [server/src/gtfs/realtime.ts], [server/src/mcp/utils/timezone.ts] and
    [server/src/mcp/services/gtfs-service.ts], followed by the properties
    of the cache, the identifier reconciler, the derivation engine and the
    query facade. *)

From Stdlib Require Import ZArith QArith Qround Qabs List Bool Lia Ascii String.
From Stdlib Require Import Sorted Permutation.
From Stdlib Require DecimalString.
Import ListNotations.

Local Open Scope Z_scope.

(** ** The part of the JavaScript runtime the sources rely on *)

Module JS.

(** JavaScript numbers.  Finite doubles are read as the rational they
    denote: rounding error, overflow and the sign of zero are not
    represented. *)
Inductive number : Type :=
| NaN
| PInf
| NInf
| Num (q : Q).

Definition ofZ (z : Z) : number := Num (inject_Z z).

Definition neg (x : number) : number :=
  match x with
  | NaN => NaN
  | PInf => NInf
  | NInf => PInf
  | Num q => Num (- q)
  end.

Definition add (x y : number) : number :=
  match x, y with
  | NaN, _ | _, NaN => NaN
  | PInf, NInf | NInf, PInf => NaN
  | PInf, _ | _, PInf => PInf
  | NInf, _ | _, NInf => NInf
  | Num p, Num q => Num (p + q)
  end.

Definition sub (x y : number) : number := add x (neg y).

(** Sign of a number: [None] for [NaN]. *)
Definition sign (x : number) : option comparison :=
  match x with
  | NaN => None
  | PInf => Some Gt
  | NInf => Some Lt
  | Num q => Some (q ?= 0)%Q
  end.

Definition signed_inf (s t : comparison) : number :=
  match s, t with
  | Eq, _ | _, Eq => NaN
  | Gt, Gt | Lt, Lt => PInf
  | _, _ => NInf
  end.

Definition mul (x y : number) : number :=
  match x, y with
  | Num p, Num q => Num (p * q)
  | _, _ =>
      match sign x, sign y with
      | Some s, Some t => signed_inf s t
      | _, _ => NaN
      end
  end.

(** Division.  A zero divisor is read as [+0]; every division of the
    modelled sources has a divisor that is positive. *)
Definition div (x y : number) : number :=
  match x, y with
  | NaN, _ | _, NaN => NaN
  | Num p, Num q =>
      if Qeq_bool q 0
      then match (p ?= 0)%Q with Eq => NaN | Gt => PInf | Lt => NInf end
      else Num (p / q)
  | Num _, _ => Num 0
  | _, Num q =>
      match sign x with
      | Some s => signed_inf s (match (q ?= 0)%Q with Lt => Lt | _ => Gt end)
      | None => NaN
      end
  | _, _ => NaN
  end.

(** [x < y]; false as soon as one side is [NaN]. *)
Definition ltb (x y : number) : bool :=
  match x, y with
  | NaN, _ | _, NaN => false
  | _, NInf => false
  | NInf, _ => true
  | PInf, _ => false
  | _, PInf => true
  | Num p, Num q => negb (Qle_bool q p)
  end.

Definition gtb (x y : number) : bool := ltb y x.

(** [x === y] on numbers. *)
Definition eqb (x y : number) : bool :=
  match x, y with
  | PInf, PInf | NInf, NInf => true
  | Num p, Num q => Qeq_bool p q
  | _, _ => false
  end.

(** [Math.min] and [Math.max] of two arguments. *)
Definition min (x y : number) : number :=
  match x, y with
  | NaN, _ | _, NaN => NaN
  | _, _ => if ltb y x then y else x
  end.

Definition max (x y : number) : number :=
  match x, y with
  | NaN, _ | _, NaN => NaN
  | _, _ => if ltb x y then y else x
  end.

(** [Math.round]: the nearest integer, halves going up. *)
Definition round (x : number) : number :=
  match x with
  | Num q => ofZ (Qfloor (q + (1 # 2)))
  | _ => x
  end.

(** [Math.floor]. *)
Definition floor (x : number) : number :=
  match x with
  | Num q => ofZ (Qfloor q)
  | _ => x
  end.

(** *** Strings *)

Local Open Scope string_scope.
Local Open Scope Z_scope.

Definition code (c : ascii) : Z := Z.of_N (N_of_ascii c).

(** White space skipped by the numeric conversions: tab, line feed,
    vertical tab, form feed, carriage return and space. *)
Definition isSpace (c : ascii) : bool :=
  let n := code c in ((9 <=? n) && (n <=? 13)) || (n =? 32).

Definition isDigit (c : ascii) : bool :=
  let n := code c in (48 <=? n) && (n <=? 57).

(** Value of a character as a digit of the given radix. *)
Definition digitOf (radix : Z) (c : ascii) : option Z :=
  let n := code c in
  let v :=
    if (48 <=? n) && (n <=? 57) then Some (n - 48)
    else if (97 <=? n) && (n <=? 122) then Some (n - 87)
    else if (65 <=? n) && (n <=? 90) then Some (n - 55)
    else None in
  match v with
  | Some d => if d <? radix then Some d else None
  | None => None
  end.

Fixpoint trimStart (s : string) : string :=
  match s with
  | String c r => if isSpace c then trimStart r else s
  | EmptyString => s
  end.

Fixpoint rev_string (acc s : string) : string :=
  match s with
  | String c r => rev_string (String c acc) r
  | EmptyString => acc
  end.

Definition trim (s : string) : string :=
  rev_string "" (trimStart (rev_string "" (trimStart s))).

(** The longest prefix of digits of the radix, as the list of their
    values, and what follows it. *)
Fixpoint takeDigits (radix : Z) (s : string) : list Z * string :=
  match s with
  | String c r =>
      match digitOf radix c with
      | Some d => let (ds, rest) := takeDigits radix r in (d :: ds, rest)
      | None => ([], s)
      end
  | EmptyString => ([], s)
  end.

Definition digitsValue (radix : Z) (ds : list Z) : Z :=
  fold_left (fun acc d => acc * radix + d) ds 0.

(** An optional sign: [true] for a minus sign. *)
Definition takeSign (s : string) : bool * string :=
  match s with
  | String "-" r => (true, r)
  | String "+" r => (false, r)
  | _ => (false, s)
  end.

Definition isEmpty {A : Type} (l : list A) : bool :=
  match l with [] => true | _ => false end.

(** [parseInt(s)] with no radix argument. *)
Definition parseInt (s : string) : number :=
  let (minus, s1) := takeSign (trimStart s) in
  let (radix, s2) :=
    match s1 with
    | String "0" (String "x" r) | String "0" (String "X" r) => (16, r)
    | _ => (10, s1)
    end in
  let (ds, _) := takeDigits radix s2 in
  if isEmpty ds then NaN
  else let v := digitsValue radix ds in ofZ (if minus then - v else v).

(** Ten to the power [e], for [e] of either sign. *)
Definition pow10 (e : Z) : Q :=
  if e <? 0 then 1 / inject_Z (10 ^ (- e)) else inject_Z (10 ^ e).

(** The exponent part of a decimal literal: [e] or [E], an optional sign
    and at least one digit; absent, the exponent is zero and nothing is
    consumed. *)
Definition takeExponent (s : string) : Z * string :=
  match s with
  | String c r =>
      if Ascii.eqb c "e" || Ascii.eqb c "E" then
        let (minus, r1) := takeSign r in
        let (ds, rest) := takeDigits 10 r1 in
        if isEmpty ds then (0, s)
        else let v := digitsValue 10 ds in ((if minus then - v else v), rest)
      else (0, s)
  | EmptyString => (0, s)
  end.

(** The longest prefix that is a decimal literal (sign, [Infinity], or
    digits with an optional fraction and exponent), with what follows
    it; [NaN] when there is none. *)
Definition takeDecimal (s : string) : number * string :=
  let (minus, s1) := takeSign s in
  if prefix "Infinity" s1
  then ((if minus then NInf else PInf), substring 8 (length s1 - 8) s1)
  else
    let (ip, r1) := takeDigits 10 s1 in
    let (fp, r2) :=
      match r1 with
      | String "." r => takeDigits 10 r
      | _ => ([], r1)
      end in
    if isEmpty ip && isEmpty fp then (NaN, s)
    else
      let (e, r3) := takeExponent r2 in
      let m := inject_Z (digitsValue 10 (ip ++ fp)%list) in
      let q := (m * pow10 (e - Z.of_nat (List.length fp)))%Q in
      (Num (Qred (if minus then - q else q)), r3).

(** [parseFloat(s)]. *)
Definition parseFloat (s : string) : number :=
  fst (takeDecimal (trimStart s)).

(** [Number(s)] on a string: white space is trimmed on both sides, the
    empty string is zero and the whole of the rest has to be one
    numeric literal. *)
Definition Number (s : string) : number :=
  let t := trim s in
  let radixLiteral (radix : Z) (r : string) : number :=
    let (ds, rest) := takeDigits radix r in
    if isEmpty ds then NaN
    else match rest with
         | EmptyString => ofZ (digitsValue radix ds)
         | _ => NaN
         end in
  match t with
  | EmptyString => Num 0
  | String "0" (String "x" r) | String "0" (String "X" r) => radixLiteral 16 r
  | String "0" (String "o" r) | String "0" (String "O" r) => radixLiteral 8 r
  | String "0" (String "b" r) | String "0" (String "B" r) => radixLiteral 2 r
  | _ =>
      match takeDecimal t with
      | (v, EmptyString) => v
      | _ => NaN
      end
  end.

(** [s.endsWith(search)]: the [length search] characters that end [s]
    are compared with [search]. *)
Definition endsWith (s search : string) : bool :=
  let len := length s in
  let searchLength := length search in
  if (len <? searchLength)%nat then false
  else String.eqb (substring (len - searchLength) searchLength s) search.

(** [s.toLowerCase()], on the letters A to Z. *)
Definition lowerChar (c : ascii) : ascii :=
  let n := code c in
  if (65 <=? n) && (n <=? 90) then ascii_of_N (Z.to_N (n + 32)) else c.

Fixpoint toLowerCase (s : string) : string :=
  match s with
  | String c r => String (lowerChar c) (toLowerCase r)
  | EmptyString => EmptyString
  end.

(** [a.localeCompare(b)], read as the order of the code units; it is the
    order of the collation on the fixed-width digit-and-colon strings of
    a schedule. *)
Definition localeCompare (a b : string) : number :=
  match String.compare a b with
  | Lt => ofZ (-1)
  | Eq => ofZ 0
  | Gt => ofZ 1
  end.

(** [a >= b] and [a < b] on strings. *)
Definition str_geb (a b : string) : bool := String.leb b a.
Definition str_ltb (a b : string) : bool := String.ltb a b.
Definition str_gtb (a b : string) : bool := String.ltb b a.

(** [s.split(sep)] for a one-character separator. *)
Fixpoint split_go (sep : ascii) (cur s : string) : list string :=
  match s with
  | String c r =>
      if Ascii.eqb c sep then rev_string "" cur :: split_go sep "" r
      else split_go sep (String c cur) r
  | EmptyString => [rev_string "" cur]
  end.

Definition split (sep : ascii) (s : string) : list string :=
  split_go sep "" s.

(** Truthiness of a string. *)
Definition truthy (s : string) : bool :=
  match s with EmptyString => false | _ => true end.

(** Optional chaining [o?.f] into an optional field. *)
Definition chain {A B : Type} (o : option A) (f : A -> option B) : option B :=
  match o with
  | Some a => f a
  | None => None
  end.

(** [s || d] on an optional string: [d] replaces an absent or an empty
    string. *)
Definition orElse (o : option string) (d : string) : string :=
  match o with
  | Some s => if truthy s then s else d
  | None => d
  end.

(** *** Arrays *)

Section Arrays.
Context {A : Type}.

(** [l.find(p)]. *)
Definition find (p : A -> bool) (l : list A) : option A := List.find p l.

(** [l.slice(0, n)]: a negative [n] counts from the end. *)
Definition slice0 (n : Z) (l : list A) : list A :=
  let len := Z.of_nat (List.length l) in
  let final := if n <? 0 then Z.max (len + n) 0 else Z.min n len in
  firstn (Z.to_nat final) l.

(** [l.sort(cmp)]: a stable sort; the comparator's [NaN] counts as zero
    and [a] stays before [b] unless [cmp a b > 0]. *)
Definition before (cmp : A -> A -> number) (a b : A) : bool :=
  negb (gtb (cmp a b) (Num 0)).

Fixpoint insert (cmp : A -> A -> number) (a : A) (l : list A) : list A :=
  match l with
  | [] => [a]
  | b :: r => if before cmp a b then a :: l else b :: insert cmp a r
  end.

Fixpoint sort (cmp : A -> A -> number) (l : list A) : list A :=
  match l with
  | [] => []
  | a :: r => insert cmp a (sort cmp r)
  end.
End Arrays.

End JS.

(** ** Static schedule tables: gtfs/types.ts *)

Module Agency.
Record t : Type := { agency_name : string; agency_url : string }.
End Agency.

Module Route.
Record t : Type := {
  route_id : string;
  route_short_name : string;
  route_long_name : string;
  route_type : string;
  route_color : option string;
  route_text_color : option string
}.
End Route.

Module Stop.
Record t : Type := {
  stop_id : string;
  stop_code : option string;
  stop_name : string;
  stop_lat : string;
  stop_lon : string;
  parent_station : option string;
  platform_code : option string
}.
End Stop.

Module Trip.
Record t : Type := {
  route_id : string;
  service_id : string;
  trip_id : string;
  trip_headsign : option string;
  direction_id : option string;
  shape_id : option string
}.
End Trip.

Module StopTime.
Record t : Type := {
  trip_id : string;
  arrival_time : string;
  departure_time : string;
  stop_id : string;
  stop_sequence : string;
  shape_distance_traveled : option string
}.
End StopTime.

Module Calendar.
Record t : Type := {
  service_id : string;
  monday : string;
  tuesday : string;
  wednesday : string;
  thursday : string;
  friday : string;
  saturday : string;
  sunday : string;
  start_date : string;
  end_date : string
}.
End Calendar.

Module Shape.
Record t : Type := {
  shape_id : string;
  shape_pt_lat : string;
  shape_pt_lon : string;
  shape_pt_sequence : string;
  shape_dist_traveled : option string
}.
End Shape.

Record GTFSData : Type := {
  agencies : list Agency.t;
  routes : list Route.t;
  stops : list Stop.t;
  trips : list Trip.t;
  stopTimes : list StopTime.t;
  calendar : list Calendar.t;
  shapes : list Shape.t
}.

(** ** Live feed messages: gtfs/proto *)

Module Proto.

(** Modelled from the spec: the generated protobuf declarations of
    [gtfs/proto] are not part of the sources.  An arrival or a departure
    is a pair of an optional epoch-seconds time and an optional delay in
    seconds. *)
Record StopTimeEvent : Type := {
  delay : option Z;
  time : option Z
}.

(** Modelled from the spec: a per-stop update carries a stop id and/or a
    stop sequence, and an optional arrival and departure. *)
Record StopTimeUpdate : Type := {
  stopSequence : option Z;
  stopId : option string;
  arrival : option StopTimeEvent;
  departure : option StopTimeEvent
}.

(** Modelled from the spec: the descriptor holding the short trip
    identifier of the feed. *)
Record TripDescriptor : Type := { tripId : option string }.

(** Modelled from the spec: a trip update is a trip descriptor, an
    ordered list of per-stop updates and an optional trip-level delay. *)
Record TripUpdate : Type := {
  trip : option TripDescriptor;
  stopTimeUpdate : option (list StopTimeUpdate);
  tripDelay : option Z
}.

(** Modelled from the spec: the header and the entities of a decoded
    feed message, as far as the loader reads them. *)
Record FeedHeader : Type := { timestamp : option Z }.
Record FeedEntity : Type := { tripUpdate : option TripUpdate }.
Record FeedMessage : Type := {
  header : option FeedHeader;
  entity : option (list FeedEntity)
}.

End Proto.

Record GTFSRealtimeData : Type := {
  trip_updates : list Proto.TripUpdate;
  last_updated : JS.number
}.

(** ** Dates and their rendering *)

Module Clock.

Local Open Scope string_scope.
Local Open Scope Z_scope.

(** What the host contributes to the rendering of a date: the offset
    from UTC, in seconds, of America/New_York at an epoch second; the
    offset of the host's own zone, taken fixed; and whether its en-US
    24-hour cycle prints the hour after midnight as 24. *)
Record Host : Type := {
  eastern : Z -> Z;
  hostOffset : Z;
  midnight24 : bool
}.

Definition digitChar (d : Z) : ascii := ascii_of_N (Z.to_N (48 + d)).

(** The last [w] decimal digits of a natural number, zero-padded. *)
Fixpoint pad (w : nat) (n : Z) : string :=
  match w with
  | O => ""
  | S w' => pad w' (n / 10) ++ String (digitChar (n mod 10)) ""
  end.

(** Decimal numeral of an integer, as number-to-string conversion
    prints it. *)
Definition showZ (z : Z) : string :=
  DecimalString.NilZero.string_of_int (Z.to_int z).

(** A valid date object is its time value, in milliseconds since the
    epoch.  [new Date(x)] for a number gives one unless [x] is not
    finite or lies outside the range of time values: [None] stands for
    the invalid date. *)
Definition newDate (x : JS.number) : option Z :=
  match x with
  | JS.Num q =>
      if Qle_bool (Qabs q) (inject_Z 8640000000000000)
      then Some (Z.quot (Qnum q) (Zpos (Qden q)))
      else None
  | _ => None
  end.

(** Year, month and day of a day number counted from 1970-01-01. *)
Definition civil (days : Z) : Z * Z * Z :=
  let z := days + 719468 in
  let era := z / 146097 in
  let doe := z - era * 146097 in
  let yoe := (doe - doe / 1460 + doe / 36524 - doe / 146096) / 365 in
  let doy := doe - (365 * yoe + yoe / 4 - yoe / 100) in
  let mp := (5 * doy + 2) / 153 in
  let d := doy - (153 * mp + 2) / 5 + 1 in
  let m := if mp <? 10 then mp + 3 else mp - 9 in
  let y := yoe + era * 400 + (if m <=? 2 then 1 else 0) in
  (y, m, d).

(** Day of the week of a day number: 0 is Sunday. *)
Definition weekday (days : Z) : Z := (days + 4) mod 7.

(** Hour field under [hour12: false]. *)
Definition hourField (h : Host) (hh : Z) : string :=
  if (hh =? 0) && midnight24 h then "24" else pad 2 hh.

(** Time of day of a wall-clock second count, as HH:MM:SS and HH:MM. *)
Definition renderHMS (h : Host) (wall : Z) : string :=
  let sod := wall mod 86400 in
  hourField h (sod / 3600) ++ ":" ++ pad 2 (sod / 60 mod 60)
    ++ ":" ++ pad 2 (sod mod 60).

Definition renderHM (h : Host) (wall : Z) : string :=
  let sod := wall mod 86400 in
  hourField h (sod / 3600) ++ ":" ++ pad 2 (sod / 60 mod 60).

(** [d.toLocaleTimeString("en-US", { timeZone: "America/New_York",
    hour12: false, ... })] with hour, minute and second. *)
Definition toEasternTimeString (h : Host) (ms : Z) : string :=
  let t := ms / 1000 in renderHMS h (t + eastern h t).

(** [d.toLocaleTimeString("en-US", { hour12: false, hour: "2-digit",
    minute: "2-digit" })]: no time zone is named, the host's is used. *)
Definition toLocalTimeStringHM (h : Host) (d : option Z) : string :=
  match d with
  | Some ms => renderHM h (ms / 1000 + hostOffset h)
  | None => "Invalid Date"
  end.

(** [new Date(d.toLocaleString("en-US", { timeZone: "America/New_York" }))]:
    the Eastern wall-clock reading of [d], to the second, read back as a
    time of the host's zone. *)
Definition easternReadAsLocal (h : Host) (ms : Z) : Z :=
  let t := ms / 1000 in (t + eastern h t - hostOffset h) * 1000.

(** [d.getDay()], in the host's zone. *)
Definition getDay (h : Host) (ms : Z) : Z :=
  weekday ((ms / 1000 + hostOffset h) / 86400).

(** The date part of [d.toISOString()] for a day number: the year on
    four digits from 0 to 9999 and signed on six digits otherwise. *)
Definition isoDay (day : Z) : string :=
  let '(y, m, dd) := civil day in
  let year :=
    if (0 <=? y) && (y <=? 9999) then pad 4 y
    else (if y <? 0 then "-" else "+") ++ pad 6 (Z.abs y) in
  year ++ "-" ++ pad 2 m ++ "-" ++ pad 2 dd.

(** [d.toISOString()] up to the day: the UTC date. *)
Definition isoDate (ms : Z) : string := isoDay (ms / 1000 / 86400).

(** [s.replace(/-/g, "")]. *)
Fixpoint removeDashes (s : string) : string :=
  match s with
  | String c r =>
      if Ascii.eqb c "-" then removeDashes r else String c (removeDashes r)
  | EmptyString => EmptyString
  end.

End Clock.

(** ** Failing computations *)

Module Exc.

(** The outcome of code that may throw: a value, or the error thrown. *)
Inductive t (A : Type) : Type :=
| Ok (a : A)
| Throw (message : string).
Arguments Ok {A} a.
Arguments Throw {A} message.

Definition bind {A B : Type} (m : t A) (k : A -> t B) : t B :=
  match m with
  | Ok a => k a
  | Throw e => Throw e
  end.

(** [try { body } catch (error) { handler }]. *)
Definition tryCatch {A : Type} (body : t A) (handler : string -> t A) : t A :=
  match body with
  | Ok a => Ok a
  | Throw e => handler e
  end.

End Exc.

Notation "x <- m ;; k" := (Exc.bind m (fun x => k))
  (at level 61, m at next level, right associativity).

(** ** The live loader and the arrival estimate: gtfs/realtime.ts *)

Module Realtime.

Local Open Scope string_scope.
Local Open Scope Z_scope.

(** The answer of the feed's endpoint. *)
Record Response : Type := {
  ok : bool;
  status : Z;
  arrayBuffer : Exc.t (list Byte.byte)
}.

(** What one run of the loader meets: the outcome of [fetch], the
    protobuf decoder and the reading of [Date.now()]. *)
Record World : Type := {
  fetch : Exc.t Response;
  decode : list Byte.byte -> Exc.t Proto.FeedMessage;
  dateNow : Z
}.

Definition parseFeedMessage (w : World) (buffer : list Byte.byte)
  : Exc.t Proto.FeedMessage :=
  Exc.tryCatch (decode w buffer) (fun error => Exc.Throw error).

Definition tripUpdatesOf (es : list Proto.FeedEntity) : list Proto.TripUpdate :=
  flat_map
    (fun e => match Proto.tripUpdate e with Some u => [u] | None => [] end)
    es.

Definition fetchGTFSRealtimeData (w : World) : Exc.t GTFSRealtimeData :=
  Exc.tryCatch
    (response <- fetch w ;;
     if negb (ok response)
     then Exc.Throw ("HTTP error! status: " ++ Clock.showZ (status response))
     else
       buffer <- arrayBuffer response ;;
       feedMessage <- parseFeedMessage w buffer ;;
       let tripUpdates :=
         match Proto.entity feedMessage with
         | Some es => tripUpdatesOf es
         | None => []
         end in
       Exc.Ok {|
         trip_updates := tripUpdates;
         last_updated :=
           match Proto.header feedMessage with
           | Some {| Proto.timestamp := Some ts |} =>
               if ts =? 0 then JS.ofZ (dateNow w)
               else JS.mul (JS.parseInt (Clock.showZ ts)) (JS.ofZ 1000)
           | _ => JS.ofZ (dateNow w)
           end
       |})
    (fun error =>
       Exc.Ok {| trip_updates := []; last_updated := JS.ofZ (dateNow w) |}).

Definition sameTripId (tripId : string) (update : Proto.TripUpdate) : bool :=
  match Proto.trip update with
  | Some {| Proto.tripId := Some id |} => String.eqb id tripId
  | _ => false
  end.

Definition enrichTripWithRealtime (tripId : string) (realtimeData : GTFSRealtimeData)
  : option Proto.TripUpdate :=
  JS.find (sameTripId tripId) (trip_updates realtimeData).

Definition formatDelay (delaySeconds : Z) : string :=
  if delaySeconds =? 0 then "On time"
  else
    let minutes := Z.abs delaySeconds / 60 in
    let seconds := Z.abs delaySeconds mod 60 in
    if delaySeconds >? 0
    then Clock.showZ minutes ++ "m " ++ Clock.showZ seconds ++ "s late"
    else Clock.showZ minutes ++ "m " ++ Clock.showZ seconds ++ "s early".

Record ArrivalTime : Type := {
  time : string;
  delay : option string;
  isRealtime : bool
}.

(** Truthiness of an optional number: present and not zero. *)
Definition truthyZ (o : option Z) : option Z :=
  match o with
  | Some z => if z =? 0 then None else Some z
  | None => None
  end.

(** [l[i]] converted by [Number]; a missing element is [undefined] and
    enters arithmetic as [NaN]. *)
Definition part (l : list JS.number) (i : nat) : JS.number :=
  nth i l JS.NaN.

Definition getRealtimeArrivalTime (h : Clock.Host) (scheduledTime : string)
  (stopTimeUpdate : option Proto.StopTimeUpdate) : ArrivalTime :=
  match JS.chain stopTimeUpdate Proto.arrival with
  | None => {| time := scheduledTime; delay := None; isRealtime := false |}
  | Some arrival =>
      match truthyZ (Proto.time arrival) with
      | Some t =>
          let realtimeDate := Clock.newDate (JS.ofZ (t * 1000)) in
          let timeStr := Clock.toLocalTimeStringHM h realtimeDate in
          {| time := timeStr;
             delay := option_map formatDelay (truthyZ (Proto.delay arrival));
             isRealtime := true |}
      | None =>
          match truthyZ (Proto.delay arrival) with
          | Some d =>
              let parts := List.map JS.Number (JS.split ":" scheduledTime) in
              let hours := part parts 0 in
              let minutes := part parts 1 in
              let seconds := part parts 2 in
              let scheduledMs :=
                JS.mul
                  (JS.add (JS.add (JS.mul hours (JS.ofZ 3600))
                                  (JS.mul minutes (JS.ofZ 60)))
                          seconds)
                  (JS.ofZ 1000) in
              let adjustedMs := JS.add scheduledMs (JS.ofZ (d * 1000)) in
              let adjustedDate := Clock.newDate adjustedMs in
              let timeStr := Clock.toLocalTimeStringHM h adjustedDate in
              {| time := timeStr;
                 delay := Some (formatDelay d);
                 isRealtime := true |}
          | None =>
              {| time := scheduledTime; delay := None; isRealtime := false |}
          end
      end
  end.

End Realtime.

(** ** Eastern time: mcp/utils/timezone.ts *)

Module Timezone.

Local Open Scope string_scope.
Local Open Scope Z_scope.

Definition unixTimestampToEasternTime (h : Clock.Host) (timestamp : Z) : string :=
  match Clock.newDate (JS.ofZ (timestamp * 1000)) with
  | Some ms => Clock.toEasternTimeString h ms
  | None => "Invalid Date"
  end.

(** [calendar[dayFields[dayOfWeek]]]. *)
Definition dayField (calendar : Calendar.t) (dayOfWeek : Z) : option string :=
  nth_error
    [Calendar.sunday calendar; Calendar.monday calendar;
     Calendar.tuesday calendar; Calendar.wednesday calendar;
     Calendar.thursday calendar; Calendar.friday calendar;
     Calendar.saturday calendar]
    (Z.to_nat dayOfWeek).

(** [now] is the time value of [new Date()]. *)
Definition isServiceActiveTodayEastern (h : Clock.Host) (now : Z)
  (calendar : Calendar.t) : bool :=
  let pacificTime := Clock.easternReadAsLocal h now in
  let dayOfWeek := Clock.getDay h pacificTime in
  let todayStr :=
    Clock.removeDashes (substring 0 10 (Clock.isoDate pacificTime)) in
  if JS.str_ltb todayStr (Calendar.start_date calendar)
     || JS.str_gtb todayStr (Calendar.end_date calendar)
  then false
  else
    match dayField calendar dayOfWeek with
    | Some v => String.eqb v "1"
    | None => false
    end.

End Timezone.

(** ** The service: mcp/types.ts and mcp/services/gtfs-service.ts *)

Module Service.

Local Open Scope string_scope.
Local Open Scope Z_scope.

Inductive DelayStatus : Type := on_time | late | early | scheduled.

Record UpcomingDeparture : Type := {
  ud_trip_id : string;
  ud_route_short_name : string;
  ud_trip_headsign : string;
  scheduled_departure : string;
  estimated_departure : option string;
  delay_seconds : option Z;
  delay_status : DelayStatus;
  ud_route_color : string
}.

Record StopSchedule : Type := {
  ss_stop_id : string;
  ss_stop_name : string;
  ss_stop_sequence : JS.number;
  ss_scheduled_arrival : string;
  ss_scheduled_departure : string;
  ss_estimated_arrival : option string;
  ss_estimated_departure : option string;
  ss_delay_seconds : option Z;
  has_passed : bool
}.

Record TripInfo : Type := {
  ti_trip_id : string;
  ti_route_id : string;
  ti_route_short_name : string;
  ti_trip_headsign : string;
  ti_direction_id : string;
  ti_service_id : string;
  is_active : bool;
  has_realtime_data : bool;
  ti_delay_seconds : option Z;
  progress_percentage : option JS.number;
  current_stop : option string;
  next_stop : option string;
  stop_schedule : list StopSchedule
}.

(** *** The refresh cache *)

Record GTFSService : Type := {
  gtfsData : option GTFSData;
  realtimeData : option GTFSRealtimeData;
  lastDataLoad : Z;
  lastRealtimeUpdate : Z
}.

Definition newGTFSService : GTFSService :=
  {| gtfsData := None; realtimeData := None;
     lastDataLoad := 0; lastRealtimeUpdate := 0 |}.

Definition CACHE_DURATION : Z := 5 * 60 * 1000.
Definition REALTIME_CACHE_DURATION : Z := 30 * 1000.

(** Calls made to the loaders, in order. *)
Inductive Event : Type := CallLoadGTFSData | CallFetchGTFSRealtimeData.

(** [now] is the reading of [Date.now()] and [loadGTFSData] the outcome
    of the static loader, were it called.  The result is what the call
    returns or throws, the service afterwards and the loader calls
    made. *)
Definition ensureGTFSData (now : Z) (loadGTFSData : Exc.t GTFSData)
  (this : GTFSService) : Exc.t GTFSData * GTFSService * list Event :=
  let reload :=
    match loadGTFSData with
    | Exc.Ok d =>
        (Exc.Ok d,
         {| gtfsData := Some d; realtimeData := realtimeData this;
            lastDataLoad := now;
            lastRealtimeUpdate := lastRealtimeUpdate this |},
         [CallLoadGTFSData])
    | Exc.Throw e => (Exc.Throw e, this, [CallLoadGTFSData])
    end in
  match gtfsData this with
  | None => reload
  | Some d =>
      if now - lastDataLoad this >? CACHE_DURATION then reload
      else (Exc.Ok d, this, [])
  end.

Definition ensureRealtimeData (now : Z) (w : Realtime.World)
  (this : GTFSService) : Exc.t GTFSRealtimeData * GTFSService * list Event :=
  let reload :=
    match Realtime.fetchGTFSRealtimeData w with
    | Exc.Ok d =>
        (Exc.Ok d,
         {| gtfsData := gtfsData this; realtimeData := Some d;
            lastDataLoad := lastDataLoad this;
            lastRealtimeUpdate := now |},
         [CallFetchGTFSRealtimeData])
    | Exc.Throw e => (Exc.Throw e, this, [CallFetchGTFSRealtimeData])
    end in
  match realtimeData this with
  | None => reload
  | Some d =>
      if now - lastRealtimeUpdate this >? REALTIME_CACHE_DURATION then reload
      else (Exc.Ok d, this, [])
  end.

(** *** Identifier reconciliation *)

(** [update.trip?.tripId && tripId.endsWith(update.trip.tripId)]. *)
Definition matchesTrip (tripId : string) (update : Proto.TripUpdate) : bool :=
  match JS.chain (Proto.trip update) Proto.tripId with
  | Some id => JS.truthy id && JS.endsWith tripId id
  | None => false
  end.

(** [realtimeData.trip_updates.find(...)] with the suffix test. *)
Definition findRealtimeUpdate (tripId : string) (realtimeData : GTFSRealtimeData)
  : option Proto.TripUpdate :=
  JS.find (matchesTrip tripId) (trip_updates realtimeData).

Definition eqOptString (o : option string) (s : string) : bool :=
  match o with
  | Some t => String.eqb t s
  | None => false
  end.

Definition eqOptNumber (o : option Z) (n : JS.number) : bool :=
  match o with
  | Some z => JS.eqb (JS.ofZ z) n
  | None => false
  end.

(** [stu.stopId === stopId || stu.stopSequence === parseInt(stop_sequence)]. *)
Definition matchesStop (stopId stop_sequence : string)
  (stu : Proto.StopTimeUpdate) : bool :=
  eqOptString (Proto.stopId stu) stopId
  || eqOptNumber (Proto.stopSequence stu) (JS.parseInt stop_sequence).

(** [realtimeUpdate?.stopTimeUpdate?.find(...)]. *)
Definition findStopUpdate (realtimeUpdate : option Proto.TripUpdate)
  (stopId stop_sequence : string) : option Proto.StopTimeUpdate :=
  match JS.chain realtimeUpdate Proto.stopTimeUpdate with
  | Some stus => JS.find (matchesStop stopId stop_sequence) stus
  | None => None
  end.

Definition findTrip (d : GTFSData) (tripId : string) : option Trip.t :=
  JS.find (fun t => String.eqb (Trip.trip_id t) tripId) (trips d).

Definition findRoute (d : GTFSData) (routeId : option string) : option Route.t :=
  JS.find (fun r => eqOptString routeId (Route.route_id r)) (routes d).

Definition findStop (d : GTFSData) (stopId : option string) : option Stop.t :=
  JS.find (fun s => eqOptString stopId (Stop.stop_id s)) (stops d).

(** *** Upcoming departures *)

Definition classify (delaySeconds : Z) : DelayStatus :=
  if delaySeconds =? 0 then on_time
  else if delaySeconds >? 0 then late
  else early.

(** The body of the [map] of [getUpcomingDepartures]. *)
Definition departureOf (h : Clock.Host) (d : GTFSData)
  (realtimeData : GTFSRealtimeData) (stopId : string) (st : StopTime.t)
  : UpcomingDeparture :=
  let trip := findTrip d (StopTime.trip_id st) in
  let route := findRoute d (option_map Trip.route_id trip) in
  let realtimeUpdate := findRealtimeUpdate (StopTime.trip_id st) realtimeData in
  let stopUpdate :=
    findStopUpdate realtimeUpdate stopId (StopTime.stop_sequence st) in
  let '(estimatedDeparture, delaySeconds, delayStatus) :=
    match JS.chain stopUpdate Proto.departure with
    | Some departure =>
        let estimatedDeparture :=
          option_map (Timezone.unixTimestampToEasternTime h)
                     (Realtime.truthyZ (Proto.time departure)) in
        match Proto.delay departure with
        | Some delaySeconds =>
            (estimatedDeparture, Some delaySeconds, classify delaySeconds)
        | None => (estimatedDeparture, None, scheduled)
        end
    | None => (None, None, scheduled)
    end in
  {| ud_trip_id := StopTime.trip_id st;
     ud_route_short_name :=
       JS.orElse (option_map Route.route_short_name route) "Unknown";
     ud_trip_headsign :=
       JS.orElse (JS.chain trip Trip.trip_headsign) "Unknown Destination";
     scheduled_departure := StopTime.departure_time st;
     estimated_departure := estimatedDeparture;
     delay_seconds := delaySeconds;
     delay_status := delayStatus;
     ud_route_color := JS.orElse (JS.chain route Route.route_color) "666666" |}.

Definition byDeparture (a b : StopTime.t) : JS.number :=
  JS.localeCompare (StopTime.departure_time a) (StopTime.departure_time b).

(** The stop-times kept by [getUpcomingDepartures], before they are
    mapped to departures. *)
Definition stopStopTimes (d : GTFSData) (currentTimeStr stopId : string)
  (limit : Z) : list StopTime.t :=
  JS.slice0 limit
    (JS.sort byDeparture
       (filter (fun st => JS.str_geb (StopTime.departure_time st) currentTimeStr)
          (filter (fun st => String.eqb (StopTime.stop_id st) stopId)
             (stopTimes d)))).

(** [now] is the time value of [new Date()]; [limit] is taken
    integral. *)
Definition getUpcomingDepartures (h : Clock.Host) (now : Z) (d : GTFSData)
  (realtimeData : GTFSRealtimeData) (stopId : string) (limit : Z)
  : list UpcomingDeparture :=
  let currentTimeStr := Clock.toEasternTimeString h now in
  List.map (departureOf h d realtimeData stopId)
           (stopStopTimes d currentTimeStr stopId limit).

(** *** Trip schedule and progress *)

Definition bySequence (a b : StopTime.t) : JS.number :=
  JS.sub (JS.parseInt (StopTime.stop_sequence a))
         (JS.parseInt (StopTime.stop_sequence b)).

Definition tripStopTimes (d : GTFSData) (tripId : string) : list StopTime.t :=
  JS.sort bySequence
    (filter (fun st => String.eqb (StopTime.trip_id st) tripId) (stopTimes d)).

(** [a || b] on optional numbers. *)
Definition orZ (a b : option Z) : option Z :=
  match Realtime.truthyZ a with
  | Some z => Some z
  | None => b
  end.

Definition getTripSchedule (h : Clock.Host) (now : Z) (d : GTFSData)
  (realtimeData : GTFSRealtimeData) (tripId : string) : list StopSchedule :=
  let realtimeUpdate := findRealtimeUpdate tripId realtimeData in
  let currentTimeStr := Clock.toEasternTimeString h now in
  List.map
    (fun st =>
       let stop := findStop d (Some (StopTime.stop_id st)) in
       let stopUpdate :=
         findStopUpdate realtimeUpdate (StopTime.stop_id st)
                        (StopTime.stop_sequence st) in
       let eventTime (f : Proto.StopTimeUpdate -> option Proto.StopTimeEvent) :=
         option_map (Timezone.unixTimestampToEasternTime h)
           (Realtime.truthyZ
              (JS.chain (JS.chain stopUpdate f) Proto.time)) in
       {| ss_stop_id := StopTime.stop_id st;
          ss_stop_name := JS.orElse (option_map Stop.stop_name stop) "Unknown Stop";
          ss_stop_sequence := JS.parseInt (StopTime.stop_sequence st);
          ss_scheduled_arrival := StopTime.arrival_time st;
          ss_scheduled_departure := StopTime.departure_time st;
          ss_estimated_arrival := eventTime Proto.arrival;
          ss_estimated_departure := eventTime Proto.departure;
          ss_delay_seconds :=
            orZ (JS.chain (JS.chain stopUpdate Proto.arrival) Proto.delay)
                (JS.chain (JS.chain stopUpdate Proto.departure) Proto.delay);
          has_passed := JS.str_ltb (StopTime.departure_time st) currentTimeStr |})
    (tripStopTimes d tripId).

(** [event?.time && event.time < now]. *)
Definition inPast (event : option Proto.StopTimeEvent) (now : Z) : bool :=
  match Realtime.truthyZ (JS.chain event Proto.time) with
  | Some t => t <? now
  | None => false
  end.

(** The [for] loop of [calculateTripProgress] from index [i] on: [rest]
    are the stop-times from [i] to the end, [lastIndex] is
    [tripStopTimes.length - 1] and the result is [currentStopIndex] when
    the loop is left. *)
Fixpoint scan (stus : list Proto.StopTimeUpdate) (now : Z) (lastIndex : nat)
  (i : nat) (rest : list StopTime.t) (currentStopIndex : nat) : nat :=
  match rest with
  | [] => currentStopIndex
  | stopTime :: rest' =>
      let stopUpdate :=
        JS.find (matchesStop (StopTime.stop_id stopTime)
                             (StopTime.stop_sequence stopTime)) stus in
      if inPast (JS.chain stopUpdate Proto.departure) now
      then scan stus now lastIndex (S i) rest' (Nat.min (i + 1) lastIndex)
      else if inPast (JS.chain stopUpdate Proto.arrival) now
      then i
      else scan stus now lastIndex (S i) rest' currentStopIndex
  end.

(** A distance that is present and not the empty string. *)
Definition distance (st : option StopTime.t) : option string :=
  match JS.chain st StopTime.shape_distance_traveled with
  | Some s => if JS.truthy s then Some s else None
  | None => None
  end.

Definition ofNat (n : nat) : JS.number := JS.ofZ (Z.of_nat n).

(** The value of [progress] before it is bounded and rounded. *)
Definition rawProgress (sts : list StopTime.t) (currentStopIndex : nat)
  : JS.number :=
  let lastIndex := (List.length sts - 1)%nat in
  match distance (nth_error sts currentStopIndex),
        distance (nth_error sts 0),
        distance (nth_error sts lastIndex) with
  | Some current, Some first, Some last =>
      let currentDistance := JS.parseFloat current in
      let startDistance := JS.parseFloat first in
      let totalDistance := JS.sub (JS.parseFloat last) startDistance in
      if JS.gtb totalDistance (JS.ofZ 0)
      then JS.mul (JS.div (JS.sub currentDistance startDistance) totalDistance)
                  (JS.ofZ 100)
      else JS.ofZ 0
  | _, _, _ =>
      JS.mul (JS.div (ofNat currentStopIndex)
                     (JS.max (ofNat lastIndex) (JS.ofZ 1)))
             (JS.ofZ 100)
  end.

Record Progress : Type := {
  progress : JS.number;
  currentStop : option string;
  nextStop : option string
}.

(** The index the loop leaves in [currentStopIndex]. *)
Definition currentIndex (sts : list StopTime.t)
  (stus : list Proto.StopTimeUpdate) (nowMs : Z) : nat :=
  scan stus (nowMs / 1000) (List.length sts - 1)%nat 0%nat sts 0%nat.

(** [nowMs] is the reading of [Date.now()]. *)
Definition calculateTripProgress (nowMs : Z) (tripId : string) (d : GTFSData)
  (realtimeData : GTFSRealtimeData) : option Progress :=
  let sts := tripStopTimes d tripId in
  if JS.isEmpty sts then None
  else
    match JS.chain (findRealtimeUpdate tripId realtimeData)
                   Proto.stopTimeUpdate with
    | None => None
    | Some stus =>
        let lastIndex := (List.length sts - 1)%nat in
        let currentStopIndex := currentIndex sts stus nowMs in
        let currentStop := nth_error sts currentStopIndex in
        let nextStopIndex := Nat.min (currentStopIndex + 1) lastIndex in
        let nextStop := nth_error sts nextStopIndex in
        let progress := rawProgress sts currentStopIndex in
        let currentStopName :=
          option_map Stop.stop_name
            (findStop d (option_map StopTime.stop_id currentStop)) in
        let nextStopName :=
          option_map Stop.stop_name
            (findStop d (option_map StopTime.stop_id nextStop)) in
        Some {| progress := JS.round (JS.min progress (JS.ofZ 100));
                currentStop := currentStopName;
                nextStop :=
                  if (currentStopIndex <? lastIndex)%nat
                  then nextStopName else currentStopName |}
    end.

Definition getTripInfo (h : Clock.Host) (now : Z) (d : GTFSData)
  (realtimeData : GTFSRealtimeData) (tripId : string) : option TripInfo :=
  match findTrip d tripId with
  | None => None
  | Some trip =>
      let route := findRoute d (Some (Trip.route_id trip)) in
      let isActive :=
        existsb
          (fun c => String.eqb (Calendar.service_id c) (Trip.service_id trip))
          (filter (Timezone.isServiceActiveTodayEastern h now) (calendar d)) in
      let realtimeUpdate := findRealtimeUpdate tripId realtimeData in
      let stopSchedule := getTripSchedule h now d realtimeData tripId in
      let progress := calculateTripProgress now tripId d realtimeData in
      Some {|
        ti_trip_id := Trip.trip_id trip;
        ti_route_id := Trip.route_id trip;
        ti_route_short_name :=
          JS.orElse (option_map Route.route_short_name route) "Unknown";
        ti_trip_headsign :=
          JS.orElse (Trip.trip_headsign trip) "Unknown Destination";
        ti_direction_id := JS.orElse (Trip.direction_id trip) "0";
        ti_service_id := Trip.service_id trip;
        is_active := isActive;
        has_realtime_data :=
          match realtimeUpdate with Some _ => true | None => false end;
        ti_delay_seconds := JS.chain realtimeUpdate Proto.tripDelay;
        progress_percentage := option_map Service.progress progress;
        current_stop := JS.chain progress currentStop;
        next_stop := JS.chain progress nextStop;
        stop_schedule := stopSchedule |}
  end.

(** *** Route shapes *)

Record Marker : Type := {
  lat : JS.number;
  lng : JS.number;
  name : string;
  markerStopId : string
}.

Record RouteShape : Type := {
  coordinates : list (JS.number * JS.number);
  color : string;
  routeName : string;
  filteredSegment : bool;
  startMarker : option Marker;
  endMarker : option Marker
}.

(** The route that [getRouteShape] works on:
    [gtfsData.routes.find((r) => r.route_id === routeId ||
     r.route_short_name.toLowerCase() === routeId.toLowerCase())]. *)
Definition selectsRoute (routeId : string) (r : Route.t) : bool :=
  String.eqb (Route.route_id r) routeId
  || String.eqb (JS.toLowerCase (Route.route_short_name r))
                (JS.toLowerCase routeId).

Definition resolveRoute (d : GTFSData) (routeId : string) : option Route.t :=
  JS.find (selectsRoute routeId) (routes d).

(** [Array.from(new Set(l))]: the first occurrence of each element, in
    order. *)
Fixpoint uniq (seen l : list string) : list string :=
  match l with
  | [] => []
  | x :: r =>
      if existsb (String.eqb x) seen then uniq seen r
      else x :: uniq (x :: seen) r
  end.

Definition truthyString (o : option string) : option string :=
  match o with
  | Some s => if JS.truthy s then Some s else None
  | None => None
  end.

Definition findStopCoordinates (d : GTFSData) (stopId : string) : option Marker :=
  let direct := findStop d (Some stopId) in
  let stop :=
    match direct with
    | Some _ => direct
    | None =>
        match filter (fun s => eqOptString (Stop.parent_station s) stopId)
                     (stops d) with
        | platform :: _ => Some platform
        | [] => None
        end
    end in
  let stop :=
    match stop with
    | Some _ => stop
    | None =>
        let thisStop := findStop d (Some stopId) in
        match truthyString (JS.chain thisStop Stop.parent_station) with
        | Some parent => findStop d (Some parent)
        | None => None
        end
    end in
  option_map
    (fun stop =>
       {| lat := JS.parseFloat (Stop.stop_lat stop);
          lng := JS.parseFloat (Stop.stop_lon stop);
          name := Stop.stop_name stop;
          markerStopId := Stop.stop_id stop |})
    stop.

Definition byPointSequence (a b : Shape.t) : JS.number :=
  JS.sub (JS.parseInt (Shape.shape_pt_sequence a))
         (JS.parseInt (Shape.shape_pt_sequence b)).

Definition getRouteShape (d : GTFSData) (routeId : string)
  (startStopId endStopId : option string) : option RouteShape :=
  match resolveRoute d routeId with
  | None => None
  | Some route =>
      let routeTrips :=
        filter (fun trip => String.eqb (Trip.route_id trip) (Route.route_id route))
               (trips d) in
      if JS.isEmpty routeTrips then None
      else
        let shapeIds :=
          uniq []
            (flat_map
               (fun trip =>
                  match truthyString (Trip.shape_id trip) with
                  | Some id => [id]
                  | None => []
                  end)
               routeTrips) in
        match shapeIds with
        | [] => None
        | shapeId :: _ =>
            let shapePoints :=
              JS.sort byPointSequence
                (filter (fun shape => String.eqb (Shape.shape_id shape) shapeId)
                        (shapes d)) in
            if JS.isEmpty shapePoints then None
            else
              let marker (stopId : option string) :=
                JS.chain (truthyString stopId) (findStopCoordinates d) in
              Some {|
                coordinates :=
                  List.map
                    (fun point =>
                       (JS.parseFloat (Shape.shape_pt_lat point),
                        JS.parseFloat (Shape.shape_pt_lon point)))
                    shapePoints;
                color := "#" ++ JS.orElse (Route.route_color route) "666666";
                routeName :=
                  Route.route_short_name route ++ " - "
                    ++ Route.route_long_name route;
                filteredSegment := false;
                startMarker := marker startStopId;
                endMarker := marker endStopId |}
        end
  end.

End Service.

(** ** Reference notions, as the specification words them *)

Module Spec.

Local Open Scope string_scope.
Local Open Scope Z_scope.

(** [short] is a trailing substring of [long]. *)
Definition isSuffix (short long : string) : Prop :=
  exists front, long = front ++ short.

(** A live update matches a static trip id when its trip identifier is
    a non-empty suffix of it. *)
Definition matches (staticTripId : string) (u : Proto.TripUpdate) : Prop :=
  exists id,
    JS.chain (Proto.trip u) Proto.tripId = Some id
    /\ id <> "" /\ isSuffix id staticTripId.

(** The Eastern calendar day, as a day number, at a time value. *)
Definition easternDay (h : Clock.Host) (now : Z) : Z :=
  (now / 1000 + Clock.eastern h (now / 1000)) / 86400.

(** A calendar row is active on a day: the day lies within the service
    period and the flag of its day of the week is set. *)
Definition activeOn (day : Z) (c : Calendar.t) : bool :=
  let todayStr := Clock.removeDashes (substring 0 10 (Clock.isoDay day)) in
  negb (JS.str_ltb todayStr (Calendar.start_date c))
  && negb (JS.str_gtb todayStr (Calendar.end_date c))
  && match Timezone.dayField c (Clock.weekday day) with
     | Some v => String.eqb v "1"
     | None => false
     end.

(** The live departure of a stop is in the past; its live arrival is in
    the past while its departure is not. *)
Definition departed (stus : list Proto.StopTimeUpdate) (now : Z)
  (st : StopTime.t) : bool :=
  Service.inPast
    (JS.chain (JS.find (Service.matchesStop (StopTime.stop_id st)
                                            (StopTime.stop_sequence st)) stus)
              Proto.departure) now.

Definition arrived (stus : list Proto.StopTimeUpdate) (now : Z)
  (st : StopTime.t) : bool :=
  Service.inPast
    (JS.chain (JS.find (Service.matchesStop (StopTime.stop_id st)
                                            (StopTime.stop_sequence st)) stus)
              Proto.arrival) now.

Definition halts (stus : list Proto.StopTimeUpdate) (now : Z)
  (st : StopTime.t) : bool :=
  negb (departed stus now st) && arrived stus now st.

(** The loader failed: the request, the status, the body or the
    decoding. *)
Definition loadFails (w : Realtime.World) : Prop :=
  (exists e, Realtime.fetch w = Exc.Throw e)
  \/ (exists r, Realtime.fetch w = Exc.Ok r
        /\ (Realtime.ok r = false
            \/ (exists e, Realtime.arrayBuffer r = Exc.Throw e)
            \/ (exists b e, Realtime.arrayBuffer r = Exc.Ok b
                            /\ Realtime.decode w b = Exc.Throw e))).

(** No character of the string is the separator. *)
Fixpoint without (sep : ascii) (s : string) : bool :=
  match s with
  | String c r => negb (Ascii.eqb c sep) && without sep r
  | EmptyString => true
  end.

(** An HH:MM:SS string for given hours, minutes and seconds. *)
Definition hms (hh mm ss : Z) : string :=
  Clock.pad 2 hh ++ ":" ++ Clock.pad 2 mm ++ ":" ++ Clock.pad 2 ss.

End Spec.

(** ** Sample snapshots *)

Module Sample.

Local Open Scope string_scope.
Local Open Scope Z_scope.

Definition stop (id name : string) : Stop.t :=
  {| Stop.stop_id := id; Stop.stop_code := None; Stop.stop_name := name;
     Stop.stop_lat := "40.75"; Stop.stop_lon := "-73.98";
     Stop.parent_station := None; Stop.platform_code := None |}.

Definition stopTime (trip dep stopId seq : string) (dist : option string)
  : StopTime.t :=
  {| StopTime.trip_id := trip; StopTime.arrival_time := dep;
     StopTime.departure_time := dep; StopTime.stop_id := stopId;
     StopTime.stop_sequence := seq;
     StopTime.shape_distance_traveled := dist |}.

Definition route (id short long : string) : Route.t :=
  {| Route.route_id := id; Route.route_short_name := short;
     Route.route_long_name := long; Route.route_type := "1";
     Route.route_color := None; Route.route_text_color := None |}.

Definition trip (routeId id shape : string) : Trip.t :=
  {| Trip.route_id := routeId; Trip.service_id := "Weekday";
     Trip.trip_id := id; Trip.trip_headsign := None;
     Trip.direction_id := None; Trip.shape_id := Some shape |}.

Definition point (shape lat lon seq : string) : Shape.t :=
  {| Shape.shape_id := shape; Shape.shape_pt_lat := lat;
     Shape.shape_pt_lon := lon; Shape.shape_pt_sequence := seq;
     Shape.shape_dist_traveled := None |}.

(** A schedule with the given stop-times, three stops and two shuttle
    routes that share the short name S. *)
Definition schedule (sts : list StopTime.t) : GTFSData :=
  {| agencies := [];
     routes := [route "GS" "S" "42 St Shuttle"; route "FS" "S" "Franklin Av Shuttle"];
     stops := [stop "A" "Alpha"; stop "B" "Beta"; stop "C" "Gamma"];
     trips := [trip "GS" "T1" "gs1"; trip "FS" "T2" "fs1"];
     stopTimes := sts;
     calendar := [];
     shapes := [point "gs1" "40.75" "-73.98" "1"; point "fs1" "40.68" "-73.95" "1"] |}.

(** One trip over three stops; the distances are those of the feed. *)
Definition threeStops (d1 d2 d3 : option string) : GTFSData :=
  schedule
    [stopTime "T1" "08:00:30" "A" "1" d1;
     stopTime "T1" "08:10:00" "B" "2" d2;
     stopTime "T1" "08:20:00" "C" "3" d3].

Definition event (delay time : option Z) : Proto.StopTimeEvent :=
  {| Proto.delay := delay; Proto.time := time |}.

Definition stopUpdate (stopId : string)
  (arrival departure : option Proto.StopTimeEvent) : Proto.StopTimeUpdate :=
  {| Proto.stopSequence := None; Proto.stopId := Some stopId;
     Proto.arrival := arrival; Proto.departure := departure |}.

Definition update (id : string) (stus : list Proto.StopTimeUpdate)
  : Proto.TripUpdate :=
  {| Proto.trip := Some {| Proto.tripId := Some id |};
     Proto.stopTimeUpdate := Some stus;
     Proto.tripDelay := None |}.

Definition feed (us : list Proto.TripUpdate) : GTFSRealtimeData :=
  {| trip_updates := us; last_updated := JS.ofZ 0 |}.


(** The trip reached stop A at second 5 and left it at second 10. *)
Definition reachedAndLeftA : list Proto.StopTimeUpdate :=
  [stopUpdate "A" (Some (event None (Some 5))) (Some (event None (Some 10)))].

(** Hosts: the zone of the host is UTC, or New York itself; New York
    is five hours behind UTC throughout. *)
Definition utcHost : Clock.Host :=
  {| Clock.eastern := fun _ => -18000; Clock.hostOffset := 0;
     Clock.midnight24 := false |}.

Definition newYorkHost : Clock.Host :=
  {| Clock.eastern := fun _ => -18000; Clock.hostOffset := -18000;
     Clock.midnight24 := false |}.

(** Departures of three trips from stop A. *)
Definition departuresAtA : GTFSData :=
  schedule
    [stopTime "T2" "09:15:00" "A" "1" None;
     stopTime "T3" "07:00:00" "A" "1" None;
     stopTime "T1" "08:00:30" "A" "1" None;
     stopTime "T1" "08:10:00" "B" "2" None].

(** The departure from A of trip T1 is announced 90 seconds late, at
    second 46920 of the epoch. *)
Definition lateAtA : GTFSRealtimeData :=
  feed [update "T1" [stopUpdate "A" (Some (event (Some 60) (Some 46800)))
                                    (Some (event (Some 90) (Some 46920)))]].

(** Monday 2 November 2026, 20:00 in New York. *)
Definition mondayEvening : Z := 1793667600000.

(** A service that runs on Mondays, up to 2 November 2026. *)
Definition mondays : Calendar.t :=
  {| Calendar.service_id := "Weekday";
     Calendar.monday := "1"; Calendar.tuesday := "0";
     Calendar.wednesday := "0"; Calendar.thursday := "0";
     Calendar.friday := "0"; Calendar.saturday := "0";
     Calendar.sunday := "0";
     Calendar.start_date := "20260101"; Calendar.end_date := "20261102" |}.

(** A service whose static snapshot was loaded at time 0. *)
Definition loadedAtZero : Service.GTFSService :=
  {| Service.gtfsData := Some (schedule []);
     Service.realtimeData := Some (feed []);
     Service.lastDataLoad := 0;
     Service.lastRealtimeUpdate := 0 |}.

(** A world in which the request for the feed fails. *)
Definition offline : Realtime.World :=
  {| Realtime.fetch := Exc.Throw "fetch failed";
     Realtime.decode := fun _ => Exc.Throw "unreachable";
     Realtime.dateNow := 31000 |}.

(** A snapshot that lists the express route 6X, short name 6, before
    the local route 6. *)
Definition expressFirst : GTFSData :=
  {| agencies := [];
     routes := [route "6X" "6" "Pelham Bay Park Express"; route "6" "6" "Lexington Av Local"];
     stops := [];
     trips := [trip "6X" "X1" "6x1"; trip "6" "L1" "6l1"];
     stopTimes := [];
     calendar := [];
     shapes := [point "6x1" "40.85" "-73.83" "1"; point "6l1" "40.80" "-73.93" "1"] |}.

End Sample.

(** ** Further string functions *)

Module Text.

Local Open Scope string_scope.

(** [s.includes(sub)]. *)
Fixpoint includes (s sub : string) : bool :=
  String.prefix sub s
  || match s with
     | String _ r => includes r sub
     | EmptyString => false
     end.

(** [parseInt] yields [NaN] or an integer: the integer, if any. *)
Definition toInteger (x : JS.number) : option Z :=
  match x with
  | JS.Num q => Some (Qfloor q)
  | _ => None
  end.

(** Number-to-string conversion of such a value. *)
Definition showInteger (x : option Z) : string :=
  match x with
  | Some z => Clock.showZ z
  | None => "NaN"
  end.

(** A set of strings, in the order of insertion: [add] and [has]. *)
Definition has (set : list string) (x : string) : bool :=
  existsb (String.eqb x) set.

Definition add (set : list string) (x : string) : list string :=
  if has set x then set else (set ++ [x])%list.

End Text.

(** ** Picking the fields of a parsed row: gtfs/static.ts *)

Module Static.

Local Open Scope string_scope.

(** An object with string values: its own properties, in the order of
    their creation. *)
Definition Row : Type := list (string * string).

(** [obj[field]]. *)
Fixpoint get (obj : Row) (field : string) : option string :=
  match obj with
  | [] => None
  | (k, v) :: r => if String.eqb k field then Some v else get r field
  end.

(** [obj[field] = value]. *)
Fixpoint set (obj : Row) (field value : string) : Row :=
  match obj with
  | [] => [(field, value)]
  | (k, v) :: r =>
      if String.eqb k field then (k, value) :: r
      else (k, v) :: set r field value
  end.

Definition pickFields (obj : Row) (fields : list string) : Row :=
  fold_left
    (fun result field =>
       match get obj field with
       | Some v => set result field v
       | None => result
       end)
    fields [].

End Static.

(** ** Schedule helpers *)

Module Helpers.

Local Open Scope string_scope.
Local Open Scope Z_scope.

Definition getRouteColor (route : Route.t) : string :=
  match Service.truthyString (Route.route_color route) with
  | None => "#666666"
  | Some c => "#" ++ c
  end.

Definition getRouteTextColor (route : Route.t) : string :=
  match Service.truthyString (Route.route_text_color route) with
  | None => "#FFFFFF"
  | Some c => "#" ++ c
  end.

Definition getTripsForRoute (routeId : string) (trips : list Trip.t)
  : list Trip.t :=
  filter (fun trip => String.eqb (Trip.route_id trip) routeId) trips.

Definition getStopsForRoute (routeId : string) (trips : list Trip.t)
  (stopTimes : list StopTime.t) (stops : list Stop.t) : list Stop.t :=
  let routeTrips :=
    filter (fun trip => String.eqb (Trip.route_id trip) routeId) trips in
  let stopIds :=
    fold_left
      (fun stopIds trip =>
         let tripStopTimes :=
           filter (fun st => String.eqb (StopTime.trip_id st) (Trip.trip_id trip))
                  stopTimes in
         fold_left (fun stopIds st => Text.add stopIds (StopTime.stop_id st))
                   tripStopTimes stopIds)
      routeTrips [] in
  filter (fun stop => Text.has stopIds (Stop.stop_id stop)) stops.

(** [undefined] in a template literal. *)
Definition orUndefined (o : option string) : string :=
  match o with
  | Some s => s
  | None => "undefined"
  end.

Definition formatTime (timeStr : string) : string :=
  let parts := JS.split ":" timeStr in
  let hours := nth 0 parts "" in
  let minutes := nth_error parts 1 in
  let hour := Text.toInteger (JS.parseInt hours) in
  let ampm :=
    match hour with
    | Some n => if n >=? 12 then "PM" else "AM"
    | None => "AM"
    end in
  let displayHour :=
    match hour with
    | Some n => Some (if n =? 0 then 12 else if n >? 12 then n - 12 else n)
    | None => None
    end in
  Text.showInteger displayHour ++ ":" ++ orUndefined minutes ++ " " ++ ampm.

(** [now] is the time value of [new Date()]. *)
Definition isServiceActiveToday (h : Clock.Host) (now : Z)
  (calendar : Calendar.t) : bool :=
  let dayOfWeek := Clock.getDay h now in
  let todayStr := Clock.removeDashes (substring 0 10 (Clock.isoDate now)) in
  if JS.str_ltb todayStr (Calendar.start_date calendar)
     || JS.str_gtb todayStr (Calendar.end_date calendar)
  then false
  else
    match Timezone.dayField calendar dayOfWeek with
    | Some v => String.eqb v "1"
    | None => false
    end.

End Helpers.

(** ** The other queries of the service: mcp/services/gtfs-service.ts *)

Module Facade.

Local Open Scope string_scope.
Local Open Scope Z_scope.


Record RouteInfo : Type := {
  route_id : string;
  route_short_name : string;
  route_long_name : string;
  route_type : string;
  route_color : string;
  route_text_color : string;
  stop_count : nat;
  trip_count : nat;
  is_active : bool
}.



(** The services that run today, and the trips on them; [now] stands for
    the readings of the clock during a call. *)
Definition activeServices (h : Clock.Host) (now : Z) (d : GTFSData)
  : list string :=
  List.map Calendar.service_id
    (filter (Timezone.isServiceActiveTodayEastern h now) (calendar d)).

Definition activeTrips (h : Clock.Host) (now : Z) (d : GTFSData)
  : list Trip.t :=
  filter (fun trip => Text.has (activeServices h now d) (Trip.service_id trip))
         (trips d).


(** A [Map] with string keys, in the order of insertion. *)
Section Maps.
Context {V : Type}.

Fixpoint mapGet (m : list (string * V)) (key : string) : option V :=
  match m with
  | [] => None
  | (k, v) :: r => if String.eqb k key then Some v else mapGet r key
  end.

Definition mapHas (m : list (string * V)) (key : string) : bool :=
  match mapGet m key with Some _ => true | None => false end.

Fixpoint mapSet (m : list (string * V)) (key : string) (value : V)
  : list (string * V) :=
  match m with
  | [] => [(key, value)]
  | (k, v) :: r =>
      if String.eqb k key then (k, value) :: r
      else (k, v) :: mapSet r key value
  end.
End Maps.

(** The first loop of [getActiveRoutesToday]: the trips of each route. *)
Definition groupTrips (trips : list Trip.t) : list (string * list Trip.t) :=
  fold_left
    (fun tripsByRoute trip =>
       let tripsByRoute :=
         if mapHas tripsByRoute (Trip.route_id trip) then tripsByRoute
         else mapSet tripsByRoute (Trip.route_id trip) [] in
       match mapGet tripsByRoute (Trip.route_id trip) with
       | Some l => mapSet tripsByRoute (Trip.route_id trip) (l ++ [trip])%list
       | None => tripsByRoute
       end)
    trips [].

(** The body of its second loop: the stop ids of the trips of a route. *)
Definition stopIdsOf (trips : list Trip.t) (stopTimes : list StopTime.t)
  : list string :=
  let tripIds := Service.uniq [] (List.map Trip.trip_id trips) in
  fold_left
    (fun stopIds stopTime =>
       if Text.has tripIds (StopTime.trip_id stopTime)
       then Text.add stopIds (StopTime.stop_id stopTime)
       else stopIds)
    stopTimes [].

Definition collectStopIds (tripsByRoute : list (string * list Trip.t))
  (stopTimes : list StopTime.t) : list (string * list string) :=
  fold_left
    (fun stopIdsByRoute entry =>
       mapSet stopIdsByRoute (fst entry) (stopIdsOf (snd entry) stopTimes))
    tripsByRoute [].

Definition byShortName (a b : RouteInfo) : JS.number :=
  JS.localeCompare (route_short_name a) (route_short_name b).

Definition orEmpty {A : Type} (o : option (list A)) : list A :=
  match o with
  | Some l => l
  | None => []
  end.

Definition getActiveRoutesToday (h : Clock.Host) (now : Z) (d : GTFSData)
  : list RouteInfo :=
  let activeRouteIds :=
    Service.uniq [] (List.map Trip.route_id (activeTrips h now d)) in
  let tripsByRoute := groupTrips (trips d) in
  let stopIdsByRoute := collectStopIds tripsByRoute (stopTimes d) in
  let routeInfos :=
    List.map
      (fun route =>
         let isActive := Text.has activeRouteIds (Route.route_id route) in
         let routeTrips := orEmpty (mapGet tripsByRoute (Route.route_id route)) in
         let stopIds := orEmpty (mapGet stopIdsByRoute (Route.route_id route)) in
         {| route_id := Route.route_id route;
            route_short_name := Route.route_short_name route;
            route_long_name := Route.route_long_name route;
            route_type := Route.route_type route;
            route_color := JS.orElse (Route.route_color route) "666666";
            route_text_color := JS.orElse (Route.route_text_color route) "FFFFFF";
            stop_count := List.length stopIds;
            trip_count := List.length routeTrips;
            is_active := isActive |})
      (routes d) in
  JS.sort byShortName routeInfos.

Definition getRouteInfo (h : Clock.Host) (now : Z) (d : GTFSData)
  (routeId : string) : option RouteInfo :=
  JS.find (fun r => String.eqb (route_id r) routeId)
          (getActiveRoutesToday h now d).




Definition getLiveTrips (h : Clock.Host) (now : Z) (d : GTFSData)
  (realtimeData : GTFSRealtimeData) (routeFilter : option string) (limit : Z)
  : list Service.TripInfo :=
  let activeTrips := activeTrips h now d in
  let filteredTrips :=
    match Service.truthyString routeFilter with
    | Some routeFilter =>
        let matchingRoutes :=
          filter
            (fun route =>
               Text.includes (JS.toLowerCase (Route.route_short_name route))
                             (JS.toLowerCase routeFilter)
               || String.eqb (Route.route_id route) routeFilter)
            (routes d) in
        let matchingRouteIds := List.map Route.route_id matchingRoutes in
        filter (fun trip => Text.has matchingRouteIds (Trip.route_id trip))
               activeTrips
    | None => activeTrips
    end in
  let tripsWithRealtimeData :=
    filter
      (fun trip =>
         existsb (Service.matchesTrip (Trip.trip_id trip))
                 (trip_updates realtimeData))
      filteredTrips in
  flat_map
    (fun trip =>
       match Service.getTripInfo h now d realtimeData (Trip.trip_id trip) with
       | Some tripInfo =>
           if Service.has_realtime_data tripInfo then [tripInfo] else []
       | None => []
       end)
    (JS.slice0 limit tripsWithRealtimeData).

End Facade.

(** ** Further notions and samples *)

Module Notions.

Local Open Scope string_scope.
Local Open Scope Z_scope.

(** The sequence of a stop-time reads as a number. *)
Definition numbered (st : StopTime.t) : Prop :=
  exists z, JS.parseInt (StopTime.stop_sequence st) = JS.ofZ z.

End Notions.

Module Sample2.

Local Open Scope string_scope.
Local Open Scope Z_scope.

(** The departures from stop A, with an agency and the Monday service. *)
Definition running : GTFSData :=
  {| agencies := [{| Agency.agency_name := "MTA";
                     Agency.agency_url := "https://www.mta.info" |}];
     routes := routes Sample.departuresAtA;
     stops := stops Sample.departuresAtA;
     trips := trips Sample.departuresAtA;
     stopTimes := stopTimes Sample.departuresAtA;
     calendar := [Sample.mondays];
     shapes := shapes Sample.departuresAtA |}.

(** A parsed row of routes.txt, with a column that is not used. *)
Definition routeRow : Static.Row :=
  [("route_id", "GS"); ("agency_id", "MTA NYCT"); ("route_short_name", "S")].

End Sample2.

(** * Properties *)

(** ** Identifier reconciliation *)

Section Suffix.

Local Open Scope string_scope.

Lemma length_app (p t : string) :
  String.length (p ++ t) = (String.length p + String.length t)%nat.
Proof.
  induction p as [|c p IH]; simpl; [reflexivity | now rewrite IH].
Qed.

Lemma substring_all (t : string) : substring 0 (String.length t) t = t.
Proof.
  induction t as [|c t IH]; simpl; [reflexivity | now rewrite IH].
Qed.

Lemma substring_skip (p t : string) :
  substring (String.length p) (String.length t) (p ++ t) = t.
Proof.
  induction p as [|c p IH]; simpl; [apply substring_all | exact IH].
Qed.

Lemma substring_split (s : string) : forall n,
  (n <= String.length s)%nat ->
  s = substring 0 n s ++ substring n (String.length s - n) s.
Proof.
  induction s as [|c s IH]; intros [|n] Hn; simpl in *.
  - reflexivity.
  - lia.
  - now rewrite substring_all.
  - f_equal. apply IH. lia.
Qed.

(** [endsWith] decides the suffix relation. *)
Lemma endsWith_spec (s t : string) :
  JS.endsWith s t = true <-> Spec.isSuffix t s.
Proof.
  unfold JS.endsWith, Spec.isSuffix.
  split.
  - destruct (Nat.ltb_spec (String.length s) (String.length t)) as [|Hle];
      [discriminate|].
    intros H. apply String.eqb_eq in H.
    exists (substring 0 (String.length s - String.length t) s).
    assert (Hs := substring_split s (String.length s - String.length t)).
    replace (String.length s - (String.length s - String.length t))%nat
      with (String.length t) in Hs by lia.
    rewrite H in Hs. apply Hs. lia.
  - intros [p ->].
    rewrite length_app.
    destruct (Nat.ltb_spec (String.length p + String.length t) (String.length t));
      [lia|].
    replace (String.length p + String.length t - String.length t)%nat
      with (String.length p) by lia.
    rewrite substring_skip. apply String.eqb_refl.
Qed.

Lemma truthy_spec (s : string) : JS.truthy s = true <-> s <> "".
Proof.
  destruct s; simpl; split; intros H; try congruence; try discriminate.
Qed.

(** The test of the [find] is the specification's notion of a match. *)
Lemma matchesTrip_spec (staticTripId : string) (u : Proto.TripUpdate) :
  Service.matchesTrip staticTripId u = true <-> Spec.matches staticTripId u.
Proof.
  unfold Service.matchesTrip, Spec.matches.
  destruct (JS.chain (Proto.trip u) Proto.tripId) as [id|].
  - rewrite andb_true_iff, truthy_spec, endsWith_spec.
    split.
    + intros [Hne Hs]. exists id. auto.
    + intros [id' [Heq [Hne Hs]]]. injection Heq as <-. auto.
  - split; [discriminate|]. intros [id [Heq _]]. discriminate.
Qed.

Lemma matchesTrip_false (staticTripId : string) (u : Proto.TripUpdate) :
  Service.matchesTrip staticTripId u = false <-> ~ Spec.matches staticTripId u.
Proof.
  rewrite <- matchesTrip_spec.
  destruct (Service.matchesTrip staticTripId u); split; congruence.
Qed.

End Suffix.

Section Find.

Context {A : Type} (p : A -> bool).

(** [find] returns the first element that passes the test. *)
Lemma find_first (l : list A) (x : A) :
  JS.find p l = Some x <->
  exists l1 l2, l = l1 ++ x :: l2 /\ p x = true
                /\ forall y, In y l1 -> p y = false.
Proof.
  unfold JS.find.
  induction l as [|a l IH]; simpl.
  - split; [discriminate|].
    intros [[|? ?] [l2 [H _]]]; discriminate.
  - destruct (p a) eqn:Ha.
    + split.
      * intros [= <-]. exists [], l. simpl. intuition.
      * intros [[|b l1] [l2 [H [Hx Hl1]]]]; simpl in H.
        -- congruence.
        -- injection H as <- _. rewrite (Hl1 a) in Ha by (now left).
           discriminate.
    + rewrite IH. split.
      * intros [l1 [l2 [-> [Hx H]]]]. exists (a :: l1), l2. simpl.
        repeat split; auto. intros y [<-|Hy]; auto.
      * intros [[|b l1] [l2 [H [Hx Hl1]]]]; simpl in H.
        -- injection H as -> _. congruence.
        -- injection H as <- ->. exists l1, l2. repeat split; auto.
           intros y Hy. apply Hl1. now right.
Qed.

Lemma find_nothing (l : list A) :
  JS.find p l = None <-> forall y, In y l -> p y = false.
Proof.
  unfold JS.find. split.
  - apply find_none.
  - induction l as [|a l IH]; simpl; intros H; [reflexivity|].
    rewrite (H a) by (now left). apply IH. intros y Hy. apply H. now right.
Qed.

End Find.

(** C4. Trip-update matching returns the first update, in feed order, whose
    trip identifier is a non-empty suffix of the static trip id (equality
    counting as a suffix) and no update when there is none; the live id
    128750_1..N03R matches the static id
    ASP25GEN-1038-Sunday-00_128750_1..N03R, and the live id 999 does not
    match the static id 128750_1..N03R. *)
Theorem findRealtimeUpdate_first_suffix :
  forall (staticTripId : string) (realtimeData : GTFSRealtimeData),
    (forall u,
        Service.findRealtimeUpdate staticTripId realtimeData = Some u <->
        exists earlier later,
          trip_updates realtimeData = earlier ++ u :: later
          /\ Spec.matches staticTripId u
          /\ forall v, In v earlier -> ~ Spec.matches staticTripId v)
    /\ (Service.findRealtimeUpdate staticTripId realtimeData = None <->
        forall v, In v (trip_updates realtimeData) ->
                  ~ Spec.matches staticTripId v)
    /\ Service.matchesTrip staticTripId (Sample.update staticTripId [])
       = JS.truthy staticTripId
    /\ Service.findRealtimeUpdate "ASP25GEN-1038-Sunday-00_128750_1..N03R"
         (Sample.feed [Sample.update "999" []; Sample.update "128750_1..N03R" []])
       = Some (Sample.update "128750_1..N03R" [])
    /\ Service.findRealtimeUpdate "128750_1..N03R"
         (Sample.feed [Sample.update "999" []])
       = None.
Proof.
  intros staticTripId realtimeData. unfold Service.findRealtimeUpdate.
  repeat split.
  - intros H. apply find_first in H. destruct H as [l1 [l2 [Hl [Hu Hno]]]].
    exists l1, l2. repeat split; auto.
    + now apply matchesTrip_spec.
    + intros v Hv. apply matchesTrip_false. auto.
  - intros [l1 [l2 [Hl [Hu Hno]]]]. apply find_first.
    exists l1, l2. repeat split; auto.
    + now apply matchesTrip_spec.
    + intros v Hv. apply matchesTrip_false. auto.
  - intros H v Hv. apply matchesTrip_false.
    exact (proj1 (find_nothing _ _) H v Hv).
  - intros H. apply find_nothing. intros v Hv. apply matchesTrip_false. auto.
  - unfold Service.matchesTrip. simpl.
    replace (JS.endsWith staticTripId staticTripId) with true.
    + apply andb_true_r.
    + symmetry. apply endsWith_spec. now exists EmptyString.
Qed.

(** ** The live loader *)

Lemma tryCatch_ok {A : Type} (body : Exc.t A) (a : A) :
  exists r, Exc.tryCatch body (fun _ => Exc.Ok a) = Exc.Ok r.
Proof.
  destruct body as [r|e]; simpl; eauto.
Qed.

(** The loader always resolves to a snapshot. *)
Lemma fetch_resolves (w : Realtime.World) :
  exists d, Realtime.fetchGTFSRealtimeData w = Exc.Ok d.
Proof.
  unfold Realtime.fetchGTFSRealtimeData. apply tryCatch_ok.
Qed.

(** C6. [fetchGTFSRealtimeData] never propagates an error: it always
    resolves to a snapshot, and on every failure of the request or of the
    protobuf decoding (network error, status that is not ok, body that
    cannot be read, parse error) the snapshot has an empty [trip_updates]
    list and [last_updated] set to the current time. *)
Theorem fetchGTFSRealtimeData_never_throws :
  forall w : Realtime.World,
    (exists d, Realtime.fetchGTFSRealtimeData w = Exc.Ok d)
    /\ (Spec.loadFails w ->
        Realtime.fetchGTFSRealtimeData w
        = Exc.Ok {| trip_updates := [];
                    last_updated := JS.ofZ (Realtime.dateNow w) |}).
Proof.
  intros w. split; [apply fetch_resolves|].
  unfold Spec.loadFails, Realtime.fetchGTFSRealtimeData, Realtime.parseFeedMessage.
  intros [[e He] | [r [Hr [Hok | [[e He] | [b [e [Hb He]]]]]]]].
  - now rewrite He.
  - rewrite Hr. simpl. now rewrite Hok.
  - rewrite Hr. simpl. destruct (Realtime.ok r); simpl; [now rewrite He | reflexivity].
  - rewrite Hr. simpl. destruct (Realtime.ok r); simpl; [| reflexivity].
    rewrite Hb. simpl. now rewrite He.
Qed.

(** ** The refresh cache *)

(** A cached snapshot is served as it is while it is at most [ttl] old. *)
Lemma ensureGTFSData_cached (now : Z) (load : Exc.t GTFSData)
  (this : Service.GTFSService) (d : GTFSData) :
  Service.gtfsData this = Some d ->
  now - Service.lastDataLoad this <= Service.CACHE_DURATION ->
  Service.ensureGTFSData now load this = (Exc.Ok d, this, []).
Proof.
  intros Hd Hage. unfold Service.ensureGTFSData. rewrite Hd.
  destruct (Z.gtb_spec (now - Service.lastDataLoad this) Service.CACHE_DURATION);
    [lia | reflexivity].
Qed.

Lemma ensureGTFSData_reload (now : Z) (d' : GTFSData)
  (this : Service.GTFSService) :
  Service.gtfsData this = None
  \/ now - Service.lastDataLoad this > Service.CACHE_DURATION ->
  Service.ensureGTFSData now (Exc.Ok d') this
  = (Exc.Ok d',
     {| Service.gtfsData := Some d';
        Service.realtimeData := Service.realtimeData this;
        Service.lastDataLoad := now;
        Service.lastRealtimeUpdate := Service.lastRealtimeUpdate this |},
     [Service.CallLoadGTFSData]).
Proof.
  intros H. unfold Service.ensureGTFSData.
  destruct (Service.gtfsData this) as [d|]; [| reflexivity].
  destruct H as [H|H]; [discriminate|].
  destruct (Z.gtb_spec (now - Service.lastDataLoad this) Service.CACHE_DURATION);
    [reflexivity | lia].
Qed.

Lemma ensureRealtimeData_cached (now : Z) (w : Realtime.World)
  (this : Service.GTFSService) (d : GTFSRealtimeData) :
  Service.realtimeData this = Some d ->
  now - Service.lastRealtimeUpdate this <= Service.REALTIME_CACHE_DURATION ->
  Service.ensureRealtimeData now w this = (Exc.Ok d, this, []).
Proof.
  intros Hd Hage. unfold Service.ensureRealtimeData. rewrite Hd.
  destruct (Z.gtb_spec (now - Service.lastRealtimeUpdate this)
                       Service.REALTIME_CACHE_DURATION);
    [lia | reflexivity].
Qed.

Lemma ensureRealtimeData_reload (now : Z) (w : Realtime.World)
  (this : Service.GTFSService) :
  Service.realtimeData this = None
  \/ now - Service.lastRealtimeUpdate this > Service.REALTIME_CACHE_DURATION ->
  exists d',
    Realtime.fetchGTFSRealtimeData w = Exc.Ok d'
    /\ Service.ensureRealtimeData now w this
       = (Exc.Ok d',
          {| Service.gtfsData := Service.gtfsData this;
             Service.realtimeData := Some d';
             Service.lastDataLoad := Service.lastDataLoad this;
             Service.lastRealtimeUpdate := now |},
          [Service.CallFetchGTFSRealtimeData]).
Proof.
  intros H. destruct (fetch_resolves w) as [d' Hd']. exists d'.
  split; [exact Hd'|].
  unfold Service.ensureRealtimeData. rewrite Hd'.
  destruct (Service.realtimeData this) as [d|]; [| reflexivity].
  destruct H as [H|H]; [discriminate|].
  destruct (Z.gtb_spec (now - Service.lastRealtimeUpdate this)
                       Service.REALTIME_CACHE_DURATION);
    [reflexivity | lia].
Qed.

(** C5, as the code has it.  A snapshot is served from the cache, the
    service left as it was and no loader called, while a snapshot is held
    and [now - lastLoadTime <= ttl] (5 minutes for the static data, 30
    seconds for the live data).  With no snapshot held, or with
    [now - lastLoadTime > ttl], the loader is called exactly once and, when
    it succeeds (the live loader always does), its snapshot replaces the
    cached one, [now] is recorded as the load time and the new snapshot is
    returned. *)
Theorem ensure_cache_freshness :
  forall (now : Z) (this : Service.GTFSService),
    Service.CACHE_DURATION = 300000
    /\ Service.REALTIME_CACHE_DURATION = 30000
    /\ (forall load d,
           Service.gtfsData this = Some d ->
           now - Service.lastDataLoad this <= Service.CACHE_DURATION ->
           Service.ensureGTFSData now load this = (Exc.Ok d, this, []))
    /\ (forall d',
           Service.gtfsData this = None
           \/ now - Service.lastDataLoad this > Service.CACHE_DURATION ->
           Service.ensureGTFSData now (Exc.Ok d') this
           = (Exc.Ok d',
              {| Service.gtfsData := Some d';
                 Service.realtimeData := Service.realtimeData this;
                 Service.lastDataLoad := now;
                 Service.lastRealtimeUpdate := Service.lastRealtimeUpdate this |},
              [Service.CallLoadGTFSData]))
    /\ (forall w d,
           Service.realtimeData this = Some d ->
           now - Service.lastRealtimeUpdate this
           <= Service.REALTIME_CACHE_DURATION ->
           Service.ensureRealtimeData now w this = (Exc.Ok d, this, []))
    /\ (forall w,
           Service.realtimeData this = None
           \/ now - Service.lastRealtimeUpdate this
              > Service.REALTIME_CACHE_DURATION ->
           exists d',
             Realtime.fetchGTFSRealtimeData w = Exc.Ok d'
             /\ Service.ensureRealtimeData now w this
                = (Exc.Ok d',
                   {| Service.gtfsData := Service.gtfsData this;
                      Service.realtimeData := Some d';
                      Service.lastDataLoad := Service.lastDataLoad this;
                      Service.lastRealtimeUpdate := now |},
                   [Service.CallFetchGTFSRealtimeData])).
Proof.
  intros now this.
  split; [reflexivity|]. split; [reflexivity|].
  split; [intros; now apply ensureGTFSData_cached|].
  split; [intros; now apply ensureGTFSData_reload|].
  split; [intros; now apply ensureRealtimeData_cached|].
  intros; now apply ensureRealtimeData_reload.
Qed.

(** C5, as the specification words it, fails at the boundary: a static
    snapshot that is exactly five minutes old is not fresher than the TTL,
    yet it is served from the cache and no load is made; likewise for a
    live snapshot that is exactly thirty seconds old. *)
Lemma ensure_cache_boundary :
  (300000 - Service.lastDataLoad Sample.loadedAtZero <? Service.CACHE_DURATION)
  = false
  /\ Service.ensureGTFSData 300000
       (Exc.Ok (Sample.threeStops None None None)) Sample.loadedAtZero
     = (Exc.Ok (Sample.schedule []), Sample.loadedAtZero, [])
  /\ (30000 - Service.lastRealtimeUpdate Sample.loadedAtZero
      <? Service.REALTIME_CACHE_DURATION) = false
  /\ Service.ensureRealtimeData 30000 Sample.offline Sample.loadedAtZero
     = (Exc.Ok (Sample.feed []), Sample.loadedAtZero, []).
Proof.
  repeat split.
Qed.

(** The cache at work: a reload once the static snapshot is older than five
    minutes. *)
Lemma ensure_cache_freshness_witness :
  Service.ensureGTFSData 300001
    (Exc.Ok (Sample.threeStops None None None)) Sample.loadedAtZero
  = (Exc.Ok (Sample.threeStops None None None),
     {| Service.gtfsData := Some (Sample.threeStops None None None);
        Service.realtimeData := Service.realtimeData Sample.loadedAtZero;
        Service.lastDataLoad := 300001;
        Service.lastRealtimeUpdate :=
          Service.lastRealtimeUpdate Sample.loadedAtZero |},
     [Service.CallLoadGTFSData]).
Proof.
  apply (proj1 (proj2 (proj2 (proj2
           (ensure_cache_freshness 300001 Sample.loadedAtZero))))).
  right. reflexivity.
Defined.

(** ** Sorting *)

Section Sort.

Context {A : Type} (cmp : A -> A -> JS.number).

Let R (a b : A) : Prop := JS.before cmp a b = true.

Lemma insert_perm (a : A) (l : list A) :
  Permutation (JS.insert cmp a l) (a :: l).
Proof.
  induction l as [|b l IH]; simpl; [reflexivity|].
  destruct (JS.before cmp a b); [reflexivity|].
  rewrite IH. apply perm_swap.
Qed.

Lemma sort_perm (l : list A) : Permutation (JS.sort cmp l) l.
Proof.
  induction l as [|a l IH]; simpl; [reflexivity|].
  rewrite insert_perm. now constructor.
Qed.

Hypothesis total : forall a b, JS.before cmp a b = false -> R b a.
Hypothesis trans : forall a b c, R a b -> R b c -> R a c.



End Sort.


Lemma in_firstn {A : Type} (x : A) (n : nat) :
  forall l, In x (firstn n l) -> In x l.
Proof.
  induction n as [|n IH]; intros [|a l]; simpl; try tauto.
  intros [H|H]; [now left | right; now apply IH].
Qed.


Lemma StronglySorted_map {A B : Type} (f : A -> B) (R : B -> B -> Prop) :
  forall l, StronglySorted (fun a b => R (f a) (f b)) l ->
            StronglySorted R (List.map f l).
Proof.
  induction 1 as [|a l Hs IH Ha]; simpl; constructor; auto.
  apply Forall_forall. intros y Hy. apply in_map_iff in Hy.
  destruct Hy as [x [<- Hx]]. exact (proj1 (Forall_forall _ _) Ha x Hx).
Qed.




(** ** Upcoming departures *)

Lemma departureOf_fields (h : Clock.Host) (d : GTFSData)
  (rt : GTFSRealtimeData) (stopId : string) (st : StopTime.t) :
  let departure :=
    JS.chain (Service.findStopUpdate
                (Service.findRealtimeUpdate (StopTime.trip_id st) rt)
                stopId (StopTime.stop_sequence st))
             Proto.departure in
  let e := Service.departureOf h d rt stopId st in
  Service.ud_trip_id e = StopTime.trip_id st
  /\ Service.scheduled_departure e = StopTime.departure_time st
  /\ Service.delay_seconds e = JS.chain departure Proto.delay
  /\ Service.delay_status e
     = match JS.chain departure Proto.delay with
       | Some s => Service.classify s
       | None => Service.scheduled
       end
  /\ Service.estimated_departure e
     = option_map (Timezone.unixTimestampToEasternTime h)
                  (Realtime.truthyZ (JS.chain departure Proto.time)).
Proof.
  unfold Service.departureOf.
  destruct (JS.chain _ Proto.departure) as [dep|]; simpl.
  - destruct (Proto.delay dep); simpl; repeat split.
  - repeat split.
Qed.

Lemma stopStopTimes_In (d : GTFSData) (cur stopId : string) (limit : Z)
  (st : StopTime.t) :
  In st (Service.stopStopTimes d cur stopId limit) ->
  In st (stopTimes d)
  /\ StopTime.stop_id st = stopId
  /\ JS.str_geb (StopTime.departure_time st) cur = true.
Proof.
  unfold Service.stopStopTimes, JS.slice0. intros H.
  apply in_firstn in H.
  apply (Permutation_in _ (sort_perm _ _)) in H.
  apply filter_In in H. destruct H as [H Hcur].
  apply filter_In in H. destruct H as [H Hid].
  apply String.eqb_eq in Hid. auto.
Qed.




Lemma truthyZ_some (o : option Z) (t : Z) :
  Realtime.truthyZ o = Some t <-> o = Some t /\ t <> 0.
Proof.
  unfold Realtime.truthyZ. destruct o as [z|]; [|split; [discriminate | intros [H _]; discriminate]].
  destruct (Z.eqb_spec z 0) as [->|Hz]; split.
  - discriminate.
  - intros [[= <-] H]. congruence.
  - intros [= <-]. auto.
  - intros [[= <-] _]. reflexivity.
Qed.

(** C9. In every entry of [getUpcomingDepartures], [delay_seconds] and
    [delay_status] are derived from the departure sub-field of the matched
    stop update alone: the delay is that of the departure and the status
    its classification; a matched update with arrival data only, or with a
    departure that has no delay, gives [delay_status = scheduled] and no
    [delay_seconds]; and [estimated_departure] is set only when the
    departure carries an absolute time, to the Eastern rendering of it. *)
Theorem getUpcomingDepartures_delay_from_departure :
  forall (h : Clock.Host) (now : Z) (d : GTFSData) (rt : GTFSRealtimeData)
         (stopId : string) (limit : Z) (e : Service.UpcomingDeparture),
    In e (Service.getUpcomingDepartures h now d rt stopId limit) ->
    exists st,
      In st (stopTimes d)
      /\ Service.ud_trip_id e = StopTime.trip_id st
      /\ let stopUpdate :=
           Service.findStopUpdate
             (Service.findRealtimeUpdate (StopTime.trip_id st) rt)
             stopId (StopTime.stop_sequence st) in
         let departure := JS.chain stopUpdate Proto.departure in
         Service.delay_seconds e = JS.chain departure Proto.delay
         /\ Service.delay_status e
            = match JS.chain departure Proto.delay with
              | Some s => Service.classify s
              | None => Service.scheduled
              end
         /\ (departure = None \/ JS.chain departure Proto.delay = None ->
             Service.delay_status e = Service.scheduled
             /\ Service.delay_seconds e = None)
         /\ (forall s, Service.estimated_departure e = Some s ->
             exists t, JS.chain departure Proto.time = Some t /\ t <> 0
                       /\ s = Timezone.unixTimestampToEasternTime h t)
         /\ (forall t, JS.chain departure Proto.time = Some t -> t <> 0 ->
             Service.estimated_departure e
             = Some (Timezone.unixTimestampToEasternTime h t)).
Proof.
  intros h now d rt stopId limit e He.
  unfold Service.getUpcomingDepartures in He.
  apply in_map_iff in He. destruct He as [st [<- Hst]].
  apply stopStopTimes_In in Hst. destruct Hst as [Hin _].
  destruct (departureOf_fields h d rt stopId st) as [F1 [_ [F3 [F4 F5]]]].
  exists st. split; [exact Hin|]. split; [exact F1|].
  cbv zeta. split; [exact F3|]. split; [exact F4|]. split; [|split].
  - intros Hnone.
    assert (Hd : JS.chain
              (JS.chain (Service.findStopUpdate
                           (Service.findRealtimeUpdate (StopTime.trip_id st) rt)
                           stopId (StopTime.stop_sequence st)) Proto.departure)
              Proto.delay = None).
    { destruct Hnone as [-> | ->]; reflexivity. }
    rewrite F3, F4, Hd. auto.
  - intros s Hs. rewrite F5 in Hs.
    destruct (Realtime.truthyZ _) as [t|] eqn:Ht; [|discriminate].
    apply truthyZ_some in Ht. destruct Ht as [Ht Hnz].
    injection Hs as <-. eauto.
  - intros t Ht Hnz. rewrite F5.
    rewrite (proj2 (truthyZ_some _ t) (conj Ht Hnz)). reflexivity.
Qed.

Lemma getUpcomingDepartures_delay_from_departure_witness :
  let e :=
    Service.departureOf Sample.utcHost Sample.departuresAtA Sample.lateAtA "A"
      (Sample.stopTime "T1" "08:00:30" "A" "1" None) in
  In e (Service.getUpcomingDepartures Sample.utcHost 45000000
          Sample.departuresAtA Sample.lateAtA "A" 10)
  /\ exists st,
       In st (stopTimes Sample.departuresAtA)
       /\ Service.ud_trip_id e = StopTime.trip_id st
       /\ Service.delay_seconds e
          = JS.chain
              (JS.chain
                 (Service.findStopUpdate
                    (Service.findRealtimeUpdate (StopTime.trip_id st)
                                                Sample.lateAtA)
                    "A" (StopTime.stop_sequence st))
                 Proto.departure)
              Proto.delay.
Proof.
  intros e.
  assert (He : In e (Service.getUpcomingDepartures Sample.utcHost 45000000
                       Sample.departuresAtA Sample.lateAtA "A" 10))
    by (left; reflexivity).
  split; [exact He|].
  destruct (getUpcomingDepartures_delay_from_departure
              Sample.utcHost 45000000 Sample.departuresAtA Sample.lateAtA "A" 10
              e He) as [st [Hin [Hid [Hdelay _]]]].
  exists st. auto.
Defined.

(** ** Calendar activity *)

(** Under any host zone, the day of the week that the function reads is
    the Eastern one. *)
Lemma getDay_eastern (h : Clock.Host) (now : Z) :
  Clock.getDay h (Clock.easternReadAsLocal h now)
  = Clock.weekday (Spec.easternDay h now).
Proof.
  unfold Clock.getDay, Clock.easternReadAsLocal, Spec.easternDay.
  rewrite Z.div_mul by lia. f_equal. f_equal. lia.
Qed.

(** The date that the function reads is the UTC date of the Eastern wall
    clock shifted back by the host's offset. *)
Lemma isoDate_shifted (h : Clock.Host) (now : Z) :
  Clock.isoDate (Clock.easternReadAsLocal h now)
  = Clock.isoDay
      ((now / 1000 + Clock.eastern h (now / 1000) - Clock.hostOffset h) / 86400).
Proof.
  unfold Clock.isoDate, Clock.easternReadAsLocal.
  now rewrite Z.div_mul by lia.
Qed.

Lemma active_utc (h : Clock.Host) (now : Z) (c : Calendar.t) :
  Clock.hostOffset h = 0 ->
  Timezone.isServiceActiveTodayEastern h now c
  = Spec.activeOn (Spec.easternDay h now) c.
Proof.
  intros Hutc. unfold Timezone.isServiceActiveTodayEastern, Spec.activeOn.
  rewrite getDay_eastern, isoDate_shifted, Hutc, Z.sub_0_r.
  fold (Spec.easternDay h now).
  destruct (JS.str_ltb _ _), (JS.str_gtb _ _); reflexivity.
Qed.

(** C8, as the code has it.  On a host whose own zone is UTC, the
    environment the function is written for, the result of
    [isServiceActiveTodayEastern] for a calendar row depends only on the
    Eastern calendar date (and its day of the week): it is the activity of
    the row on the Eastern day, and two runs on UTC hosts at instants of the
    same Eastern date return the same boolean for every calendar row. *)
Theorem isServiceActiveTodayEastern_utc_host :
  forall (h h' : Clock.Host) (now now' : Z) (c : Calendar.t),
    Clock.hostOffset h = 0 ->
    Clock.hostOffset h' = 0 ->
    Spec.easternDay h now = Spec.easternDay h' now' ->
    Timezone.isServiceActiveTodayEastern h now c
    = Spec.activeOn (Spec.easternDay h now) c
    /\ Timezone.isServiceActiveTodayEastern h now c
       = Timezone.isServiceActiveTodayEastern h' now' c.
Proof.
  intros h h' now now' c Hh Hh' Hday.
  split; [now apply active_utc|].
  rewrite !active_utc by assumption. now rewrite Hday.
Qed.

(** C8, as the specification words it, fails: at one instant, 20:00 in
    New York on Monday 2 November 2026, a service that runs on Mondays up
    to that day is active for a host in UTC and inactive for a host in New
    York, whose reading of the date is already 3 November. *)
Lemma isServiceActiveTodayEastern_host_dependent :
  Spec.easternDay Sample.utcHost Sample.mondayEvening
  = Spec.easternDay Sample.newYorkHost Sample.mondayEvening
  /\ Clock.isoDay (Spec.easternDay Sample.utcHost Sample.mondayEvening)
     = "2026-11-02"%string
  /\ Timezone.isServiceActiveTodayEastern
       Sample.utcHost Sample.mondayEvening Sample.mondays = true
  /\ Timezone.isServiceActiveTodayEastern
       Sample.newYorkHost Sample.mondayEvening Sample.mondays = false.
Proof.
  repeat split.
Qed.

Lemma isServiceActiveTodayEastern_utc_host_witness :
  Timezone.isServiceActiveTodayEastern
    Sample.utcHost Sample.mondayEvening Sample.mondays
  = Spec.activeOn
      (Spec.easternDay Sample.utcHost Sample.mondayEvening) Sample.mondays
  /\ Timezone.isServiceActiveTodayEastern
       Sample.utcHost Sample.mondayEvening Sample.mondays
     = Timezone.isServiceActiveTodayEastern
         Sample.utcHost (Sample.mondayEvening + 3600000) Sample.mondays.
Proof.
  apply (isServiceActiveTodayEastern_utc_host
           Sample.utcHost Sample.utcHost
           Sample.mondayEvening (Sample.mondayEvening + 3600000) Sample.mondays);
    reflexivity.
Defined.

(** ** Route resolution *)

Lemma resolveRoute_first (d : GTFSData) (x : string) (r : Route.t)
  (earlier later : list Route.t) :
  routes d = earlier ++ r :: later ->
  Service.selectsRoute x r = true ->
  (forall r', In r' earlier -> Service.selectsRoute x r' = false) ->
  Service.resolveRoute d x = Some r.
Proof.
  intros Hd Hr He. unfold Service.resolveRoute. apply find_first.
  exists earlier, later. auto.
Qed.

Lemma getRouteShape_resolved (d : GTFSData) (x y : string)
  (a b : option string) :
  Service.resolveRoute d x = Service.resolveRoute d y ->
  Service.getRouteShape d x a b = Service.getRouteShape d y a b.
Proof.
  intros H. unfold Service.getRouteShape. now rewrite H.
Qed.

(** C10, as the code has it.  [getRouteShape] works on the first route, in
    the order of the snapshot, whose [route_id] equals the argument or whose
    short name equals it up to case.  For a route that no earlier route of
    the snapshot shadows (none whose [route_id], or whose short name up to
    case, equals this route's id or the variant), every case variant of its
    short name selects this route, as its [route_id] does, and the two
    calls return the same shape. *)
Theorem getRouteShape_case_variant :
  forall (d : GTFSData) (r : Route.t) (earlier later : list Route.t)
         (variant : string) (startStopId endStopId : option string),
    routes d = earlier ++ r :: later ->
    JS.toLowerCase variant = JS.toLowerCase (Route.route_short_name r) ->
    (forall r', In r' earlier ->
                Service.selectsRoute variant r' = false
                /\ Service.selectsRoute (Route.route_id r) r' = false) ->
    Service.resolveRoute d variant = Some r
    /\ Service.resolveRoute d (Route.route_id r) = Some r
    /\ Service.getRouteShape d variant startStopId endStopId
       = Service.getRouteShape d (Route.route_id r) startStopId endStopId.
Proof.
  intros d r earlier later variant a b Hd Hv He.
  assert (H1 : Service.resolveRoute d variant = Some r).
  { apply (resolveRoute_first d variant r earlier later Hd).
    - unfold Service.selectsRoute. rewrite Hv, String.eqb_refl.
      apply orb_true_r.
    - intros r' Hr'. apply He, Hr'. }
  assert (H2 : Service.resolveRoute d (Route.route_id r) = Some r).
  { apply (resolveRoute_first d _ r earlier later Hd).
    - unfold Service.selectsRoute. now rewrite String.eqb_refl.
    - intros r' Hr'. apply He, Hr'. }
  repeat split; auto.
  apply getRouteShape_resolved. congruence.
Qed.

(** C10, as it is worded, fails.  Two shuttles share the short name S: the
    lower-case variant of the short name of the Franklin Avenue shuttle
    selects the 42 Street shuttle, listed first, and not the route that its
    own id FS selects.  Nor do ids come before short names: with the
    express route 6X, short name 6, listed before the route whose id is 6,
    the argument 6 selects the express route. *)
Lemma getRouteShape_shadowed :
  In (Sample.route "FS" "S" "Franklin Av Shuttle") (routes (Sample.schedule []))
  /\ JS.toLowerCase "s" = JS.toLowerCase "S"
  /\ option_map Service.routeName
       (Service.getRouteShape (Sample.schedule []) "FS" None None)
     = Some "S - Franklin Av Shuttle"%string
  /\ option_map Service.routeName
       (Service.getRouteShape (Sample.schedule []) "s" None None)
     = Some "S - 42 St Shuttle"%string
  /\ In (Sample.route "6" "6" "Lexington Av Local") (routes Sample.expressFirst)
  /\ option_map Route.route_id (Service.resolveRoute Sample.expressFirst "6")
     = Some "6X"%string.
Proof.
  repeat split; simpl; auto.
Qed.

Lemma getRouteShape_case_variant_witness :
  Service.resolveRoute (Sample.schedule []) "s"
  = Some (Sample.route "GS" "S" "42 St Shuttle")
  /\ Service.resolveRoute (Sample.schedule []) "GS"
     = Some (Sample.route "GS" "S" "42 St Shuttle")
  /\ Service.getRouteShape (Sample.schedule []) "s" None (Some "A"%string)
     = Service.getRouteShape (Sample.schedule []) "GS" None (Some "A"%string).
Proof.
  apply (getRouteShape_case_variant (Sample.schedule [])
           (Sample.route "GS" "S" "42 St Shuttle") []
           [Sample.route "FS" "S" "Franklin Av Shuttle"]).
  - reflexivity.
  - reflexivity.
  - simpl. intros r' [].
Defined.

(** ** The progress scan *)

Section Scan.

Variables (stus : list Proto.StopTimeUpdate) (now : Z) (lastIndex : nat).

Let departed := Spec.departed stus now.
Let arrived := Spec.arrived stus now.
Let halts := Spec.halts stus now.
Let scan := Service.scan stus now lastIndex.

Lemma scan_departed (i : nat) (st : StopTime.t) (rest : list StopTime.t)
  (cur : nat) :
  departed st = true ->
  scan i (st :: rest) cur = scan (S i) rest (Nat.min (i + 1) lastIndex).
Proof.
  unfold departed, Spec.departed, scan. simpl. now intros ->.
Qed.

Lemma scan_arrived (i : nat) (st : StopTime.t) (rest : list StopTime.t)
  (cur : nat) :
  departed st = false -> arrived st = true ->
  scan i (st :: rest) cur = i.
Proof.
  unfold departed, arrived, Spec.departed, Spec.arrived, scan. simpl.
  now intros -> ->.
Qed.

Lemma scan_neither (i : nat) (st : StopTime.t) (rest : list StopTime.t)
  (cur : nat) :
  departed st = false -> arrived st = false ->
  scan i (st :: rest) cur = scan (S i) rest cur.
Proof.
  unfold departed, arrived, Spec.departed, Spec.arrived, scan. simpl.
  now intros -> ->.
Qed.

(** A stop that does not halt the scan hands it on to the next stop. *)
Lemma scan_continues (i : nat) (st : StopTime.t) (rest : list StopTime.t)
  (cur : nat) :
  halts st = false ->
  exists cur', scan i (st :: rest) cur = scan (S i) rest cur'.
Proof.
  unfold halts, Spec.halts. fold departed arrived. intros H.
  destruct (departed st) eqn:Hd.
  - eexists. now apply scan_departed.
  - destruct (arrived st) eqn:Ha; [discriminate|].
    eexists. now apply scan_neither.
Qed.

(** The scan ends on the first stop that halts it. *)
Lemma scan_first_halt (pre : list StopTime.t) :
  forall (i : nat) (st : StopTime.t) (post : list StopTime.t) (cur : nat),
    (forall s, In s pre -> halts s = false) ->
    halts st = true ->
    scan i (pre ++ st :: post) cur = (i + List.length pre)%nat.
Proof.
  induction pre as [|s pre IH]; intros i st post cur Hpre Hst; simpl.
  - unfold halts, Spec.halts in Hst. fold departed arrived in Hst.
    apply andb_true_iff in Hst. destruct Hst as [Hd Ha].
    apply negb_true_iff in Hd.
    rewrite Nat.add_0_r. now apply scan_arrived.
  - destruct (scan_continues i s (pre ++ st :: post) cur) as [cur' ->].
    + apply Hpre. now left.
    + rewrite IH; [lia | | exact Hst].
      intros x Hx. apply Hpre. now right.
Qed.

(** With no stop halting it, the scan ends one stop after the last stop
    that the trip has left, or where it started. *)
Lemma scan_none_departed (l : list StopTime.t) :
  forall (i cur : nat),
    (forall s, In s l -> halts s = false) ->
    (forall s, In s l -> departed s = false) ->
    scan i l cur = cur.
Proof.
  induction l as [|s l IH]; intros i cur Hh Hd; [reflexivity|].
  assert (Hs : departed s = false) by (apply Hd; now left).
  assert (Ha : arrived s = false).
  { specialize (Hh s (or_introl eq_refl)).
    unfold halts, Spec.halts in Hh. fold departed arrived in Hh.
    rewrite Hs in Hh. exact Hh. }
  rewrite scan_neither by assumption.
  apply IH; intros x Hx; [apply Hh | apply Hd]; now right.
Qed.

Lemma scan_last_departed (pre : list StopTime.t) :
  forall (i : nat) (st : StopTime.t) (post : list StopTime.t) (cur : nat),
    (forall s, In s (pre ++ st :: post) -> halts s = false) ->
    departed st = true ->
    (forall s, In s post -> departed s = false) ->
    scan i (pre ++ st :: post) cur
    = Nat.min (i + List.length pre + 1) lastIndex.
Proof.
  induction pre as [|s pre IH]; intros i st post cur Hh Hst Hpost; simpl.
  - rewrite scan_departed by assumption.
    rewrite scan_none_departed; [f_equal; lia | | exact Hpost].
    intros x Hx. apply Hh. simpl. now right.
  - destruct (scan_continues i s (pre ++ st :: post) cur) as [cur' ->].
    + apply Hh. now left.
    + rewrite IH; [f_equal; lia | | exact Hst | exact Hpost].
      intros x Hx. apply Hh. now right.
Qed.


End Scan.


(** C2, as the code has it.  In the scan of [calculateTripProgress], at
    the stop of index [i]: a live departure time in the past moves the
    current-stop index to [min(i+1, lastIndex)] and the scan goes on,
    whether or not the arrival is in the past too (the departure is tested
    first); a live arrival time in the past, with no departure in the
    past, sets the index to [i] and ends the scan; a stop with neither
    leaves the index as it is and the scan goes on.  So the scan ends on
    the first stop whose arrival is in the past while its departure is
    not. *)
Theorem scan_departure_before_arrival :
  forall (stus : list Proto.StopTimeUpdate) (now : Z) (lastIndex i : nat)
         (st : StopTime.t) (rest : list StopTime.t) (cur : nat),
    (Spec.departed stus now st = true ->
     Service.scan stus now lastIndex i (st :: rest) cur
     = Service.scan stus now lastIndex (S i) rest (Nat.min (i + 1) lastIndex))
    /\ (Spec.departed stus now st = false ->
        Spec.arrived stus now st = true ->
        Service.scan stus now lastIndex i (st :: rest) cur = i)
    /\ (Spec.departed stus now st = false ->
        Spec.arrived stus now st = false ->
        Service.scan stus now lastIndex i (st :: rest) cur
        = Service.scan stus now lastIndex (S i) rest cur)
    /\ (forall pre,
           (forall s, In s pre -> Spec.halts stus now s = false) ->
           Spec.halts stus now st = true ->
           Service.scan stus now lastIndex i (pre ++ st :: rest) cur
           = (i + List.length pre)%nat).
Proof.
  intros stus now lastIndex i st rest cur.
  split; [apply scan_departed|].
  split; [apply scan_arrived|].
  split; [apply scan_neither|].
  intros pre. apply scan_first_halt.
Qed.

(** C2, as the specification words it, fails: stop A was reached at second
    5 and left at second 10, both in the past at second 100; its arrival
    in the past does not end the scan on index 0, the departure wins and
    the scan ends on index 1. *)
Lemma scan_arrival_does_not_win :
  Spec.arrived Sample.reachedAndLeftA 100
    (Sample.stopTime "T1" "08:00:30" "A" "1" None) = true
  /\ Spec.departed Sample.reachedAndLeftA 100
       (Sample.stopTime "T1" "08:00:30" "A" "1" None) = true
  /\ Service.tripStopTimes (Sample.threeStops None None None) "T1"
     = [Sample.stopTime "T1" "08:00:30" "A" "1" None;
        Sample.stopTime "T1" "08:10:00" "B" "2" None;
        Sample.stopTime "T1" "08:20:00" "C" "3" None]
  /\ Service.currentIndex
       (Service.tripStopTimes (Sample.threeStops None None None) "T1")
       Sample.reachedAndLeftA 100000 = 1%nat.
Proof.
  repeat split.
Qed.

Lemma scan_departure_before_arrival_witness :
  Service.scan Sample.reachedAndLeftA 100 2 0
    [Sample.stopTime "T1" "08:00:30" "A" "1" None;
     Sample.stopTime "T1" "08:10:00" "B" "2" None] 0%nat
  = Service.scan Sample.reachedAndLeftA 100 2 1
      [Sample.stopTime "T1" "08:10:00" "B" "2" None] (Nat.min (0 + 1) 2).
Proof.
  apply (proj1 (scan_departure_before_arrival Sample.reachedAndLeftA 100 2 0
                  (Sample.stopTime "T1" "08:00:30" "A" "1" None)
                  [Sample.stopTime "T1" "08:10:00" "B" "2" None] 0%nat)).
  reflexivity.
Defined.

(** ** Progress *)

Section Numbers.

Local Open Scope Q_scope.

Lemma ltb_num (p q : Q) : JS.ltb (JS.Num p) (JS.Num q) = true <-> p < q.
Proof.
  simpl. rewrite negb_true_iff. split.
  - intros H. apply Qnot_le_lt. intros Hle.
    apply Qle_bool_iff in Hle. congruence.
  - intros H. destruct (Qle_bool q p) eqn:E; [|reflexivity].
    apply Qle_bool_iff in E. exfalso. exact (Qlt_not_le _ _ H E).
Qed.

Lemma ltb_num_false (p q : Q) : JS.ltb (JS.Num p) (JS.Num q) = false <-> q <= p.
Proof.
  simpl. rewrite negb_false_iff. apply Qle_bool_iff.
Qed.

Lemma Qfloor_half_range (q : Q) :
  0 <= q -> q <= 100 -> (0 <= Qfloor (q + (1 # 2)) <= 100)%Z.
Proof.
  intros H0 H100. split.
  - change 0%Z with (Qfloor 0). apply Qfloor_resp_le.
    apply Qle_trans with q; [exact H0|].
    rewrite <- (Qplus_0_r q) at 1. apply Qplus_le_r. discriminate.
  - change 100%Z with (Qfloor (100 + (1 # 2))). apply Qfloor_resp_le.
    apply Qplus_le_l. exact H100.
Qed.


(** It lies between 0 and 100 when [x] is a number that is not
    negative. *)
Lemma round_min_range (q : Q) :
  0 <= q ->
  exists z, JS.round (JS.min (JS.Num q) (JS.ofZ 100)) = JS.ofZ z
            /\ (0 <= z <= 100)%Z
            /\ z = Z.min (Qfloor (q + (1 # 2))) 100.
Proof.
  intros Hq. unfold JS.min, JS.ofZ.
  destruct (JS.ltb (JS.Num (inject_Z 100)) (JS.Num q)) eqn:E.
  - apply ltb_num in E. exists 100%Z. split; [reflexivity|].
    split; [lia|].
    assert (100 <= Qfloor (q + (1 # 2)))%Z; [|lia].
    change 100%Z with (Qfloor (inject_Z 100)) at 1. apply Qfloor_resp_le.
    apply Qle_trans with q; [now apply Qlt_le_weak|].
    rewrite <- (Qplus_0_r q) at 1. apply Qplus_le_r. discriminate.
  - apply ltb_num_false in E.
    exists (Qfloor (q + (1 # 2))). split; [reflexivity|].
    pose proof (Qfloor_half_range q Hq E). split; lia.
Qed.

End Numbers.

Section Progress.

Local Open Scope Q_scope.

Variables (sts : list StopTime.t) (i : nat).

Let lastIndex : nat := (List.length sts - 1)%nat.

(** The index-based value, when one of the three distances is
    missing. *)
Lemma rawProgress_by_index :
  Service.distance (nth_error sts i) = None
  \/ Service.distance (nth_error sts 0) = None
  \/ Service.distance (nth_error sts lastIndex) = None ->
  Service.rawProgress sts i
  = JS.Num (inject_Z (Z.of_nat i)
            / inject_Z (Z.max (Z.of_nat lastIndex) 1) * inject_Z 100).
Proof.
  intros H. unfold Service.rawProgress. fold lastIndex.
  assert (Hidx :
    JS.mul (JS.div (Service.ofNat i)
                   (JS.max (Service.ofNat lastIndex) (JS.ofZ 1)))
           (JS.ofZ 100)
    = JS.Num (inject_Z (Z.of_nat i)
              / inject_Z (Z.max (Z.of_nat lastIndex) 1) * inject_Z 100)).
  { unfold Service.ofNat, JS.ofZ, JS.max.
    destruct (JS.ltb (JS.Num (inject_Z (Z.of_nat lastIndex)))
                     (JS.Num (inject_Z 1))) eqn:E.
    - apply ltb_num in E. rewrite <- Zlt_Qlt in E.
      rewrite Z.max_r by lia. reflexivity.
    - apply ltb_num_false in E. rewrite <- Zle_Qle in E.
      rewrite Z.max_l by lia. unfold JS.div.
      destruct (Qeq_bool (inject_Z (Z.of_nat lastIndex)) 0) eqn:E0;
        [|reflexivity].
      apply Qeq_bool_iff in E0. unfold Qeq in E0. simpl in E0. lia. }
  destruct (Service.distance (nth_error sts i)) as [c|];
    [|exact Hidx].
  destruct (Service.distance (nth_error sts 0)) as [f|];
    [|exact Hidx].
  destruct (Service.distance (nth_error sts lastIndex)) as [l|];
    [|exact Hidx].
  destruct H as [H|[H|H]]; discriminate.
Qed.




End Progress.




(** ** The arrival estimate *)

Section Split.

Local Open Scope string_scope.

Lemma rev_string_twice (a : string) : forall acc b,
  JS.rev_string b (JS.rev_string acc a) = JS.rev_string (a ++ b) acc.
Proof.
  induction a as [|c a IH]; intros acc b; simpl; [reflexivity|].
  now rewrite IH.
Qed.

Lemma append_empty (a : string) : a ++ "" = a.
Proof.
  induction a as [|c a IH]; simpl; [reflexivity | now rewrite IH].
Qed.

Lemma split_go_last (sep : ascii) (a : string) : forall cur,
  Spec.without sep a = true ->
  JS.split_go sep cur a = [JS.rev_string "" (JS.rev_string cur a)].
Proof.
  induction a as [|c a IH]; intros cur H; simpl in *; [reflexivity|].
  apply andb_true_iff in H. destruct H as [Hc Ha].
  apply negb_true_iff in Hc. rewrite Hc. now apply IH.
Qed.

Lemma split_go_part (sep : ascii) (a r : string) : forall cur,
  Spec.without sep a = true ->
  JS.split_go sep cur (a ++ String sep r)
  = JS.rev_string "" (JS.rev_string cur a) :: JS.split_go sep "" r.
Proof.
  induction a as [|c a IH]; intros cur H; simpl in *.
  - now rewrite Ascii.eqb_refl.
  - apply andb_true_iff in H. destruct H as [Hc Ha].
    apply negb_true_iff in Hc. rewrite Hc. now apply IH.
Qed.

(** Three parts without a colon, joined by colons, split into the three
    parts. *)
Lemma split_three (a b c : string) :
  Spec.without ":" a = true -> Spec.without ":" b = true -> Spec.without ":" c = true ->
  JS.split ":" (a ++ ":" ++ b ++ ":" ++ c) = [a; b; c].
Proof.
  intros Ha Hb Hc. unfold JS.split.
  change (a ++ ":" ++ b ++ ":" ++ c)
    with (a ++ String ":" (b ++ String ":" c)).
  rewrite split_go_part by exact Ha.
  rewrite split_go_part by exact Hb.
  rewrite split_go_last by exact Hc.
  rewrite !rev_string_twice. simpl. now rewrite !append_empty.
Qed.

End Split.

(** Two-digit fields hold no colon and convert to their value. *)
Lemma pad2_Number (n : Z) :
  0 <= n < 100 ->
  Spec.without ":" (Clock.pad 2 n) = true
  /\ JS.Number (Clock.pad 2 n) = JS.ofZ n.
Proof.
  intros Hn.
  assert (Hin : In n (List.map Z.of_nat (seq 0 100))).
  { apply in_map_iff. exists (Z.to_nat n). split; [lia|].
    apply in_seq. lia. }
  cbv [seq List.map Z.of_nat Pos.of_succ_nat Pos.succ In] in Hin.
  repeat (destruct Hin as [<- | Hin]; [split; reflexivity|]).
  contradiction.
Qed.

Lemma hms_parts (hh mm ss : Z) :
  0 <= hh < 100 -> 0 <= mm < 100 -> 0 <= ss < 100 ->
  List.map JS.Number (JS.split ":" (Spec.hms hh mm ss))
  = [JS.ofZ hh; JS.ofZ mm; JS.ofZ ss].
Proof.
  intros Hh Hm Hs.
  destruct (pad2_Number hh Hh) as [Ch Nh].
  destruct (pad2_Number mm Hm) as [Cm Nm].
  destruct (pad2_Number ss Hs) as [Cs Ns].
  unfold Spec.hms. rewrite split_three by assumption.
  cbn [List.map]. now rewrite Nh, Nm, Ns.
Qed.

(** The date made of a scheduled time of day and a delay. *)
Lemma adjusted_date (hh mm ss d : Z) :
  0 <= hh < 100 -> 0 <= mm < 100 -> 0 <= ss < 100 ->
  - 2 ^ 31 <= d < 2 ^ 31 ->
  Clock.newDate
    (JS.add
       (JS.mul
          (JS.add (JS.add (JS.mul (JS.ofZ hh) (JS.ofZ 3600))
                          (JS.mul (JS.ofZ mm) (JS.ofZ 60)))
                  (JS.ofZ ss))
          (JS.ofZ 1000))
       (JS.ofZ (d * 1000)))
  = Some ((hh * 3600 + mm * 60 + ss + d) * 1000).
Proof.
  intros Hh Hm Hs Hd. unfold Clock.newDate, JS.ofZ, JS.mul, JS.add.
  match goal with |- context [Qabs ?x] => set (q := x) end.
  assert (Hn : Qnum q = (hh * 3600 + mm * 60 + ss + d) * 1000)
    by (unfold q; cbn [Qnum Qden Qplus Qmult inject_Z Pos.mul]; ring).
  assert (Hp : Qden q = 1%positive) by reflexivity.
  assert (Hle : Qle_bool (Qabs q) (inject_Z 8640000000000000) = true).
  { apply Qle_bool_iff. destruct q as [n p]. cbn [Qnum Qden] in Hn, Hp.
    subst n p. unfold Qle, Qabs. cbn [Qnum Qden inject_Z]. lia. }
  rewrite Hle, Hn, Hp. now rewrite Z.quot_1_r.
Qed.

(** C3, as the code has it.  For a scheduled HH:MM:SS string and an update
    whose arrival carries a delay and no absolute time: when the delay is
    not zero, [getRealtimeArrivalTime] returns the sum of the scheduled
    seconds since midnight and the delay, rendered as an HH:MM wall-clock
    string in the host's own time zone (the time of day of the sum itself
    when that zone is UTC), with the formatted delay and [isRealtime =
    true]; when the delay is zero, it returns the scheduled string as it is
    with [isRealtime = false]. *)
Theorem getRealtimeArrivalTime_delay_only :
  forall (h : Clock.Host) (hh mm ss d : Z)
         (stopTimeUpdate : Proto.StopTimeUpdate) (arrival : Proto.StopTimeEvent),
    0 <= hh < 100 -> 0 <= mm < 100 -> 0 <= ss < 100 ->
    - 2 ^ 31 <= d < 2 ^ 31 ->
    Proto.arrival stopTimeUpdate = Some arrival ->
    Proto.time arrival = None \/ Proto.time arrival = Some 0 ->
    Proto.delay arrival = Some d ->
    let result :=
      Realtime.getRealtimeArrivalTime h (Spec.hms hh mm ss)
                                      (Some stopTimeUpdate) in
    let sum := hh * 3600 + mm * 60 + ss + d in
    (d <> 0 ->
     result = {| Realtime.time := Clock.renderHM h (sum + Clock.hostOffset h);
                 Realtime.delay := Some (Realtime.formatDelay d);
                 Realtime.isRealtime := true |}
     /\ (Clock.hostOffset h = 0 ->
         Realtime.time result = Clock.renderHM h sum))
    /\ (d = 0 ->
        result = {| Realtime.time := Spec.hms hh mm ss;
                    Realtime.delay := None;
                    Realtime.isRealtime := false |}).
Proof.
  intros h hh mm ss d stu arr Hh Hm Hs Hd Harr Htime Hdelay result sum.
  assert (Hno : Realtime.truthyZ (Proto.time arr) = None)
    by (destruct Htime as [-> | ->]; reflexivity).
  unfold result, Realtime.getRealtimeArrivalTime. simpl JS.chain.
  rewrite Harr, Hno, Hdelay.
  split.
  - intros Hnz.
    assert (Ht : Realtime.truthyZ (Some d) = Some d).
    { unfold Realtime.truthyZ. destruct (Z.eqb_spec d 0); congruence. }
    rewrite Ht, hms_parts by assumption.
    unfold Realtime.part. simpl nth.
    rewrite adjusted_date by assumption.
    unfold Clock.toLocalTimeStringHM. rewrite Z.div_mul by lia.
    fold sum. split; [reflexivity|].
    intros Hutc. simpl. now rewrite Hutc, Z.add_0_r.
  - intros ->. reflexivity.
Qed.

(** C3, as the specification words it, fails twice.  A delay of zero is a
    delay offset, yet the scheduled string comes back with [isRealtime =
    false].  And the rendering is that of the host's zone, not of the
    Eastern one: 08:00:00 with a delay of 60 seconds is rendered 03:01 on a
    host in New York, and 08:01 on a host in UTC, where the Eastern
    rendering of the date built from the sum is 03:01. *)
Lemma getRealtimeArrivalTime_zero_delay_and_zone :
  Realtime.getRealtimeArrivalTime Sample.utcHost "08:00:00"
    (Some (Sample.stopUpdate "A" (Some (Sample.event (Some 0) None)) None))
  = {| Realtime.time := "08:00:00"; Realtime.delay := None;
       Realtime.isRealtime := false |}
  /\ Realtime.getRealtimeArrivalTime Sample.newYorkHost "08:00:00"
       (Some (Sample.stopUpdate "A" (Some (Sample.event (Some 60) None)) None))
     = {| Realtime.time := "03:01";
          Realtime.delay := Some "1m 0s late"%string;
          Realtime.isRealtime := true |}
  /\ Realtime.getRealtimeArrivalTime Sample.utcHost "08:00:00"
       (Some (Sample.stopUpdate "A" (Some (Sample.event (Some 60) None)) None))
     = {| Realtime.time := "08:01";
          Realtime.delay := Some "1m 0s late"%string;
          Realtime.isRealtime := true |}
  /\ Clock.renderHM Sample.utcHost
       (28860 + Clock.eastern Sample.utcHost 28860) = "03:01"%string.
Proof.
  repeat split.
Qed.

Lemma getRealtimeArrivalTime_delay_only_witness :
  Realtime.getRealtimeArrivalTime Sample.utcHost (Spec.hms 8 0 0)
    (Some (Sample.stopUpdate "A" (Some (Sample.event (Some 60) None)) None))
  = {| Realtime.time := "08:01";
       Realtime.delay := Some "1m 0s late"%string;
       Realtime.isRealtime := true |}.
Proof.
  apply (proj1 (getRealtimeArrivalTime_delay_only Sample.utcHost 8 0 0 60
                  (Sample.stopUpdate "A" (Some (Sample.event (Some 60) None)) None)
                  (Sample.event (Some 60) None)
                  ltac:(lia) ltac:(lia) ltac:(lia) ltac:(lia)
                  eq_refl (or_introl eq_refl) eq_refl)).
  discriminate.
Defined.

(** * Further properties *)

(** ** The refresh cache over several calls *)

(** After a call that returned a snapshot, the service holds it. *)
Lemma ensureGTFSData_holds (t : Z) (load : Exc.t GTFSData)
  (this s : Service.GTFSService) (d : GTFSData) (ev : list Service.Event) :
  Service.ensureGTFSData t load this = (Exc.Ok d, s, ev) ->
  Service.gtfsData s = Some d.
Proof.
  unfold Service.ensureGTFSData. intros H.
  destruct (Service.gtfsData this) as [d0|] eqn:Hd.
  - destruct (t - Service.lastDataLoad this >? Service.CACHE_DURATION).
    + destruct load; inversion H; subst; reflexivity.
    + inversion H; subst. exact Hd.
  - destruct load; inversion H; subst; reflexivity.
Qed.

Lemma ensureRealtimeData_holds (t : Z) (w : Realtime.World)
  (this s : Service.GTFSService) (d : GTFSRealtimeData)
  (ev : list Service.Event) :
  Service.ensureRealtimeData t w this = (Exc.Ok d, s, ev) ->
  Service.realtimeData s = Some d.
Proof.
  unfold Service.ensureRealtimeData. intros H.
  destruct (Service.realtimeData this) as [d0|] eqn:Hd.
  - destruct (t - Service.lastRealtimeUpdate this
              >? Service.REALTIME_CACHE_DURATION).
    + destruct (Realtime.fetchGTFSRealtimeData w); inversion H; subst;
        reflexivity.
    + inversion H; subst. exact Hd.
  - destruct (Realtime.fetchGTFSRealtimeData w); inversion H; subst;
      reflexivity.
Qed.

(** X1. Two calls within the TTL window return the identical snapshot:
    after a call of a cache accessor that returned a snapshot, a later
    call made while the recorded load time is at most the TTL old returns
    that same snapshot, leaves the service as it is and calls no loader;
    this holds for the static and for the live accessor. *)
Theorem ensure_twice_within_ttl :
  forall (this s : Service.GTFSService) (t0 t1 : Z) (ev : list Service.Event),
    (forall load0 load1 d,
        Service.ensureGTFSData t0 load0 this = (Exc.Ok d, s, ev) ->
        t1 - Service.lastDataLoad s <= Service.CACHE_DURATION ->
        Service.ensureGTFSData t1 load1 s = (Exc.Ok d, s, []))
    /\ (forall w0 w1 d,
           Service.ensureRealtimeData t0 w0 this = (Exc.Ok d, s, ev) ->
           t1 - Service.lastRealtimeUpdate s
           <= Service.REALTIME_CACHE_DURATION ->
           Service.ensureRealtimeData t1 w1 s = (Exc.Ok d, s, [])).
Proof.
  intros this s t0 t1 ev. split.
  - intros load0 load1 d H Hage.
    apply ensureGTFSData_cached; [|exact Hage].
    exact (ensureGTFSData_holds _ _ _ _ _ _ H).
  - intros w0 w1 d H Hage.
    apply ensureRealtimeData_cached; [|exact Hage].
    exact (ensureRealtimeData_holds _ _ _ _ _ _ H).
Qed.

Lemma ensure_twice_within_ttl_witness :
  Service.ensureGTFSData 600000 (Exc.Throw "unused")
    {| Service.gtfsData := Some (Sample.threeStops None None None);
       Service.realtimeData := Service.realtimeData Sample.loadedAtZero;
       Service.lastDataLoad := 300001;
       Service.lastRealtimeUpdate :=
         Service.lastRealtimeUpdate Sample.loadedAtZero |}
  = (Exc.Ok (Sample.threeStops None None None),
     {| Service.gtfsData := Some (Sample.threeStops None None None);
        Service.realtimeData := Service.realtimeData Sample.loadedAtZero;
        Service.lastDataLoad := 300001;
        Service.lastRealtimeUpdate :=
          Service.lastRealtimeUpdate Sample.loadedAtZero |},
     []).
Proof.
  apply (proj1 (ensure_twice_within_ttl Sample.loadedAtZero _ 300001 600000
                  [Service.CallLoadGTFSData])
           (Exc.Ok (Sample.threeStops None None None))).
  - reflexivity.
  - simpl. unfold Service.CACHE_DURATION. lia.
Defined.

(** X2. A failure of the static loader propagates and changes nothing:
    when a load is due (no snapshot held, or the held one older than five
    minutes) and the loader throws, [ensureGTFSData] throws the same
    error after exactly one loader call and leaves the service as it was,
    so a stale snapshot still held is not served and the next call loads
    again. *)
Theorem ensureGTFSData_load_failure :
  forall (now : Z) (e : string) (this : Service.GTFSService),
    Service.gtfsData this = None
    \/ now - Service.lastDataLoad this > Service.CACHE_DURATION ->
    Service.ensureGTFSData now (Exc.Throw e) this
    = (Exc.Throw e, this, [Service.CallLoadGTFSData])
    /\ forall later d',
         Service.ensureGTFSData (now + later) (Exc.Ok d') this
         = Service.ensureGTFSData (now + later) (Exc.Ok d')
             (snd (fst (Service.ensureGTFSData now (Exc.Throw e) this))).
Proof.
  intros now e this H.
  assert (Hf : Service.ensureGTFSData now (Exc.Throw e) this
               = (Exc.Throw e, this, [Service.CallLoadGTFSData])).
  { unfold Service.ensureGTFSData.
    destruct (Service.gtfsData this) as [d|]; [|reflexivity].
    destruct H as [H|H]; [discriminate|].
    destruct (Z.gtb_spec (now - Service.lastDataLoad this)
                         Service.CACHE_DURATION); [reflexivity | lia]. }
  split; [exact Hf|]. intros later d'. now rewrite Hf.
Qed.

Lemma ensureGTFSData_load_failure_witness :
  Service.ensureGTFSData 300001 (Exc.Throw "disk") Sample.loadedAtZero
  = (Exc.Throw "disk", Sample.loadedAtZero, [Service.CallLoadGTFSData]).
Proof.
  apply (ensureGTFSData_load_failure 300001 "disk" Sample.loadedAtZero).
  right. reflexivity.
Defined.

(** X3. The two caches are independent: a call of [ensureGTFSData] leaves
    the live snapshot and its load time untouched, a call of
    [ensureRealtimeData] leaves the static snapshot and its load time
    untouched, each call makes at most one loader call, and the live
    accessor never throws.  So the two accessors can be run in either
    order: the results and the service at the end are the same. *)
Theorem ensure_accessors_independent :
  forall (t u : Z) (load : Exc.t GTFSData) (w : Realtime.World)
         (this : Service.GTFSService),
    let static := Service.ensureGTFSData t load this in
    let live := Service.ensureRealtimeData u w this in
    let liveAfter := Service.ensureRealtimeData u w (snd (fst static)) in
    let staticAfter := Service.ensureGTFSData t load (snd (fst live)) in
    Service.realtimeData (snd (fst static)) = Service.realtimeData this
    /\ Service.lastRealtimeUpdate (snd (fst static))
       = Service.lastRealtimeUpdate this
    /\ Service.gtfsData (snd (fst live)) = Service.gtfsData this
    /\ Service.lastDataLoad (snd (fst live)) = Service.lastDataLoad this
    /\ (List.length (snd static) <= 1)%nat
    /\ (List.length (snd live) <= 1)%nat
    /\ (exists d, fst (fst live) = Exc.Ok d)
    /\ fst (fst liveAfter) = fst (fst live)
    /\ fst (fst staticAfter) = fst (fst static)
    /\ snd (fst liveAfter) = snd (fst staticAfter).
Proof.
  intros t u load w this. cbv zeta.
  destruct (fetch_resolves w) as [d' Hd'].
  unfold Service.ensureGTFSData, Service.ensureRealtimeData. rewrite Hd'.
  destruct this as [g r lg lr]. simpl.
  destruct g as [g|], r as [r|];
    destruct (t - lg >? Service.CACHE_DURATION) eqn:E1;
    destruct (u - lr >? Service.REALTIME_CACHE_DURATION) eqn:E2;
    destruct load; simpl; rewrite ?E1, ?E2; simpl;
    repeat split; try lia; try (eexists; reflexivity).
Qed.

(** ** Delays and arrival estimates *)

(** X4. [formatDelay] prints a delay that is not zero as its whole minutes
    and remaining seconds, taken from the absolute value: a delay of [d > 0]
    seconds and the advance of [d] seconds print the same numbers, the
    minutes [d / 60] and the seconds [d mod 60] below 60 that add up to [d],
    followed by late and by early. *)
Theorem formatDelay_minutes_seconds :
  forall d : Z,
    0 < d ->
    let m := d / 60 in
    let s := d mod 60 in
    0 <= m /\ 0 <= s < 60 /\ 60 * m + s = d
    /\ Realtime.formatDelay d
       = (Clock.showZ m ++ "m " ++ Clock.showZ s ++ "s late")%string
    /\ Realtime.formatDelay (- d)
       = (Clock.showZ m ++ "m " ++ Clock.showZ s ++ "s early")%string.
Proof.
  intros d Hd m s. unfold m, s.
  split; [apply Z.div_pos; lia|].
  split; [apply Z.mod_pos_bound; lia|].
  split; [symmetry; apply Z.div_mod; lia|].
  unfold Realtime.formatDelay.
  destruct (Z.eqb_spec d 0); [lia|].
  destruct (Z.eqb_spec (- d) 0); [lia|].
  destruct (Z.gtb_spec d 0); [|lia].
  destruct (Z.gtb_spec (- d) 0); [lia|].
  rewrite Z.abs_opp, Z.abs_eq by lia. split; reflexivity.
Qed.

Lemma formatDelay_minutes_seconds_witness :
  Realtime.formatDelay 125 = "2m 5s late"%string
  /\ Realtime.formatDelay (- 125) = "2m 5s early"%string.
Proof.
  destruct (formatDelay_minutes_seconds 125 ltac:(lia)) as [_ [_ [_ H]]].
  exact H.
Defined.

Lemma truthyZ_none (o : option Z) :
  Realtime.truthyZ o = None <-> o = None \/ o = Some 0.
Proof.
  unfold Realtime.truthyZ. destruct o as [z|].
  - destruct (Z.eqb_spec z 0) as [->|Hz]; split; auto; try discriminate.
    intros [H|[= H]]; [discriminate | contradiction].
  - split; auto.
Qed.

(** X5. [getRealtimeArrivalTime] reports a realtime estimate exactly when
    the update has an arrival that carries an absolute time or a delay that
    is not zero; in every other case (no update, no arrival, or an arrival
    with neither) it returns the scheduled string as it was given, whatever
    its shape, with no delay text. *)
Theorem getRealtimeArrivalTime_realtime_iff :
  forall (h : Clock.Host) (scheduledTime : string)
         (stopTimeUpdate : option Proto.StopTimeUpdate),
    let result :=
      Realtime.getRealtimeArrivalTime h scheduledTime stopTimeUpdate in
    (Realtime.isRealtime result = true <->
     exists arrival,
       JS.chain stopTimeUpdate Proto.arrival = Some arrival
       /\ ((exists t, Proto.time arrival = Some t /\ t <> 0)
           \/ (exists s, Proto.delay arrival = Some s /\ s <> 0)))
    /\ (Realtime.isRealtime result = false ->
        Realtime.time result = scheduledTime
        /\ Realtime.delay result = None).
Proof.
  intros h scheduledTime stu result. unfold result, Realtime.getRealtimeArrivalTime.
  destruct (JS.chain stu Proto.arrival) as [arr|].
  - destruct (Realtime.truthyZ (Proto.time arr)) as [t|] eqn:Ht.
    + apply truthyZ_some in Ht. simpl. split; [|discriminate].
      split; [|reflexivity]. intros _. exists arr. split; [reflexivity|].
      left. exists t. exact Ht.
    + destruct (Realtime.truthyZ (Proto.delay arr)) as [s|] eqn:Hs.
      * apply truthyZ_some in Hs. simpl. split; [|discriminate].
        split; [|reflexivity]. intros _. exists arr. split; [reflexivity|].
        right. exists s. exact Hs.
      * simpl. split; [|auto]. split; [discriminate|].
        intros [a [[= <-] [[t [Et Hnz]]|[s [Es Hnz]]]]].
        -- apply truthyZ_none in Ht. destruct Ht as [Ht|Ht]; congruence.
        -- apply truthyZ_none in Hs. destruct Hs as [Hs|Hs]; congruence.
  - simpl. split; [|auto]. split; [discriminate|].
    intros [a [H _]]. discriminate.
Qed.

(** X6. When the arrival carries an absolute time, the estimate of
    [getRealtimeArrivalTime] is taken from it alone: the time shown does not
    depend on the scheduled string nor on the delay, and the delay text is
    present exactly when the delay is there and not zero. *)
Theorem getRealtimeArrivalTime_absolute_time :
  forall (h : Clock.Host) (scheduledTime : string)
         (stopTimeUpdate : Proto.StopTimeUpdate)
         (arrival : Proto.StopTimeEvent) (t : Z),
    Proto.arrival stopTimeUpdate = Some arrival ->
    Proto.time arrival = Some t ->
    t <> 0 ->
    let result :=
      Realtime.getRealtimeArrivalTime h scheduledTime (Some stopTimeUpdate) in
    Realtime.time result
    = Clock.toLocalTimeStringHM h (Clock.newDate (JS.ofZ (t * 1000)))
    /\ Realtime.isRealtime result = true
    /\ Realtime.delay result
       = match Proto.delay arrival with
         | Some s => if s =? 0 then None else Some (Realtime.formatDelay s)
         | None => None
         end.
Proof.
  intros h scheduledTime stu arr t Harr Ht Hnz result.
  unfold result, Realtime.getRealtimeArrivalTime. simpl JS.chain.
  rewrite Harr.
  rewrite (proj2 (truthyZ_some (Proto.time arr) t) (conj Ht Hnz)).
  simpl. repeat split.
  unfold Realtime.truthyZ. destruct (Proto.delay arr) as [s|]; [|reflexivity].
  destruct (s =? 0); reflexivity.
Qed.

Lemma getRealtimeArrivalTime_absolute_time_witness :
  Realtime.time
    (Realtime.getRealtimeArrivalTime Sample.utcHost "08:00:30"
       (Some (Sample.stopUpdate "A" (Some (Sample.event (Some 60) (Some 46800)))
                                None)))
  = Clock.toLocalTimeStringHM Sample.utcHost
      (Clock.newDate (JS.ofZ (46800 * 1000))).
Proof.
  apply (getRealtimeArrivalTime_absolute_time Sample.utcHost "08:00:30"
           (Sample.stopUpdate "A" (Some (Sample.event (Some 60) (Some 46800)))
                              None)
           (Sample.event (Some 60) (Some 46800)) 46800
           eq_refl eq_refl).
  discriminate.
Defined.

Lemma find_some_if {A : Type} (p : A -> bool) (l : list A) (x : A) :
  In x l -> p x = true -> exists y, JS.find p l = Some y.
Proof.
  intros Hin Hp. destruct (JS.find p l) as [y|] eqn:E; [eauto|].
  rewrite (proj1 (find_nothing p l) E x Hin) in Hp. discriminate.
Qed.

(** X7. Exact matching is within suffix matching: when
    [enrichTripWithRealtime] finds an update for a trip id that is not
    empty, the update it finds has that id, and the suffix matching of the
    service finds an update for that trip id as well (that one, or an
    earlier one of the feed whose id is a suffix). *)
Theorem enrichTripWithRealtime_within_suffix :
  forall (tripId : string) (realtimeData : GTFSRealtimeData)
         (u : Proto.TripUpdate),
    Realtime.enrichTripWithRealtime tripId realtimeData = Some u ->
    tripId <> ""%string ->
    JS.chain (Proto.trip u) Proto.tripId = Some tripId
    /\ exists v earlier later,
         Service.findRealtimeUpdate tripId realtimeData = Some v
         /\ Spec.matches tripId v
         /\ trip_updates realtimeData = (earlier ++ v :: later)%list
         /\ (v = u \/ In u later).
Proof.
  intros tripId rt u H Hne.
  unfold Realtime.enrichTripWithRealtime in H.
  apply find_first in H. destruct H as [l1 [l2 [Hl [Hu _]]]].
  assert (Hid : JS.chain (Proto.trip u) Proto.tripId = Some tripId).
  { unfold Realtime.sameTripId in Hu.
    destruct (Proto.trip u) as [[[id|]]|]; try discriminate.
    apply String.eqb_eq in Hu. now subst. }
  split; [exact Hid|].
  assert (Hm : Service.matchesTrip tripId u = true).
  { apply matchesTrip_spec. exists tripId. repeat split; auto.
    now exists EmptyString. }
  assert (Hin : In u (trip_updates rt)).
  { rewrite Hl. apply in_or_app. right. now left. }
  destruct (find_some_if _ _ _ Hin Hm) as [v Hv].
  unfold Service.findRealtimeUpdate.
  pose proof Hv as Hv'. apply find_first in Hv'.
  destruct Hv' as [e1 [e2 [He [Hmv Hno]]]].
  exists v, e1, e2. repeat split; auto.
  - now apply matchesTrip_spec.
  - rewrite He in Hin. apply in_app_or in Hin.
    destruct Hin as [Hin|[Hin|Hin]]; auto.
    rewrite (Hno u Hin) in Hm. discriminate.
Qed.

Lemma enrichTripWithRealtime_within_suffix_witness :
  JS.chain (Proto.trip (Sample.update "T1" [])) Proto.tripId
  = Some "T1"%string
  /\ exists v earlier later,
       Service.findRealtimeUpdate "T1"
         (Sample.feed [Sample.update "1" []; Sample.update "T1" []]) = Some v
       /\ Spec.matches "T1" v
       /\ trip_updates (Sample.feed [Sample.update "1" []; Sample.update "T1" []])
          = (earlier ++ v :: later)%list
       /\ (v = Sample.update "T1" [] \/ In (Sample.update "T1" []) later).
Proof.
  apply (enrichTripWithRealtime_within_suffix "T1"
           (Sample.feed [Sample.update "1" []; Sample.update "T1" []])
           (Sample.update "T1" [])).
  - reflexivity.
  - discriminate.
Defined.

(** ** Markers and shapes *)

(** X8. The lookup of a marker has two effective tiers: a stop with the
    given id, or else the first stop, in snapshot order, whose
    [parent_station] is the given id.  The third tier of the source, the
    parent station of the stop with the given id, is never reached: it
    looks the stop up again after that same lookup has failed. *)
Theorem findStopCoordinates_two_tiers :
  forall (d : GTFSData) (stopId : string),
    let marker := fun stop =>
      {| Service.lat := JS.parseFloat (Stop.stop_lat stop);
         Service.lng := JS.parseFloat (Stop.stop_lon stop);
         Service.name := Stop.stop_name stop;
         Service.markerStopId := Stop.stop_id stop |} in
    Service.findStopCoordinates d stopId
    = option_map marker
        (match Service.findStop d (Some stopId) with
         | Some stop => Some stop
         | None =>
             hd_error
               (filter (fun s => Service.eqOptString (Stop.parent_station s) stopId)
                       (stops d))
         end).
Proof.
  intros d stopId marker. unfold Service.findStopCoordinates.
  destruct (Service.findStop d (Some stopId)) as [stop|]; [reflexivity|].
  destruct (filter _ (stops d)); reflexivity.
Qed.

Lemma uniq_hd (l : list string) :
  hd_error (Service.uniq [] l) = hd_error l.
Proof.
  destruct l; reflexivity.
Qed.

Lemma find_filter {A : Type} (p q : A -> bool) (l : list A) :
  JS.find q (filter p l) = JS.find (fun x => p x && q x) l.
Proof.
  unfold JS.find. induction l as [|a l IH]; simpl; [reflexivity|].
  destruct (p a); simpl; [|exact IH].
  destruct (q a); [reflexivity | exact IH].
Qed.

Lemma hd_flat_map_option {A B : Type} (g : A -> option B) (l : list A) :
  hd_error
    (flat_map (fun x => match g x with Some y => [y] | None => [] end) l)
  = JS.chain
      (JS.find (fun x => match g x with Some _ => true | None => false end) l)
      g.
Proof.
  unfold JS.find. induction l as [|a l IH]; simpl; [reflexivity|].
  destruct (g a) eqn:E; simpl; [now rewrite E | exact IH].
Qed.

Lemma isEmpty_false {A : Type} (l : list A) :
  JS.isEmpty l = false <-> l <> [].
Proof.
  destruct l; simpl; split; congruence.
Qed.

Lemma sort_length {A : Type} (cmp : A -> A -> JS.number) (l : list A) :
  List.length (JS.sort cmp l) = List.length l.
Proof.
  apply Permutation_length, sort_perm.
Qed.

(** X9. [getRouteShape] answers not found, never an empty shape: it
    returns nothing when no route is selected by the argument, and a shape
    it returns has at least one coordinate, one for each point of the shape
    named by the first trip of the route, in snapshot order, that names
    one; it is never marked as a filtered segment, and its colour is the
    one [getRouteColor] gives for the route. *)
Theorem getRouteShape_not_found_or_nonempty :
  forall (d : GTFSData) (routeId : string) (startStopId endStopId : option string),
    (Service.resolveRoute d routeId = None ->
     Service.getRouteShape d routeId startStopId endStopId = None)
    /\ (forall shape,
           Service.getRouteShape d routeId startStopId endStopId = Some shape ->
           Service.coordinates shape <> []
           /\ Service.filteredSegment shape = false
           /\ exists route trip shapeId,
                Service.resolveRoute d routeId = Some route
                /\ JS.find
                     (fun t =>
                        String.eqb (Trip.route_id t) (Route.route_id route)
                        && match Service.truthyString (Trip.shape_id t) with
                           | Some _ => true
                           | None => false
                           end)
                     (trips d) = Some trip
                /\ Trip.shape_id trip = Some shapeId
                /\ List.length (Service.coordinates shape)
                   = List.length
                       (filter (fun p => String.eqb (Shape.shape_id p) shapeId)
                               (shapes d))
                /\ Service.color shape = Helpers.getRouteColor route
                /\ Service.routeName shape
                   = (Route.route_short_name route ++ " - "
                        ++ Route.route_long_name route)%string).
Proof.
  intros d routeId a b. unfold Service.getRouteShape. split.
  - now intros ->.
  - intros shape.
    destruct (Service.resolveRoute d routeId) as [route|]; [|discriminate].
    destruct (JS.isEmpty (filter _ (trips d))); [discriminate|].
    destruct (Service.uniq [] _) as [|shapeId rest] eqn:Eu; [discriminate|].
    destruct (JS.isEmpty (JS.sort _ _)) eqn:Ee; [discriminate|].
    intros [= <-]. cbn [Service.coordinates Service.filteredSegment
                        Service.color Service.routeName].
    split.
    { apply isEmpty_false in Ee. intros Hnil. apply Ee.
      apply map_eq_nil in Hnil. exact Hnil. }
    split; [reflexivity|].
    assert (Hhd := uniq_hd
      (flat_map
         (fun trip => match Service.truthyString (Trip.shape_id trip) with
                      | Some id => [id]
                      | None => []
                      end)
         (filter (fun trip => String.eqb (Trip.route_id trip) (Route.route_id route))
                 (trips d)))).
    rewrite Eu in Hhd. cbn [hd_error] in Hhd. symmetry in Hhd.
    rewrite (hd_flat_map_option (fun t => Service.truthyString (Trip.shape_id t)))
      in Hhd.
    rewrite find_filter in Hhd.
    destruct (JS.find _ (trips d)) as [trip|] eqn:Ef; [|discriminate].
    simpl in Hhd.
    exists route, trip, shapeId. split; [reflexivity|]. split; [exact Ef|].
    split.
    { unfold Service.truthyString in Hhd.
      destruct (Trip.shape_id trip) as [s|]; [|discriminate].
      destruct (JS.truthy s); [congruence | discriminate]. }
    split; [now rewrite length_map, sort_length|].
    split; [|reflexivity].
    unfold Helpers.getRouteColor, JS.orElse, Service.truthyString.
    destruct (Route.route_color route) as [c|]; [|reflexivity].
    destruct (JS.truthy c); reflexivity.
Qed.

(** ** Sorting by a key that may be missing *)

Section SortOn.

Context {A : Type} (cmp : A -> A -> JS.number) (P : A -> Prop).

Let R (a b : A) : Prop := JS.before cmp a b = true.

Hypothesis total_on :
  forall a b, P a -> P b -> JS.before cmp a b = false -> R b a.
Hypothesis trans_on :
  forall a b c, P a -> P b -> P c -> R a b -> R b c -> R a c.

Lemma insert_sorted_on (a : A) (l : list A) :
  P a -> Forall P l -> StronglySorted R l ->
  StronglySorted R (JS.insert cmp a l).
Proof.
  intros Pa Pl Hs. induction Hs as [|b l Hs IH Hb]; simpl.
  - repeat constructor.
  - inversion Pl as [|? ? Pb Pl']; subst.
    destruct (JS.before cmp a b) eqn:Hab.
    + constructor; [now constructor|].
      constructor; [exact Hab|].
      apply Forall_forall. intros x Hx.
      apply (trans_on a b x Pa Pb).
      * exact (proj1 (Forall_forall _ _) Pl' x Hx).
      * exact Hab.
      * exact (proj1 (Forall_forall _ _) Hb x Hx).
    + constructor; [now apply IH|].
      apply (Permutation_Forall (Permutation_sym (insert_perm cmp a l))).
      constructor; [now apply total_on | exact Hb].
Qed.

Lemma sort_sorted_on (l : list A) :
  Forall P l -> StronglySorted R (JS.sort cmp l).
Proof.
  induction 1 as [|a l Pa Pl IH]; simpl; [constructor|].
  apply insert_sorted_on; auto.
  apply (Permutation_Forall (Permutation_sym (sort_perm cmp l))). exact Pl.
Qed.

End SortOn.

Lemma StronglySorted_impl_on {A : Type} (P : A -> Prop)
  (R R' : A -> A -> Prop) :
  (forall a b, P a -> P b -> R a b -> R' a b) ->
  forall l, Forall P l -> StronglySorted R l -> StronglySorted R' l.
Proof.
  intros HR l Pl Hs. induction Hs as [|a l Hs IH Ha]; [constructor|].
  inversion Pl as [|? ? Pa Pl']; subst.
  constructor; [now apply IH|].
  apply Forall_forall. intros x Hx.
  apply HR; auto.
  - exact (proj1 (Forall_forall _ _) Pl' x Hx).
  - exact (proj1 (Forall_forall _ _) Ha x Hx).
Qed.

(** On stop-times whose sequence is a number, the comparator of the sort
    is the order of the numbers. *)
Lemma before_bySequence (a b : StopTime.t) (x y : Z) :
  JS.parseInt (StopTime.stop_sequence a) = JS.ofZ x ->
  JS.parseInt (StopTime.stop_sequence b) = JS.ofZ y ->
  JS.before Service.bySequence a b = (x <=? y).
Proof.
  intros Ha Hb. unfold JS.before, Service.bySequence. rewrite Ha, Hb.
  unfold JS.gtb, JS.sub, JS.neg, JS.add, JS.ofZ, JS.ltb.
  rewrite negb_involutive. unfold Qle_bool.
  cbn [Qnum Qden Qplus Qopp inject_Z Pos.mul].
  destruct (Z.leb_spec ((x * 1 + - y * 1) * 1) (0 * 1));
    destruct (Z.leb_spec x y); try reflexivity; lia.
Qed.

(** ** Trip detail *)

Lemma getTripSchedule_length (h : Clock.Host) (now : Z) (d : GTFSData)
  (rt : GTFSRealtimeData) (tripId : string) :
  List.length (Service.getTripSchedule h now d rt tripId)
  = List.length
      (filter (fun st => String.eqb (StopTime.trip_id st) tripId) (stopTimes d)).
Proof.
  unfold Service.getTripSchedule, Service.tripStopTimes.
  now rewrite length_map, sort_length.
Qed.

(** X10. The schedule of a trip has one entry for each stop-time of the
    trip, with its stop id and scheduled times, whatever the order of the
    rows of the snapshot; [has_passed] is the comparison of the scheduled
    departure string with the current Eastern time string; and when the
    sequences of the trip's stop-times read as numbers, the entries are in
    ascending order of sequence. *)
Theorem getTripSchedule_entries_sorted :
  forall (h : Clock.Host) (now : Z) (d : GTFSData) (rt : GTFSRealtimeData)
         (tripId : string),
    let ofTrip :=
      filter (fun st => String.eqb (StopTime.trip_id st) tripId) (stopTimes d) in
    let schedule := Service.getTripSchedule h now d rt tripId in
    Permutation
      (List.map (fun e => (Service.ss_stop_id e, Service.ss_scheduled_arrival e,
                           Service.ss_scheduled_departure e)) schedule)
      (List.map (fun st => (StopTime.stop_id st, StopTime.arrival_time st,
                            StopTime.departure_time st)) ofTrip)
    /\ Forall
         (fun e => Service.has_passed e
                   = JS.str_ltb (Service.ss_scheduled_departure e)
                                (Clock.toEasternTimeString h now))
         schedule
    /\ (Forall Notions.numbered ofTrip ->
        StronglySorted
          (fun e1 e2 =>
             exists x y,
               Service.ss_stop_sequence e1 = JS.ofZ x
               /\ Service.ss_stop_sequence e2 = JS.ofZ y
               /\ x <= y)
          schedule).
Proof.
  intros h now d rt tripId ofTrip schedule.
  unfold schedule, Service.getTripSchedule, Service.tripStopTimes.
  fold ofTrip. split; [|split].
  - rewrite map_map. cbn [Service.ss_stop_id Service.ss_scheduled_arrival
                          Service.ss_scheduled_departure].
    apply Permutation_map, sort_perm.
  - apply Forall_forall. intros e He. apply in_map_iff in He.
    destruct He as [st [<- _]]. reflexivity.
  - intros Hnum. apply StronglySorted_map.
    cbn [Service.ss_stop_sequence].
    assert (Hsorted : Forall Notions.numbered (JS.sort Service.bySequence ofTrip)).
    { apply (Permutation_Forall (Permutation_sym (sort_perm _ _))).
      exact Hnum. }
    apply StronglySorted_impl_on
      with (P := Notions.numbered)
           (R := fun a b => JS.before Service.bySequence a b = true);
      [| exact Hsorted |].
    + intros a b [x Hx] [y Hy] Hab.
      rewrite (before_bySequence a b x y Hx Hy) in Hab.
      exists x, y. repeat split; auto. now apply Z.leb_le.
    + apply sort_sorted_on with (P := Notions.numbered); [| | exact Hnum].
      * intros a b [x Hx] [y Hy] Hab. unfold Notions.numbered in *.
        rewrite (before_bySequence a b x y Hx Hy) in Hab.
        rewrite (before_bySequence b a y x Hy Hx).
        apply Z.leb_le. apply Z.leb_gt in Hab. lia.
      * intros a b c [x Hx] [y Hy] [z Hz].
        rewrite (before_bySequence a b x y Hx Hy),
                (before_bySequence b c y z Hy Hz),
                (before_bySequence a c x z Hx Hz).
        rewrite !Z.leb_le. lia.
Qed.

Lemma existsb_matches (tripId : string) (us : list Proto.TripUpdate) :
  JS.find (Service.matchesTrip tripId) us <> None <->
  exists u, In u us /\ Spec.matches tripId u.
Proof.
  split.
  - destruct (JS.find _ us) as [u|] eqn:E; [|congruence]. intros _.
    apply find_first in E. destruct E as [l1 [l2 [-> [Hu _]]]].
    exists u. split; [apply in_or_app; right; now left|].
    now apply matchesTrip_spec.
  - intros [u [Hin Hu]]. apply matchesTrip_spec in Hu.
    destruct (find_some_if _ _ _ Hin Hu) as [v ->]. discriminate.
Qed.

(** X11. [getTripInfo] answers nothing exactly for a trip id that no trip
    of the snapshot has.  Otherwise the info is that of the trip id asked
    for; [has_realtime_data] holds exactly when some update of the feed has
    a non-empty suffix of the trip id as its identifier; a progress
    percentage is present only together with realtime data; the schedule
    has one entry per stop-time of the trip; and [is_active] holds exactly
    when a calendar row of the trip's service is active today. *)
Theorem getTripInfo_found_and_flags :
  forall (h : Clock.Host) (now : Z) (d : GTFSData) (rt : GTFSRealtimeData)
         (tripId : string),
    (Service.getTripInfo h now d rt tripId = None <->
     forall t, In t (trips d) -> Trip.trip_id t <> tripId)
    /\ (forall info,
           Service.getTripInfo h now d rt tripId = Some info ->
           Service.ti_trip_id info = tripId
           /\ (Service.has_realtime_data info = true <->
               exists u, In u (trip_updates rt) /\ Spec.matches tripId u)
           /\ (Service.progress_percentage info <> None ->
               Service.has_realtime_data info = true)
           /\ List.length (Service.stop_schedule info)
              = List.length
                  (filter (fun st => String.eqb (StopTime.trip_id st) tripId)
                          (stopTimes d))
           /\ (Service.is_active info = true <->
               exists c,
                 In c (calendar d)
                 /\ Calendar.service_id c = Service.ti_service_id info
                 /\ Timezone.isServiceActiveTodayEastern h now c = true)).
Proof.
  intros h now d rt tripId. unfold Service.getTripInfo, Service.findTrip.
  split.
  - destruct (JS.find _ (trips d)) as [trip|] eqn:E.
    + split; [discriminate|]. intros H.
      apply find_first in E. destruct E as [l1 [l2 [Hl [Ht _]]]].
      apply String.eqb_eq in Ht. exfalso.
      apply (H trip); [|exact Ht]. rewrite Hl. apply in_or_app. right. now left.
    + split; [|reflexivity]. intros _ t Hin Heq.
      pose proof (proj1 (find_nothing _ _) E t Hin) as Hf. cbv beta in Hf.
      apply String.eqb_neq in Hf. contradiction.
  - intros info.
    destruct (JS.find _ (trips d)) as [trip|] eqn:E; [|discriminate].
    apply find_first in E. destruct E as [l1 [l2 [Hl [Ht _]]]].
    apply String.eqb_eq in Ht.
    intros [= <-].
    cbn [Service.ti_trip_id Service.has_realtime_data
         Service.progress_percentage Service.stop_schedule
         Service.is_active Service.ti_service_id].
    split; [exact Ht|]. split; [|split; [|split]].
    + rewrite <- existsb_matches. unfold Service.findRealtimeUpdate.
      destruct (JS.find _ (trip_updates rt)); split; congruence.
    + unfold Service.calculateTripProgress.
      destruct (JS.isEmpty _); [intros H; now elim H|].
      destruct (Service.findRealtimeUpdate tripId rt); [reflexivity|].
      intros H. now elim H.
    + apply getTripSchedule_length.
    + rewrite existsb_exists. split.
      * intros [c [Hc Hs]]. apply filter_In in Hc. destruct Hc as [Hc Ha].
        apply String.eqb_eq in Hs. eauto.
      * intros [c [Hc [Hs Ha]]]. exists c. split.
        -- apply filter_In. auto.
        -- now apply String.eqb_eq.
Qed.

Lemma getTripSchedule_entries_sorted_witness :
  StronglySorted
    (fun e1 e2 =>
       exists x y,
         Service.ss_stop_sequence e1 = JS.ofZ x
         /\ Service.ss_stop_sequence e2 = JS.ofZ y
         /\ x <= y)
    (Service.getTripSchedule Sample.utcHost 45000000
       Sample.departuresAtA Sample.lateAtA "T1").
Proof.
  apply (getTripSchedule_entries_sorted Sample.utcHost 45000000
           Sample.departuresAtA Sample.lateAtA "T1").
  repeat constructor; eexists; reflexivity.
Defined.

Lemma getTripInfo_found_and_flags_witness :
  exists info,
    Service.getTripInfo Sample.utcHost 45000000
      Sample.departuresAtA Sample.lateAtA "T1" = Some info
    /\ Service.ti_trip_id info = "T1"%string
    /\ Service.has_realtime_data info = true.
Proof.
  eexists. split; [reflexivity|].
  destruct (proj2 (getTripInfo_found_and_flags Sample.utcHost 45000000
                     Sample.departuresAtA Sample.lateAtA "T1") _ eq_refl)
    as [Hid [Hrt _]].
  split; [exact Hid|]. apply Hrt.
  exists (Sample.update "T1"
            [Sample.stopUpdate "A" (Some (Sample.event (Some 60) (Some 46800)))
                                   (Some (Sample.event (Some 90) (Some 46920)))]).
  split; [now left|]. exists "T1"%string.
  repeat split; [discriminate | now exists EmptyString].
Defined.

(** ** Progress at the ends *)

Lemma tripStopTimes_nil (d : GTFSData) (tripId : string) :
  JS.isEmpty (Service.tripStopTimes d tripId) = true <->
  forall st, In st (stopTimes d) -> StopTime.trip_id st <> tripId.
Proof.
  unfold Service.tripStopTimes.
  assert (Hlen := sort_length Service.bySequence
    (filter (fun st => String.eqb (StopTime.trip_id st) tripId) (stopTimes d))).
  split.
  - intros He st Hin Heq.
    destruct (JS.sort _ _) as [|a l]; [|discriminate].
    assert (Hf : In st (filter (fun st => String.eqb (StopTime.trip_id st) tripId)
                               (stopTimes d))).
    { apply filter_In. split; [exact Hin | now apply String.eqb_eq]. }
    destruct (filter _ (stopTimes d)); [contradiction | discriminate].
  - intros H.
    destruct (filter _ (stopTimes d)) as [|st l] eqn:Ef.
    + reflexivity.
    + exfalso.
      assert (Hin : In st (filter (fun st => String.eqb (StopTime.trip_id st) tripId)
                                  (stopTimes d))) by (rewrite Ef; now left).
      apply filter_In in Hin. destruct Hin as [Hin Heq].
      apply String.eqb_eq in Heq. exact (H st Hin Heq).
Qed.

Lemma round_zero (q : Q) :
  (q == 0)%Q -> JS.round (JS.min (JS.Num q) (JS.ofZ 100)) = JS.ofZ 0.
Proof.
  intros Hq.
  destruct (round_min_range q) as [z [Hz [_ Hval]]].
  { rewrite Hq. apply Qle_refl. }
  rewrite Hz. f_equal. rewrite Hval.
  assert (Hf : Qfloor (q + (1 # 2)) = 0).
  { rewrite Hq. reflexivity. }
  rewrite Hf. reflexivity.
Qed.

(** X12. [calculateTripProgress] gives no result exactly when the trip has
    no stop-time in the snapshot or no live update with a list of stop
    updates matches it.  When it gives one and no stop of the trip has a
    live time in the past (in particular when the list of stop updates is
    empty), the current stop is the first stop of the trip and, unless the
    first stop carries a distance, the progress is 0. *)
Theorem calculateTripProgress_defined_and_start :
  forall (nowMs : Z) (tripId : string) (d : GTFSData) (rt : GTFSRealtimeData),
    (Service.calculateTripProgress nowMs tripId d rt = None <->
     (forall st, In st (stopTimes d) -> StopTime.trip_id st <> tripId)
     \/ JS.chain (Service.findRealtimeUpdate tripId rt) Proto.stopTimeUpdate
        = None)
    /\ (forall r stus,
           Service.calculateTripProgress nowMs tripId d rt = Some r ->
           JS.chain (Service.findRealtimeUpdate tripId rt) Proto.stopTimeUpdate
           = Some stus ->
           (forall st, In st (Service.tripStopTimes d tripId) ->
                       Spec.departed stus (nowMs / 1000) st = false
                       /\ Spec.arrived stus (nowMs / 1000) st = false) ->
           let sts := Service.tripStopTimes d tripId in
           Service.currentIndex sts stus nowMs = 0%nat
           /\ Service.currentStop r
              = option_map Stop.stop_name
                  (Service.findStop d
                     (option_map StopTime.stop_id (nth_error sts 0)))
           /\ (Service.distance (nth_error sts 0) = None ->
               Service.progress r = JS.ofZ 0)).
Proof.
  intros nowMs tripId d rt. split.
  - unfold Service.calculateTripProgress.
    destruct (JS.isEmpty (Service.tripStopTimes d tripId)) eqn:Ee.
    + split; [|reflexivity]. intros _. left. now apply tripStopTimes_nil.
    + destruct (JS.chain _ Proto.stopTimeUpdate) as [stus|].
      * split; [discriminate|]. intros [H|H]; [|discriminate].
        apply tripStopTimes_nil in H. congruence.
      * split; auto.
  - intros r stus Hr Hstus Hnone sts.
    assert (Hidx : Service.currentIndex sts stus nowMs = 0%nat).
    { unfold Service.currentIndex. apply scan_none_departed.
      - intros s Hs. unfold Spec.halts.
        destruct (Hnone s Hs) as [-> ->]. reflexivity.
      - intros s Hs. apply (Hnone s Hs). }
    unfold Service.calculateTripProgress in Hr. fold sts in Hr.
    destruct (JS.isEmpty sts); [discriminate|].
    rewrite Hstus in Hr. injection Hr as <-.
    cbn [Service.currentStop Service.progress]. rewrite Hidx.
    split; [reflexivity|]. split; [reflexivity|].
    intros Hd.
    rewrite (rawProgress_by_index sts 0) by (right; left; exact Hd).
    apply round_zero. unfold Qdiv.
    change (inject_Z (Z.of_nat 0)) with 0%Q.
    now rewrite !Qmult_0_l.
Qed.

Lemma calculateTripProgress_defined_and_start_witness :
  Service.calculateTripProgress 100000 "T1"
    (Sample.threeStops None None None) (Sample.feed [Sample.update "T1" []])
  = Some {| Service.progress := JS.ofZ 0;
            Service.currentStop := Some "Alpha"%string;
            Service.nextStop := Some "Beta"%string |}
  /\ Service.currentIndex
       (Service.tripStopTimes (Sample.threeStops None None None) "T1")
       [] 100000 = 0%nat.
Proof.
  split; [reflexivity|].
  apply (proj2 (calculateTripProgress_defined_and_start 100000 "T1"
                  (Sample.threeStops None None None)
                  (Sample.feed [Sample.update "T1" []]))
           {| Service.progress := JS.ofZ 0;
              Service.currentStop := Some "Alpha"%string;
              Service.nextStop := Some "Beta"%string |} []);
    [reflexivity | reflexivity |].
  intros st _. split; reflexivity.
Defined.

(** ** Sets of strings *)

Lemma has_In (set : list string) (x : string) :
  Text.has set x = true <-> In x set.
Proof.
  unfold Text.has. rewrite existsb_exists. split.
  - intros [y [Hy He]]. apply String.eqb_eq in He. now subst.
  - intros H. exists x. split; [exact H | apply String.eqb_refl].
Qed.

Lemma has_false (set : list string) (x : string) :
  Text.has set x = false <-> ~ In x set.
Proof.
  rewrite <- has_In. destruct (Text.has set x); split; congruence.
Qed.

Lemma uniq_In (l : list string) : forall seen x,
  In x (Service.uniq seen l) <-> In x l /\ ~ In x seen.
Proof.
  induction l as [|a l IH]; intros seen x; simpl; [tauto|].
  destruct (existsb (String.eqb a) seen) eqn:E.
  - fold (Text.has seen a) in E. apply has_In in E.
    rewrite IH. split.
    + intros [H1 H2]. auto.
    + intros [[->|H1] H2]; [contradiction | auto].
  - fold (Text.has seen a) in E. apply has_false in E.
    simpl. rewrite IH. simpl. split.
    + intros [->|[H1 H2]]; [auto|]. split; [auto|]. intros H. apply H2. now right.
    + intros [[->|H1] H2]; [now left|].
      destruct (string_dec a x) as [->|Hne]; [now left|].
      right. split; [exact H1|]. intros [H|H]; auto.
Qed.

Lemma uniq_NoDup (l : list string) : forall seen,
  NoDup (Service.uniq seen l).
Proof.
  induction l as [|a l IH]; intros seen; simpl; [constructor|].
  destruct (existsb (String.eqb a) seen); [apply IH|].
  constructor; [|apply IH].
  intros H. apply uniq_In in H. destruct H as [_ H]. apply H. now left.
Qed.



(** ** System information *)


(** ** The route listing *)

Section MapFacts.

Context {V : Type}.

Lemma mapGet_set_same (m : list (string * V)) (k : string) (v : V) :
  Facade.mapGet (Facade.mapSet m k v) k = Some v.
Proof.
  induction m as [|[k' v'] m IH]; simpl.
  - now rewrite String.eqb_refl.
  - destruct (String.eqb k' k) eqn:E; simpl; rewrite E; [reflexivity | exact IH].
Qed.

Lemma mapGet_set_other (m : list (string * V)) (k k' : string) (v : V) :
  k <> k' ->
  Facade.mapGet (Facade.mapSet m k v) k' = Facade.mapGet m k'.
Proof.
  intros Hne. induction m as [|[k0 v0] m IH]; simpl.
  - apply String.eqb_neq in Hne. now rewrite Hne.
  - destruct (String.eqb k0 k) eqn:E; simpl.
    + apply String.eqb_eq in E. subst k0.
      apply String.eqb_neq in Hne. now rewrite Hne.
    + destruct (String.eqb k0 k'); [reflexivity | exact IH].
Qed.

Lemma mapSet_keys (m : list (string * V)) (k : string) (v : V) :
  List.map fst (Facade.mapSet m k v)
  = if Facade.mapHas m k then List.map fst m
    else (List.map fst m ++ [k])%list.
Proof.
  unfold Facade.mapHas.
  induction m as [|[k0 v0] m IH]; simpl; [reflexivity|].
  destruct (String.eqb k0 k) eqn:E; simpl; [reflexivity|].
  rewrite IH. destruct (Facade.mapGet m k); reflexivity.
Qed.

Lemma mapGet_In (m : list (string * V)) (k : string) :
  Facade.mapGet m k <> None <-> In k (List.map fst m).
Proof.
  induction m as [|[k0 v0] m IH]; simpl; [tauto|].
  destruct (String.eqb_spec k0 k) as [->|Hne].
  - split; [now left | discriminate].
  - rewrite IH. split; [now right | intros [H|H]; [contradiction | exact H]].
Qed.

Lemma mapSet_NoDup (m : list (string * V)) (k : string) (v : V) :
  NoDup (List.map fst m) -> NoDup (List.map fst (Facade.mapSet m k v)).
Proof.
  intros H. rewrite mapSet_keys. unfold Facade.mapHas.
  destruct (Facade.mapGet m k) eqn:E; [exact H|].
  apply NoDup_app; [exact H | repeat constructor; simpl; tauto |].
  intros x Hx [<-|[]]. apply mapGet_In in Hx. congruence.
Qed.

End MapFacts.

(** The grouping of the trips by route is the filtering by route id. *)
Lemma groupTrips_step (trips : list Trip.t) :
  forall (m : list (string * list Trip.t)) (k : string),
    let step := fun tripsByRoute trip =>
      let tripsByRoute :=
        if Facade.mapHas tripsByRoute (Trip.route_id trip) then tripsByRoute
        else Facade.mapSet tripsByRoute (Trip.route_id trip) [] in
      match Facade.mapGet tripsByRoute (Trip.route_id trip) with
      | Some l => Facade.mapSet tripsByRoute (Trip.route_id trip) (l ++ [trip])%list
      | None => tripsByRoute
      end in
    Facade.mapGet (fold_left step trips m) k
    = match Facade.mapGet m k, Helpers.getTripsForRoute k trips with
      | Some l0, l => Some (l0 ++ l)%list
      | None, [] => None
      | None, l => Some l
      end
    /\ (NoDup (List.map fst m) ->
        NoDup (List.map fst (fold_left step trips m))).
Proof.
  induction trips as [|trip trips IH]; intros m k step.
  - simpl. split; [|auto].
    destruct (Facade.mapGet m k); [now rewrite app_nil_r | reflexivity].
  - cbn [fold_left]. unfold Helpers.getTripsForRoute. cbn [filter].
    fold (Helpers.getTripsForRoute k trips).
    set (m2 := step m trip).
    destruct (IH m2 k) as [IHget IHnd]. fold step in IHget, IHnd.
    assert (Hm2 :
      Facade.mapGet m2 k
      = if String.eqb (Trip.route_id trip) k
        then Some (match Facade.mapGet m k with Some l => l | None => [] end
                   ++ [trip])%list
        else Facade.mapGet m k).
    { unfold m2, step, Facade.mapHas.
      destruct (String.eqb_spec (Trip.route_id trip) k) as [->|Hne].
      - destruct (Facade.mapGet m k) as [l|] eqn:E.
        + rewrite E. apply mapGet_set_same.
        + rewrite mapGet_set_same. apply mapGet_set_same.
      - destruct (Facade.mapGet m (Trip.route_id trip)) as [l|] eqn:E.
        + rewrite E. now apply mapGet_set_other.
        + rewrite mapGet_set_same.
          rewrite mapGet_set_other by exact Hne.
          now apply mapGet_set_other. }
    assert (Hnd2 : NoDup (List.map fst m) -> NoDup (List.map fst m2)).
    { intros H. unfold m2, step, Facade.mapHas.
      destruct (Facade.mapGet m (Trip.route_id trip)) as [l|] eqn:E.
      - rewrite E. now apply mapSet_NoDup.
      - rewrite mapGet_set_same. now apply mapSet_NoDup, mapSet_NoDup. }
    split; [|auto].
    rewrite IHget, Hm2.
    destruct (String.eqb (Trip.route_id trip) k).
    + destruct (Facade.mapGet m k) as [l|]; simpl.
      * now rewrite <- app_assoc.
      * reflexivity.
    + reflexivity.
Qed.

Lemma groupTrips_get (trips : list Trip.t) (k : string) :
  Facade.orEmpty (Facade.mapGet (Facade.groupTrips trips) k)
  = Helpers.getTripsForRoute k trips.
Proof.
  pose proof (groupTrips_step trips [] k) as H. cbv zeta in H.
  destruct H as [H _]. unfold Facade.groupTrips. cbv zeta.
  rewrite H. simpl.
  destruct (Helpers.getTripsForRoute k trips); reflexivity.
Qed.

Lemma groupTrips_NoDup (trips : list Trip.t) :
  NoDup (List.map fst (Facade.groupTrips trips)).
Proof.
  pose proof (groupTrips_step trips [] EmptyString) as H. cbv zeta in H.
  destruct H as [_ H]. unfold Facade.groupTrips. cbv zeta.
  apply H. constructor.
Qed.

Lemma groupTrips_get_none (trips : list Trip.t) (k : string) :
  Facade.mapGet (Facade.groupTrips trips) k = None ->
  Helpers.getTripsForRoute k trips = [].
Proof.
  intros H. rewrite <- groupTrips_get, H. reflexivity.
Qed.

(** With distinct keys, the second map holds the stop ids of the entry of
    each key. *)
Lemma collectStopIds_get (stopTimes : list StopTime.t)
  (entries : list (string * list Trip.t)) :
  forall (acc : list (string * list string)) (k : string),
    NoDup (List.map fst entries) ->
    Facade.mapGet
      (fold_left
         (fun stopIdsByRoute entry =>
            Facade.mapSet stopIdsByRoute (fst entry)
                          (Facade.stopIdsOf (snd entry) stopTimes))
         entries acc) k
    = match Facade.mapGet entries k with
      | Some trips => Some (Facade.stopIdsOf trips stopTimes)
      | None => Facade.mapGet acc k
      end.
Proof.
  induction entries as [|[k0 v0] entries IH]; intros acc k Hnd;
    [reflexivity|].
  cbn [fold_left fst snd]. inversion Hnd as [|? ? Hnot Hnd']; subst.
  rewrite IH by exact Hnd'. cbn [Facade.mapGet].
  destruct (String.eqb_spec k0 k) as [->|Hne].
  - destruct (Facade.mapGet entries k) eqn:E.
    + exfalso. apply Hnot. apply mapGet_In. congruence.
    + apply mapGet_set_same.
  - destruct (Facade.mapGet entries k); [reflexivity|].
    now apply mapGet_set_other.
Qed.

Lemma stopIdsOf_nil (stopTimes : list StopTime.t) :
  Facade.stopIdsOf [] stopTimes = [].
Proof.
  unfold Facade.stopIdsOf. simpl.
  induction stopTimes as [|st l IH]; simpl; [reflexivity | exact IH].
Qed.

Lemma stop_ids_get (d : GTFSData) (k : string) :
  Facade.orEmpty
    (Facade.mapGet
       (Facade.collectStopIds (Facade.groupTrips (trips d)) (stopTimes d)) k)
  = Facade.stopIdsOf (Helpers.getTripsForRoute k (trips d)) (stopTimes d).
Proof.
  unfold Facade.collectStopIds.
  rewrite collectStopIds_get by apply groupTrips_NoDup.
  rewrite <- groupTrips_get.
  destruct (Facade.mapGet (Facade.groupTrips (trips d)) k); simpl;
    [reflexivity | now rewrite stopIdsOf_nil].
Qed.

(** The stop ids gathered for some trips: each once, and exactly those of
    the stop-times of these trips. *)
Lemma add_In (set : list string) (x y : string) :
  In y (Text.add set x) <-> In y set \/ y = x.
Proof.
  unfold Text.add. destruct (Text.has set x) eqn:E.
  - apply has_In in E. split; [auto | intros [H| ->]; auto].
  - rewrite in_app_iff. simpl. split.
    + intros [H|[H|[]]]; auto.
    + intros [H| ->]; auto.
Qed.

Lemma add_NoDup (set : list string) (x : string) :
  NoDup set -> NoDup (Text.add set x).
Proof.
  intros H. unfold Text.add. destruct (Text.has set x) eqn:E; [exact H|].
  apply has_false in E.
  apply NoDup_app; [exact H | repeat constructor; simpl; tauto |].
  intros y Hy [<-|[]]. contradiction.
Qed.

Lemma gather_In {A : Type} (keep : A -> bool) (key : A -> string)
  (l : list A) : forall (acc : list string) (y : string),
  In y (fold_left (fun set a => if keep a then Text.add set (key a) else set)
                  l acc)
  <-> In y acc \/ exists a, In a l /\ keep a = true /\ key a = y.
Proof.
  induction l as [|a l IH]; intros acc y; cbn [fold_left].
  - split; [auto | intros [H|[a [[] _]]]; exact H].
  - rewrite IH. destruct (keep a) eqn:Ek.
    + rewrite add_In. split.
      * intros [[H| ->]|[b [Hb Hk]]]; eauto.
        -- right. exists a. repeat split; auto. now left.
        -- right. exists b. split; [now right | exact Hk].
      * intros [H|[b [[<-|Hb] [Hk <-]]]]; auto.
        right. exists b. auto.
    + split.
      * intros [H|[b [Hb Hk]]]; auto.
        right. exists b. split; [now right | exact Hk].
      * intros [H|[b [[<-|Hb] [Hk Hy]]]]; auto; [congruence|].
        right. exists b. auto.
Qed.

Lemma gather_NoDup {A : Type} (keep : A -> bool) (key : A -> string)
  (l : list A) : forall acc : list string,
  NoDup acc ->
  NoDup (fold_left (fun set a => if keep a then Text.add set (key a) else set)
                   l acc).
Proof.
  induction l as [|a l IH]; intros acc H; cbn [fold_left]; [exact H|].
  apply IH. destruct (keep a); [now apply add_NoDup | exact H].
Qed.

Lemma stopIdsOf_spec (trips : list Trip.t) (stopTimes : list StopTime.t) :
  NoDup (Facade.stopIdsOf trips stopTimes)
  /\ forall s,
       In s (Facade.stopIdsOf trips stopTimes) <->
       exists st trip,
         In st stopTimes /\ In trip trips
         /\ StopTime.trip_id st = Trip.trip_id trip
         /\ StopTime.stop_id st = s.
Proof.
  unfold Facade.stopIdsOf. split.
  - apply gather_NoDup with (keep := fun st =>
      Text.has (Service.uniq [] (List.map Trip.trip_id trips))
               (StopTime.trip_id st)). constructor.
  - intros s.
    rewrite (gather_In
      (fun st => Text.has (Service.uniq [] (List.map Trip.trip_id trips))
                          (StopTime.trip_id st))
      StopTime.stop_id). split.
    + intros [[]|[st [Hst [Hk Hs]]]].
      apply has_In, uniq_In in Hk. destruct Hk as [Hk _].
      apply in_map_iff in Hk. destruct Hk as [trip [Hid Htrip]].
      exists st, trip. auto.
    + intros [st [trip [Hst [Htrip [Hid Hs]]]]]. right.
      exists st. repeat split; auto.
      apply has_In, uniq_In. split; [|tauto].
      rewrite Hid. now apply in_map.
Qed.




(** What the listing holds for one route of the snapshot. *)
Lemma getActiveRoutesToday_In (h : Clock.Host) (now : Z) (d : GTFSData)
  (info : Facade.RouteInfo) :
  In info (Facade.getActiveRoutesToday h now d) <->
  exists route,
    In route (routes d)
    /\ info
       = {| Facade.route_id := Route.route_id route;
            Facade.route_short_name := Route.route_short_name route;
            Facade.route_long_name := Route.route_long_name route;
            Facade.route_type := Route.route_type route;
            Facade.route_color := JS.orElse (Route.route_color route) "666666";
            Facade.route_text_color :=
              JS.orElse (Route.route_text_color route) "FFFFFF";
            Facade.stop_count :=
              List.length
                (Facade.stopIdsOf
                   (Helpers.getTripsForRoute (Route.route_id route) (trips d))
                   (stopTimes d));
            Facade.trip_count :=
              List.length
                (Helpers.getTripsForRoute (Route.route_id route) (trips d));
            Facade.is_active :=
              Text.has
                (Service.uniq []
                   (List.map Trip.route_id (Facade.activeTrips h now d)))
                (Route.route_id route) |}.
Proof.
  unfold Facade.getActiveRoutesToday. split.
  - intros H. apply (Permutation_in _ (sort_perm _ _)) in H.
    apply in_map_iff in H. destruct H as [route [<- Hr]].
    exists route. split; [exact Hr|].
    now rewrite groupTrips_get, stop_ids_get.
  - intros [route [Hr ->]].
    apply (Permutation_in _ (Permutation_sym (sort_perm _ _))).
    apply in_map_iff. exists route. split; [|exact Hr].
    now rewrite groupTrips_get, stop_ids_get.
Qed.



(** X15. In the route listing, [stop_count] is the number of distinct stop
    ids among the stop-times of the trips of the route. *)
Theorem getActiveRoutesToday_stop_count :
  forall (h : Clock.Host) (now : Z) (d : GTFSData) (info : Facade.RouteInfo),
    In info (Facade.getActiveRoutesToday h now d) ->
    exists stopIds,
      NoDup stopIds
      /\ Facade.stop_count info = List.length stopIds
      /\ forall s,
           In s stopIds <->
           exists st trip,
             In st (stopTimes d) /\ In trip (trips d)
             /\ Trip.route_id trip = Facade.route_id info
             /\ StopTime.trip_id st = Trip.trip_id trip
             /\ StopTime.stop_id st = s.
Proof.
  intros h now d info Hin. apply getActiveRoutesToday_In in Hin.
  destruct Hin as [route [Hr ->]].
  cbn [Facade.stop_count Facade.route_id].
  destruct (stopIdsOf_spec
              (Helpers.getTripsForRoute (Route.route_id route) (trips d))
              (stopTimes d)) as [Hnd Hspec].
  eexists. split; [exact Hnd|]. split; [reflexivity|].
  intros s. rewrite Hspec. split.
  - intros [st [trip [Hst [Ht [Hid Hs]]]]].
    apply filter_In in Ht. destruct Ht as [Ht Hroute].
    apply String.eqb_eq in Hroute. exists st, trip. auto.
  - intros [st [trip [Hst [Ht [Hroute [Hid Hs]]]]]].
    exists st, trip. repeat split; auto.
    apply filter_In. split; [exact Ht | now apply String.eqb_eq].
Qed.

Lemma getActiveRoutesToday_stop_count_witness :
  exists stopIds,
    NoDup stopIds /\ 2%nat = List.length stopIds
    /\ forall s,
         In s stopIds <->
         exists st trip,
           In st (stopTimes Sample.departuresAtA)
           /\ In trip (trips Sample.departuresAtA)
           /\ Trip.route_id trip = "GS"%string
           /\ StopTime.trip_id st = Trip.trip_id trip
           /\ StopTime.stop_id st = s.
Proof.
  apply (getActiveRoutesToday_stop_count Sample.utcHost Sample.mondayEvening
           Sample.departuresAtA
           {| Facade.route_id := "GS";
              Facade.route_short_name := "S";
              Facade.route_long_name := "42 St Shuttle";
              Facade.route_type := "1";
              Facade.route_color := "666666";
              Facade.route_text_color := "FFFFFF";
              Facade.stop_count := 2;
              Facade.trip_count := 1;
              Facade.is_active := false |}).
  left. reflexivity.
Defined.

(** X16. [getRouteInfo] returns the listing entry of a route with the
    given [route_id], and nothing exactly when no route of the snapshot has
    that id; unlike [getRouteShape] it never resolves a short name. *)
Theorem getRouteInfo_by_id_only :
  forall (h : Clock.Host) (now : Z) (d : GTFSData) (routeId : string),
    (Facade.getRouteInfo h now d routeId = None <->
     forall route, In route (routes d) -> Route.route_id route <> routeId)
    /\ (forall info,
           Facade.getRouteInfo h now d routeId = Some info ->
           Facade.route_id info = routeId
           /\ In info (Facade.getActiveRoutesToday h now d)).
Proof.
  intros h now d routeId. unfold Facade.getRouteInfo. split.
  - rewrite find_nothing. split.
    + intros H route Hr Heq.
      assert (Hin := proj2 (getActiveRoutesToday_In h now d _)
                           (ex_intro _ route (conj Hr eq_refl))).
      specialize (H _ Hin). cbn in H. apply String.eqb_neq in H. contradiction.
    + intros H info Hin. apply getActiveRoutesToday_In in Hin.
      destruct Hin as [route [Hr ->]]. cbn.
      apply String.eqb_neq. now apply H.
  - intros info H. apply find_first in H.
    destruct H as [l1 [l2 [Hl [Hid _]]]]. apply String.eqb_eq in Hid.
    split; [exact Hid|]. rewrite Hl. apply in_or_app. right. now left.
Qed.

(** ** Searching stops and listing live trips *)

Lemma prefix_spec (s1 s2 : string) :
  String.prefix s1 s2 = true <-> exists b, s2 = (s1 ++ b)%string.
Proof.
  revert s1. induction s2 as [|c s2 IH]; intros s1; simpl.
  - destruct s1 as [|a s1]; simpl.
    + split; [intros _; now exists EmptyString | reflexivity].
    + split; [discriminate | intros [b H]; discriminate].
  - destruct s1 as [|a s1]; simpl.
    + split; [intros _; now exists (String c s2) | reflexivity].
    + destruct (Ascii.ascii_dec a c) as [->|Hne].
      * rewrite IH. split; intros [b H]; exists b; congruence.
      * split; [discriminate | intros [b H]; congruence].
Qed.

(** [includes] decides the substring relation. *)
Lemma includes_spec (s sub : string) :
  Text.includes s sub = true <->
  exists a b, s = (a ++ sub ++ b)%string.
Proof.
  induction s as [|c s IH]; cbn [Text.includes].
  - rewrite orb_false_r, prefix_spec. split.
    + intros [b H]. now exists EmptyString, b.
    + intros [[|a0 a] [b H]]; [now exists b | discriminate].
  - rewrite orb_true_iff, prefix_spec, IH. split.
    + intros [[b H]|[a [b H]]].
      * now exists EmptyString, b.
      * exists (String c a), b. simpl. now rewrite H.
    + intros [[|a0 a] [b H]].
      * left. now exists b.
      * right. simpl in H. injection H as _ H. now exists a, b.
Qed.

Lemma slice0_length (n : Z) {A : Type} (l : list A) :
  0 <= n ->
  Z.of_nat (List.length (JS.slice0 n l)) = Z.min n (Z.of_nat (List.length l)).
Proof.
  intros Hn. unfold JS.slice0.
  destruct (Z.ltb_spec n 0); [lia|]. rewrite length_firstn. lia.
Qed.

Lemma slice0_In (n : Z) {A : Type} (l : list A) (x : A) :
  In x (JS.slice0 n l) -> In x l.
Proof.
  unfold JS.slice0. apply in_firstn.
Qed.







Lemma getTripInfo_some (h : Clock.Host) (now : Z) (d : GTFSData)
  (rt : GTFSRealtimeData) (tripId : string) (info : Service.TripInfo) :
  Service.getTripInfo h now d rt tripId = Some info ->
  Service.ti_trip_id info = tripId
  /\ Service.has_realtime_data info
     = match Service.findRealtimeUpdate tripId rt with
       | Some _ => true
       | None => false
       end.
Proof.
  unfold Service.getTripInfo, Service.findTrip.
  destruct (JS.find _ (trips d)) as [trip|] eqn:E; [|discriminate].
  apply find_first in E. destruct E as [l1 [l2 [_ [Ht _]]]].
  apply String.eqb_eq in Ht. intros [= <-]. split; [exact Ht | reflexivity].
Qed.

(** X18. Every trip that [getLiveTrips] returns has realtime data and is
    the trip info of a trip of the snapshot that runs on a service active
    today and whose id has a live update with a non-empty suffix of it as
    identifier; with a route filter, that trip is on a route whose
    lower-cased short name contains the lower-cased filter or whose id is
    the filter.  For a limit that is not negative, at most [limit] trips
    are returned. *)
Theorem getLiveTrips_live_and_limited :
  forall (h : Clock.Host) (now : Z) (d : GTFSData) (rt : GTFSRealtimeData)
         (routeFilter : option string) (limit : Z),
    0 <= limit ->
    let result := Facade.getLiveTrips h now d rt routeFilter limit in
    Z.of_nat (List.length result) <= limit
    /\ forall info,
         In info result ->
         Service.has_realtime_data info = true
         /\ exists trip,
              In trip (Facade.activeTrips h now d)
              /\ Service.ti_trip_id info = Trip.trip_id trip
              /\ (exists u, In u (trip_updates rt)
                            /\ Spec.matches (Trip.trip_id trip) u)
              /\ (forall filter,
                     routeFilter = Some filter -> filter <> ""%string ->
                     exists route,
                       In route (routes d)
                       /\ Route.route_id route = Trip.route_id trip
                       /\ ((exists a b,
                              JS.toLowerCase (Route.route_short_name route)
                              = (a ++ JS.toLowerCase filter ++ b)%string)
                           \/ Route.route_id route = filter)).
Proof.
  intros h now d rt routeFilter limit Hl result.
  unfold result, Facade.getLiveTrips. split.
  - set (kept := JS.slice0 limit _).
    assert (Hk : Z.of_nat (List.length kept) <= limit).
    { unfold kept. rewrite slice0_length by exact Hl. lia. }
    enough (Hle : (List.length
                     (flat_map
                        (fun trip =>
                           match Service.getTripInfo h now d rt (Trip.trip_id trip) with
                           | Some tripInfo =>
                               if Service.has_realtime_data tripInfo
                               then [tripInfo] else []
                           | None => []
                           end) kept)
                   <= List.length kept)%nat) by lia.
    clear Hk. induction kept as [|trip kept IH]; simpl; [lia|].
    rewrite List.length_app.
    destruct (Service.getTripInfo h now d rt (Trip.trip_id trip)) as [ti|];
      [destruct (Service.has_realtime_data ti)|]; simpl; lia.
  - intros info Hin. apply in_flat_map in Hin.
    destruct Hin as [trip [Htrip Hinfo]].
    destruct (Service.getTripInfo h now d rt (Trip.trip_id trip)) as [ti|] eqn:Eti;
      [|contradiction].
    destruct (Service.has_realtime_data ti) eqn:Ert; [|contradiction].
    destruct Hinfo as [<-|[]].
    split; [exact Ert|].
    apply slice0_In, filter_In in Htrip. destruct Htrip as [Htrip Hlive].
    exists trip.
    assert (Hact : In trip (Facade.activeTrips h now d)
                   /\ forall filter,
                        routeFilter = Some filter -> filter <> ""%string ->
                        exists route,
                          In route (routes d)
                          /\ Route.route_id route = Trip.route_id trip
                          /\ ((exists a b,
                                 JS.toLowerCase (Route.route_short_name route)
                                 = (a ++ JS.toLowerCase filter ++ b)%string)
                              \/ Route.route_id route = filter)).
    { unfold Service.truthyString in Htrip.
      destruct routeFilter as [rf|].
      - destruct (JS.truthy rf) eqn:Etr.
        + apply filter_In in Htrip. destruct Htrip as [Ha Hroute].
          split; [exact Ha|]. intros filter [= <-] _.
          apply has_In, in_map_iff in Hroute.
          destruct Hroute as [route [Hid Hr]].
          apply filter_In in Hr. destruct Hr as [Hr Hm].
          exists route. split; [exact Hr|]. split; [exact Hid|].
          apply orb_true_iff in Hm. destruct Hm as [Hm|Hm].
          * left. now apply includes_spec.
          * right. now apply String.eqb_eq.
        + split; [exact Htrip|]. intros filter [= <-] Hne.
          apply truthy_spec in Hne. congruence.
      - split; [exact Htrip|]. intros filter H. discriminate. }
    destruct Hact as [Ha Hf].
    split; [exact Ha|].
    split; [apply (getTripInfo_some _ _ _ _ _ _ Eti)|].
    split; [|exact Hf].
    apply existsb_exists in Hlive. destruct Hlive as [u [Hu Hm]].
    exists u. split; [exact Hu | now apply matchesTrip_spec].
Qed.

Lemma getLiveTrips_live_and_limited_witness :
  List.map Service.ti_trip_id
    (Facade.getLiveTrips Sample.utcHost Sample.mondayEvening Sample2.running
       Sample.lateAtA (Some "s"%string) 10)
  = ["T1"%string]
  /\ Z.of_nat
       (List.length
          (Facade.getLiveTrips Sample.utcHost Sample.mondayEvening
             Sample2.running Sample.lateAtA (Some "s"%string) 10)) <= 10.
Proof.
  split; [reflexivity|].
  apply (getLiveTrips_live_and_limited Sample.utcHost Sample.mondayEvening
           Sample2.running Sample.lateAtA (Some "s"%string) 10).
  lia.
Defined.

(** ** Schedule helpers *)

Lemma gather_all_In {A : Type} (key : A -> string) (l : list A) :
  forall (acc : list string) (y : string),
    In y (fold_left (fun set a => Text.add set (key a)) l acc)
    <-> In y acc \/ exists a, In a l /\ key a = y.
Proof.
  induction l as [|a l IH]; intros acc y; cbn [fold_left].
  - split; [auto | intros [H|[a [[] _]]]; exact H].
  - rewrite IH, add_In. split.
    + intros [[H| ->]|[b [Hb Hk]]]; eauto.
      * right. exists a. split; [now left | reflexivity].
      * right. exists b. split; [now right | exact Hk].
    + intros [H|[b [[<-|Hb] <-]]]; auto.
      right. exists b. auto.
Qed.

(** X19. [getStopsForRoute] returns, in the order of the stops table, the
    stops that some trip of the route calls at: a stop is returned exactly
    when it is in the table and its id is the stop id of a stop-time of a
    trip whose [route_id] is the given one. *)
Theorem getStopsForRoute_spec :
  forall (routeId : string) (trips : list Trip.t)
         (stopTimes : list StopTime.t) (stops : list Stop.t),
    (forall stop,
        In stop (Helpers.getStopsForRoute routeId trips stopTimes stops) <->
        In stop stops
        /\ exists trip st,
             In trip trips /\ Trip.route_id trip = routeId
             /\ In st stopTimes
             /\ StopTime.trip_id st = Trip.trip_id trip
             /\ StopTime.stop_id st = Stop.stop_id stop)
    /\ exists keep,
         Helpers.getStopsForRoute routeId trips stopTimes stops
         = filter keep stops.
Proof.
  intros routeId trips stopTimes stops.
  unfold Helpers.getStopsForRoute. split; [|eauto].
  intros stop. rewrite filter_In, has_In.
  set (routeTrips := filter _ trips).
  assert (Hgen : forall (l : list Trip.t) (acc : list string) (y : string),
    In y (fold_left
            (fun stopIds trip =>
               fold_left (fun stopIds st => Text.add stopIds (StopTime.stop_id st))
                 (filter (fun st => String.eqb (StopTime.trip_id st)
                                               (Trip.trip_id trip)) stopTimes)
                 stopIds) l acc)
    <-> In y acc
        \/ exists trip st, In trip l /\ In st stopTimes
             /\ StopTime.trip_id st = Trip.trip_id trip
             /\ StopTime.stop_id st = y).
  { induction l as [|trip l IH]; intros acc y; cbn [fold_left].
    - split; [auto | intros [H|[trip [st [[] _]]]]; exact H].
    - rewrite IH, gather_all_In. split.
      + intros [[H|[st [Hst Hk]]]|[t [st [Ht H]]]]; auto.
        * apply filter_In in Hst. destruct Hst as [Hst Hid].
          apply String.eqb_eq in Hid. right. exists trip, st.
          repeat split; auto. now left.
        * right. exists t, st. split; [now right | exact H].
      + intros [H|[t [st [[<-|Ht] [Hst [Hid Hk]]]]]]; auto.
        * left. right. exists st. split; [|exact Hk].
          apply filter_In. split; [exact Hst | now apply String.eqb_eq].
        * right. exists t, st. auto. }
  rewrite Hgen. split.
  - intros [Hs [[]|[trip [st [Ht [Hst [Hid Hk]]]]]]].
    apply filter_In in Ht. destruct Ht as [Ht Hr]. apply String.eqb_eq in Hr.
    split; [exact Hs|]. exists trip, st. auto.
  - intros [Hs [trip [st [Ht [Hr [Hst [Hid Hk]]]]]]].
    split; [exact Hs|]. right. exists trip, st. repeat split; auto.
    apply filter_In. split; [exact Ht | now apply String.eqb_eq].
Qed.

(** ** Picked fields *)

Lemma get_set_same (obj : Static.Row) (k v : string) :
  Static.get (Static.set obj k v) k = Some v.
Proof.
  induction obj as [|[k0 v0] obj IH]; simpl.
  - now rewrite String.eqb_refl.
  - destruct (String.eqb k0 k) eqn:E; simpl; rewrite E; [reflexivity | exact IH].
Qed.

Lemma get_set_other (obj : Static.Row) (k k' v : string) :
  k <> k' -> Static.get (Static.set obj k v) k' = Static.get obj k'.
Proof.
  intros Hne. induction obj as [|[k0 v0] obj IH]; simpl.
  - apply String.eqb_neq in Hne. now rewrite Hne.
  - destruct (String.eqb k0 k) eqn:E; simpl.
    + apply String.eqb_eq in E. subst k0.
      apply String.eqb_neq in Hne. now rewrite Hne.
    + destruct (String.eqb k0 k'); [reflexivity | exact IH].
Qed.

Lemma pickFields_step (obj : Static.Row) (fields : list string) :
  forall (acc : Static.Row) (f : string),
    Static.get
      (fold_left
         (fun result field =>
            match Static.get obj field with
            | Some v => Static.set result field v
            | None => result
            end) fields acc) f
    = if Text.has fields f
      then match Static.get obj f with
           | Some v => Some v
           | None => Static.get acc f
           end
      else Static.get acc f.
Proof.
  induction fields as [|g fields IH]; intros acc f; [reflexivity|].
  cbn [fold_left]. rewrite IH. unfold Text.has. cbn [existsb].
  fold (Text.has fields f).
  destruct (String.eqb_spec f g) as [->|Hne]; simpl.
  - destruct (Static.get obj g) as [v|] eqn:Eg.
    + rewrite get_set_same. destruct (Text.has fields g); reflexivity.
    + destruct (Text.has fields g); reflexivity.
  - destruct (Static.get obj g) as [v|].
    + rewrite get_set_other by congruence. reflexivity.
    + reflexivity.
Qed.

(** X20. [pickFields] keeps the listed fields and nothing else: looking a
    field up in the picked object gives the value it has in the parsed row
    when the field is listed, and nothing when it is not listed or not
    defined in the row. *)
Theorem pickFields_lookup :
  forall (obj : Static.Row) (fields : list string) (f : string),
    Static.get (Static.pickFields obj fields) f
    = if Text.has fields f then Static.get obj f else None.
Proof.
  intros obj fields f. unfold Static.pickFields.
  rewrite pickFields_step. simpl.
  destruct (Text.has fields f); [|reflexivity].
  destruct (Static.get obj f); reflexivity.
Qed.

(** ** Twelve-hour times *)

Lemma pad2_parseInt (n : Z) :
  0 <= n < 100 ->
  Text.toInteger (JS.parseInt (Clock.pad 2 n)) = Some n.
Proof.
  intros Hn.
  assert (Hin : In n (List.map Z.of_nat (seq 0 100))).
  { apply in_map_iff. exists (Z.to_nat n). split; [lia|].
    apply in_seq. lia. }
  cbv [seq List.map Z.of_nat Pos.of_succ_nat Pos.succ In] in Hin.
  repeat (destruct Hin as [<- | Hin]; [reflexivity|]).
  contradiction.
Qed.

(** X21. On an HH:MM:SS string, [formatTime] prints the hour, the two
    digits of the minutes and AM or PM, PM from hour 12 on.  For the hours
    0 to 23 the hour printed is the clock hour, from 1 to 12 and equal to
    the hour modulo 12.  For the hours from 24 on, which a schedule uses
    for times after midnight, it is the hour less 12, marked PM: 25:10:00
    prints as 13:10 PM. *)
Theorem formatTime_twelve_hour :
  forall hh mm ss : Z,
    0 <= hh < 100 -> 0 <= mm < 100 -> 0 <= ss < 100 ->
    let shown := if hh =? 0 then 12 else if hh >? 12 then hh - 12 else hh in
    Helpers.formatTime (Spec.hms hh mm ss)
    = (Clock.showZ shown ++ ":" ++ Clock.pad 2 mm ++ " "
         ++ (if hh >=? 12 then "PM" else "AM"))%string
    /\ (hh < 24 -> 1 <= shown <= 12 /\ shown mod 12 = hh mod 12)
    /\ (24 <= hh -> shown = hh - 12).
Proof.
  intros hh mm ss Hh Hm Hs shown.
  destruct (pad2_Number hh Hh) as [Ch _].
  destruct (pad2_Number mm Hm) as [Cm _].
  destruct (pad2_Number ss Hs) as [Cs _].
  split; [|split].
  - unfold Helpers.formatTime, Spec.hms.
    rewrite split_three by assumption.
    cbn [nth nth_error]. rewrite pad2_parseInt by exact Hh.
    unfold Text.showInteger, Helpers.orUndefined. fold shown. reflexivity.
  - intros H24. unfold shown.
    destruct (Z.eqb_spec hh 0) as [->|Hz]; [split; [lia | reflexivity]|].
    destruct (Z.gtb_spec hh 12).
    + split; [lia|].
      rewrite <- (Z.mod_add (hh - 12) 1 12) by lia. f_equal. lia.
    + split; [lia | reflexivity].
  - intros H24. unfold shown.
    destruct (Z.eqb_spec hh 0); [lia|].
    destruct (Z.gtb_spec hh 12); [reflexivity | lia].
Qed.

Lemma formatTime_twelve_hour_witness :
  Helpers.formatTime (Spec.hms 25 10 0) = "13:10 PM"%string.
Proof.
  apply (formatTime_twelve_hour 25 10 0); lia.
Defined.

(** ** The plain calendar check *)

(** X22. On a host whose zone is UTC, [isServiceActiveToday] evaluates a
    calendar row on the UTC date: it agrees with
    [isServiceActiveTodayEastern] whenever the Eastern date and the UTC
    date of the instant are the same day, and it is the activity of the
    row on the UTC day otherwise too. *)
Theorem isServiceActiveToday_utc_date :
  forall (h : Clock.Host) (now : Z) (c : Calendar.t),
    Clock.hostOffset h = 0 ->
    Helpers.isServiceActiveToday h now c
    = Spec.activeOn (now / 1000 / 86400) c
    /\ (Spec.easternDay h now = now / 1000 / 86400 ->
        Helpers.isServiceActiveToday h now c
        = Timezone.isServiceActiveTodayEastern h now c).
Proof.
  intros h now c Hutc.
  assert (Hplain : Helpers.isServiceActiveToday h now c
                   = Spec.activeOn (now / 1000 / 86400) c).
  { unfold Helpers.isServiceActiveToday, Spec.activeOn, Clock.getDay,
      Clock.isoDate.
    rewrite Hutc, Z.add_0_r.
    destruct (JS.str_ltb _ _), (JS.str_gtb _ _); reflexivity. }
  split; [exact Hplain|].
  intros Hday. rewrite Hplain, active_utc by exact Hutc. now rewrite Hday.
Qed.

Lemma isServiceActiveToday_utc_date_witness :
  Helpers.isServiceActiveToday Sample.utcHost
    (Sample.mondayEvening - 3600000 * 6) Sample.mondays
  = Spec.activeOn ((Sample.mondayEvening - 3600000 * 6) / 1000 / 86400)
                  Sample.mondays
  /\ (Spec.easternDay Sample.utcHost (Sample.mondayEvening - 3600000 * 6)
      = (Sample.mondayEvening - 3600000 * 6) / 1000 / 86400 ->
      Helpers.isServiceActiveToday Sample.utcHost
        (Sample.mondayEvening - 3600000 * 6) Sample.mondays
      = Timezone.isServiceActiveTodayEastern Sample.utcHost
          (Sample.mondayEvening - 3600000 * 6) Sample.mondays).
Proof.
  apply (isServiceActiveToday_utc_date Sample.utcHost
           (Sample.mondayEvening - 3600000 * 6) Sample.mondays).
  reflexivity.
Defined.

(** ** Rendering of live times *)

Lemma newDate_ofZ (x : Z) :
  Z.abs x <= 8640000000000000 -> Clock.newDate (JS.ofZ x) = Some x.
Proof.
  intros Hx. unfold Clock.newDate, JS.ofZ.
  assert (Hle : Qle_bool (Qabs (inject_Z x)) (inject_Z 8640000000000000) = true).
  { apply Qle_bool_iff. unfold Qle, Qabs, inject_Z. cbn [Qnum Qden]. lia. }
  rewrite Hle. cbn [Qnum Qden inject_Z]. now rewrite Z.quot_1_r.
Qed.

(** X23. [unixTimestampToEasternTime] renders a live time as the Eastern
    wall-clock time of day in the HH:MM:SS shape of the schedule strings:
    for a timestamp whose Eastern time of day is [hh:mm:ss], the result is
    the schedule string for [hh], [mm] and [ss], except that a host whose
    24-hour cycle counts the hour after midnight as 24 prints 24 for the
    hour 0. *)
Theorem unixTimestampToEasternTime_schedule_shape :
  forall (h : Clock.Host) (timestamp hh mm ss : Z),
    Z.abs timestamp <= 8640000000000 ->
    0 <= hh < 24 -> 0 <= mm < 60 -> 0 <= ss < 60 ->
    (timestamp + Clock.eastern h timestamp) mod 86400
    = hh * 3600 + mm * 60 + ss ->
    Timezone.unixTimestampToEasternTime h timestamp
    = (Clock.hourField h hh ++ ":" ++ Clock.pad 2 mm ++ ":" ++ Clock.pad 2 ss)%string
    /\ (hh <> 0 \/ Clock.midnight24 h = false ->
        Timezone.unixTimestampToEasternTime h timestamp = Spec.hms hh mm ss).
Proof.
  intros h t hh mm ss Ht Hh Hm Hs Hsod.
  assert (Hr : Timezone.unixTimestampToEasternTime h t
               = (Clock.hourField h hh ++ ":" ++ Clock.pad 2 mm ++ ":"
                    ++ Clock.pad 2 ss)%string).
  { unfold Timezone.unixTimestampToEasternTime.
    rewrite newDate_ofZ by lia.
    unfold Clock.toEasternTimeString, Clock.renderHMS.
    rewrite Z.div_mul by lia. cbv zeta. rewrite Hsod.
    replace ((hh * 3600 + mm * 60 + ss) / 3600) with hh
      by (apply (Z.div_unique _ 3600 hh (mm * 60 + ss)); lia).
    replace ((hh * 3600 + mm * 60 + ss) / 60) with (hh * 60 + mm)
      by (apply (Z.div_unique _ 60 (hh * 60 + mm) ss); lia).
    replace ((hh * 60 + mm) mod 60) with mm
      by (apply (Z.mod_unique _ 60 hh mm); lia).
    replace ((hh * 3600 + mm * 60 + ss) mod 60) with ss
      by (apply (Z.mod_unique _ 60 (hh * 60 + mm) ss); lia).
    reflexivity. }
  split; [exact Hr|].
  intros Hcycle. rewrite Hr. unfold Spec.hms, Clock.hourField.
  destruct Hcycle as [Hnz | ->].
  - destruct (Z.eqb_spec hh 0); [contradiction | reflexivity].
  - now rewrite andb_false_r.
Qed.

Lemma unixTimestampToEasternTime_schedule_shape_witness :
  Timezone.unixTimestampToEasternTime Sample.utcHost 46920
  = Spec.hms 8 2 0.
Proof.
  apply (unixTimestampToEasternTime_schedule_shape Sample.utcHost 46920 8 2 0);
    try lia; reflexivity.
Defined.

(** ** Instances *)

Lemma getRouteShape_not_found_or_nonempty_witness :
  exists shape,
    Service.getRouteShape (Sample.schedule []) "FS" None None = Some shape
    /\ Service.coordinates shape <> []
    /\ Service.filteredSegment shape = false.
Proof.
  eexists. split; [reflexivity|].
  destruct (proj2 (getRouteShape_not_found_or_nonempty
                     (Sample.schedule []) "FS" None None) _ eq_refl)
    as [Hne [Hf _]].
  split; [exact Hne | exact Hf].
Defined.


Lemma getRouteInfo_by_id_only_witness :
  Facade.getRouteInfo Sample.utcHost Sample.mondayEvening Sample2.running "S"
  = None
  /\ exists info,
       Facade.getRouteInfo Sample.utcHost Sample.mondayEvening
         Sample2.running "FS" = Some info
       /\ Facade.route_id info = "FS"%string.
Proof.
  split.
  - apply (proj1 (getRouteInfo_by_id_only Sample.utcHost Sample.mondayEvening
                    Sample2.running "S")).
    intros route [<-|[<-|[]]]; discriminate.
  - eexists. split; [reflexivity|].
    apply (proj2 (getRouteInfo_by_id_only Sample.utcHost Sample.mondayEvening
                    Sample2.running "FS") _ eq_refl).
Defined.

Lemma pickFields_lookup_witness :
  Static.get (Static.pickFields Sample2.routeRow ["route_id"; "route_color"]%string)
             "agency_id"
  = None
  /\ Static.get (Static.pickFields Sample2.routeRow
                   ["route_id"; "route_color"]%string) "route_id"
     = Some "GS"%string.
Proof.
  split.
  - exact (pickFields_lookup Sample2.routeRow
             ["route_id"; "route_color"]%string "agency_id").
  - exact (pickFields_lookup Sample2.routeRow
             ["route_id"; "route_color"]%string "route_id").
Defined.
